(** * CLP: processes, pools and their Lua binding (task.c, pool.c)

    A shallow embedding of [src/task.c] and [src/pool.c].  The two files are
    Lua C-API glue around a C heap of tasks, pools, instances and channels, so
    the embedding has two layers:

    - a model of the part of the Lua C API the two files use: a value stack,
      the registry, tables and full userdata held by reference, metatables,
      protected and unprotected calls, [luaL_error] as an exception that keeps
      the side effects made before it;
    - the C heap: one list of typed cells addressed by non-null pointers.

    Every C function is then translated statement by statement into a
    computation of the state-and-error monad [CM].

    Conventions.  C [int]s are [Z] with 32-bit wrap-around written out
    ([to_int]).  Lua numbers are restricted to integral values ([Z]).
    Headers ([task.h], [pool.h], [scheduler.h], [marshal.h]) and the channel,
    queue, scheduler and marshaller modules are not part of the two files;
    what the code needs of them is modelled below and marked as such. *)

From stdpp Require Import gmap strings list fin_maps.
From Stdlib Require Import ZArith Ascii.
Local Open Scope Z_scope.

(** ** C integers *)

Definition INT_MIN : Z := - 2 ^ 31.
Definition INT_MAX : Z := 2 ^ 31 - 1.

(** Conversion of an integer to a 32-bit two's complement [int]. *)
Definition to_int (z : Z) : Z := (z + 2 ^ 31) mod 2 ^ 32 - 2 ^ 31.

(** ** Pointers

    The address of a heap cell; [NULL] is 0 and cell [k] of the heap has
    address [S k]. *)
Abbreviation ptr := nat (only parsing).
Definition NULL : ptr := 0%nat.

(** ** Lua values *)

(** C functions that the two files push with [lua_pushcfunction] or register
    in a metatable. *)
Inductive cfun : Set :=
  | F_task_eq | F_task_gc | F_task_tostring | F_task_ptr | F_get_max_instances
  | F_task_getenv | F_task_wrap | F_task_input | F_task_setinput
  | F_task_instantiate | F_task_destroyinstances | F_task_getparent
  | F_task_getpool | F_task_setpool
  | F_pool_tostring | F_pool_eq | F_pool_ptr | F_pool_size | F_pool_addthread
  | F_pool_killthread
  | F_mar_encode | F_mar_decode
  | F_clp_channelnew | F_channel_ptr
  | F_luaopen (lib : string).

Global Instance cfun_eq_dec : EqDecision cfun.
Proof. solve_decision. Defined.

(** Tables and full userdata are references into the interpreter's heap; two
    such values are the same object exactly when the references are equal.
    Functions written in Lua are kept symbolic: a user closure is an opaque
    identifier, a loaded chunk is its source text, and the two closures that
    the chunk of [clp_initinstance] builds have a constructor each. *)
Inductive lua_value : Set :=
  | LNil
  | LBoolean (b : bool)
  | LNumber (n : Z)
  | LString (s : string)
  | LLightUserdata (p : ptr)
  | LUserdata (u : nat)
  | LTable (r : nat)
  | LCFunction (f : cfun)
  | LClosure (id : nat)
  | LChunk (src : string)
  | LIdentity                     (* function(e) return e end *)
  | LDriver (h s : lua_value).    (* coroutine.wrap(function() while true do h(s:input():get()) end end) *)

Global Instance lua_value_eq_dec : EqDecision lua_value.
Proof. solve_decision. Defined.

Inductive lua_type_t : Set :=
  | LUA_TNONE | LUA_TNIL | LUA_TBOOLEAN | LUA_TLIGHTUSERDATA | LUA_TNUMBER
  | LUA_TSTRING | LUA_TTABLE | LUA_TFUNCTION | LUA_TUSERDATA.

Global Instance lua_type_t_eq_dec : EqDecision lua_type_t.
Proof. solve_decision. Defined.

Definition ttype (v : lua_value) : lua_type_t :=
  match v with
  | LNil => LUA_TNIL
  | LBoolean _ => LUA_TBOOLEAN
  | LNumber _ => LUA_TNUMBER
  | LString _ => LUA_TSTRING
  | LLightUserdata _ => LUA_TLIGHTUSERDATA
  | LUserdata _ => LUA_TUSERDATA
  | LTable _ => LUA_TTABLE
  | LCFunction _ | LClosure _ | LChunk _ | LIdentity | LDriver _ _ => LUA_TFUNCTION
  end.

(** Table keys.  The two files index tables with strings and with light
    userdata only. *)
Inductive lkey : Set :=
  | KStr (s : string)
  | KPtr (p : ptr).

Global Instance lkey_eq_dec : EqDecision lkey.
Proof. solve_decision. Defined.

Global Instance lkey_countable : Countable lkey.
Proof.
  refine (inj_countable'
            (λ k, match k with KStr s => inl s | KPtr p => inr p end)
            (λ x, match x with inl s => KStr s | inr p => KPtr p end) _).
  by intros [].
Defined.

Definition to_key (v : lua_value) : option lkey :=
  match v with
  | LString s => Some (KStr s)
  | LLightUserdata p => Some (KPtr p)
  | _ => None
  end.

Record ltable : Type := mk_ltable {
  tb_fields : gmap lkey lua_value;
  tb_meta : option nat;
}.

(** A full userdata of these modules is one pointer wide (it is allocated
    with the size of a task or pool pointer): [ud_block] is the pointer
    stored in it. *)
Record ludata : Set := mk_ludata {
  ud_block : ptr;
  ud_meta : option nat;
}.

Record lua_State : Type := mk_lua_State {
  stack : list lua_value;
  registry : gmap lkey lua_value;
  tables : list ltable;
  udata : list ludata;
}.

(** [luaL_newstate]: a fresh interpreter. *)
Definition luaL_newstate : lua_State :=
  {| stack := []; registry := ∅; tables := []; udata := [] |}.

(** ** The C heap *)

(** Modelled from the spec: the states of an instance, "state ∈ {CREATED,
    READY, RUNNING, BLOCKED, DEAD}".  The enumeration is declared in a header
    that is not among the sources; the two files use [I_CREATED] and
    [I_READY]. *)
Inductive instance_state : Set :=
  | I_CREATED | I_READY | I_RUNNING | I_BLOCKED | I_DEAD.

(** Modelled from the spec: [struct clp_Task] is declared in a header that is
    not among the sources.  "Fields: serialized closure bytes ([env]) and its
    length; ... an input [Channel] ...; an atomic counter [instances] ...; a
    reference to the target [Pool]; ... [parent]".  The fields are named as
    [task.c] reads and writes them; [t_env] points to a buffer of bytes or is
    [NULL]. *)
Record clp_Task : Set := mk_clp_Task {
  t_env : ptr;
  t_env_len : Z;
  t_instances : Z;
  t_intances_mutex : bool;        (* true: held *)
  t_input : ptr;
  t_pool : ptr;
  t_parent : ptr;
}.

(** Modelled from the spec: [struct pool_s] is declared in a header that is
    not among the sources.  "Fields: [ready] ... (the work queue); [size]:
    current worker count; ... a mutex guarding size adjustments".  The fields
    are named as [pool.c] reads and writes them. *)
Record pool_s : Set := mk_pool_s {
  p_size : Z;
  p_lock : Z;
  p_ready : ptr;
}.

(** Modelled from the spec: [struct instance_s] is declared in a header that
    is not among the sources.  An instance is "one isolated interpreter + its
    execution state"; it "exclusively owns its interpreter".  The fields are
    named as [task.c] reads and writes them. *)
Record instance_s : Type := mk_instance_s {
  i_L : lua_State;
  i_task : ptr;
  i_state : instance_state;
  i_chan : ptr;
  i_ev : ptr;
}.

(** Modelled from the spec: the lock-free queue module is not among the
    sources.  "Multi-producer, multi-consumer FIFO over opaque pointer-sized
    items"; "[set_capacity(n)] where [n < 0] means unbounded".  Items are
    pointers, the null pointer included. *)
Record lfqueue : Set := mk_lfqueue {
  q_items : list ptr;
  q_capacity : Z;
}.

(** Modelled from the spec: the channel module is not among the sources.  A
    channel is "an internal Queue<Message>" and "a list of waiting
    Instances". *)
Record channel_s : Set := mk_channel_s {
  ch_messages : list lua_value;
  ch_waiters : list ptr;
}.

Inductive cell : Type :=
  | CTask (t : clp_Task)
  | CPool (p : pool_s)
  | CInstance (i : instance_s)
  | CQueue (q : lfqueue)
  | CChannel (c : channel_s)
  | CBytes (b : string)
  | CFreed.

(** The process: its heap, its worker threads (each entry is the pool the
    thread serves) and the global [clp_defaultpool]. *)
Record world : Type := mk_world {
  mem : list cell;
  threads : list ptr;
  clp_defaultpool : ptr;
}.

Definition deref (w : world) (p : ptr) : option cell :=
  match p with
  | O => None
  | S k => mem w !! k
  end.

Definition store (p : ptr) (c : cell) (w : world) : world :=
  match p with
  | O => w
  | S k => {| mem := <[k := c]> (mem w); threads := threads w;
              clp_defaultpool := clp_defaultpool w |}
  end.

Definition alloc (c : cell) (w : world) : ptr * world :=
  (S (length (mem w)),
   {| mem := mem w ++ [c]; threads := threads w;
      clp_defaultpool := clp_defaultpool w |}).

Definition get_task (w : world) (p : ptr) : option clp_Task :=
  match deref w p with Some (CTask t) => Some t | _ => None end.
Definition get_pool (w : world) (p : ptr) : option pool_s :=
  match deref w p with Some (CPool x) => Some x | _ => None end.
Definition get_instance (w : world) (p : ptr) : option instance_s :=
  match deref w p with Some (CInstance x) => Some x | _ => None end.
Definition get_queue (w : world) (p : ptr) : option lfqueue :=
  match deref w p with Some (CQueue x) => Some x | _ => None end.
Definition get_channel (w : world) (p : ptr) : option channel_s :=
  match deref w p with Some (CChannel x) => Some x | _ => None end.
Definition get_bytes (w : world) (p : ptr) : option string :=
  match deref w p with Some (CBytes x) => Some x | _ => None end.

(** ** The monad of C functions

    A C function of the binding runs on the calling interpreter [L] and on the
    process [W].  It returns, raises a Lua error ([luaL_error], a [longjmp]:
    the effects made so far stay), or leaves the model ([Fault]: a wild
    pointer, or a Lua feature that is not modelled). *)
Record cstate : Type := mk_cstate {
  W : world;
  L : lua_State;
}.

Inductive outcome (A : Type) : Type :=
  | Ret (a : A) (s : cstate)
  | Raise (msg : string) (s : cstate)
  | Fault.
Arguments Ret {A} a s.
Arguments Raise {A} msg s.
Arguments Fault {A}.

Definition CM (A : Type) : Type := cstate → outcome A.

Global Instance CM_ret : MRet CM := λ A a s, Ret a s.
Global Instance CM_bind : MBind CM := λ A B f m s,
  match m s with
  | Ret a s' => f a s'
  | Raise e s' => Raise e s'
  | Fault => Fault
  end.

Definition fault {A} : CM A := λ _, Fault.
Definition luaL_error {A} (msg : string) : CM A := λ s, Raise msg s.

Definition getL : CM lua_State := λ s, Ret (L s) s.
Definition putL (l : lua_State) : CM unit := λ s, Ret () {| W := W s; L := l |}.
Definition getW : CM world := λ s, Ret (W s) s.
Definition putW (w : world) : CM unit := λ s, Ret () {| W := w; L := L s |}.

(** [if (c) stmt;] *)
Definition when (c : bool) (m : CM unit) : CM unit := if c then m else mret ().

(** Reading an [option]: [None] is a wild access. *)
Definition must {A} (o : option A) : CM A :=
  match o with Some a => mret a | None => fault end.

Definition malloc (c : cell) : CM ptr :=
  w ← getW; let '(p, w') := alloc c w in putW w';; mret p.

Definition load_task (p : ptr) : CM clp_Task := w ← getW; must (get_task w p).
Definition load_pool (p : ptr) : CM pool_s := w ← getW; must (get_pool w p).
Definition load_instance (p : ptr) : CM instance_s := w ← getW; must (get_instance w p).
Definition load_queue (p : ptr) : CM lfqueue := w ← getW; must (get_queue w p).
Definition load_channel (p : ptr) : CM channel_s := w ← getW; must (get_channel w p).
Definition load_bytes (p : ptr) : CM string := w ← getW; must (get_bytes w p).

Definition store_task (p : ptr) (t : clp_Task) : CM unit :=
  _ ← load_task p; w ← getW; putW (store p (CTask t) w).
Definition store_pool (p : ptr) (x : pool_s) : CM unit :=
  _ ← load_pool p; w ← getW; putW (store p (CPool x) w).
Definition store_instance (p : ptr) (x : instance_s) : CM unit :=
  _ ← load_instance p; w ← getW; putW (store p (CInstance x) w).
Definition store_queue (p : ptr) (x : lfqueue) : CM unit :=
  _ ← load_queue p; w ← getW; putW (store p (CQueue x) w).

(** [free]: the block must be a live buffer. *)
Definition free (p : ptr) : CM unit :=
  _ ← load_bytes p; w ← getW; putW (store p CFreed w).

(** ** The Lua C API *)

Definition LUA_REGISTRYINDEX : Z := -10000.

(** The stack of a frame is a list with the top of the stack first.
    [abs_index] is the position in that list of an index: negative indices
    count from the top, positive ones from the bottom of the frame. *)
Definition abs_index (l : lua_State) (i : Z) : option nat :=
  if i <? 0 then Some (Z.to_nat (- i - 1))
  else if (0 <? i) && (i <=? Z.of_nat (length (stack l)))
       then Some (length (stack l) - Z.to_nat i)%nat
  else None.

(** A frame holding the given arguments, the first one at index 1. *)
Definition frame (args : list lua_value) : list lua_value := reverse args.

Definition index2adr (l : lua_State) (i : Z) : option lua_value :=
  k ← abs_index l i; stack l !! k.

Definition lua_gettop : CM Z := l ← getL; mret (Z.of_nat (length (stack l))).

Definition lua_type (i : Z) : CM lua_type_t :=
  l ← getL; mret (from_option ttype LUA_TNONE (index2adr l i)).

Definition lua_isnil (i : Z) : CM bool :=
  t ← lua_type i; mret (bool_decide (t = LUA_TNIL)).
Definition lua_istable (i : Z) : CM bool :=
  t ← lua_type i; mret (bool_decide (t = LUA_TTABLE)).
(** True for full and for light userdata. *)
Definition lua_isuserdata (i : Z) : CM bool :=
  t ← lua_type i;
  mret (bool_decide (t = LUA_TUSERDATA) || bool_decide (t = LUA_TLIGHTUSERDATA)).

Definition set_stack (s : list lua_value) (l : lua_State) : lua_State :=
  {| stack := s; registry := registry l; tables := tables l; udata := udata l |}.
Definition set_registry (r : gmap lkey lua_value) (l : lua_State) : lua_State :=
  {| stack := stack l; registry := r; tables := tables l; udata := udata l |}.
Definition set_tables (t : list ltable) (l : lua_State) : lua_State :=
  {| stack := stack l; registry := registry l; tables := t; udata := udata l |}.
Definition set_udata (u : list ludata) (l : lua_State) : lua_State :=
  {| stack := stack l; registry := registry l; tables := tables l; udata := u |}.

Definition push (v : lua_value) : CM unit :=
  l ← getL; putL (set_stack (v :: stack l) l).

Definition lua_pushnil : CM unit := push LNil.
Definition lua_pushnumber (n : Z) : CM unit := push (LNumber n).
Definition lua_pushinteger (n : Z) : CM unit := push (LNumber n).
Definition lua_pushboolean (b : bool) : CM unit := push (LBoolean b).
Definition lua_pushliteral (s : string) : CM unit := push (LString s).
Definition lua_pushlstring (s : string) (len : Z) : CM unit :=
  push (LString (String.substring 0 (Z.to_nat len) s)).
Definition lua_pushlightuserdata (p : ptr) : CM unit := push (LLightUserdata p).
Definition lua_pushcfunction (f : cfun) : CM unit := push (LCFunction f).
Definition luaL_loadstring (src : string) : CM unit := push (LChunk src).
Definition luaL_loadbuffer (src : string) (name : string) : CM unit := push (LChunk src).

(** An index that is not acceptable reads as nil. *)
Definition lua_pushvalue (i : Z) : CM unit :=
  l ← getL; push (default LNil (index2adr l i)).

Definition lua_pop (n : Z) : CM unit :=
  l ← getL;
  if n <=? 0 then mret ()
  else match stack l !! Z.to_nat (n - 1) with
       | Some _ => putL (set_stack (drop (Z.to_nat n) (stack l)) l)
       | None => fault
       end.

(** Removes the element at the index, shifting down the elements above. *)
Definition lua_remove (i : Z) : CM unit :=
  l ← getL; k ← must (abs_index l i);
  _ ← must (stack l !! k);
  putL (set_stack (delete k (stack l)) l).

(** Moves the top element into the index, shifting up the elements above. *)
Definition lua_insert (i : Z) : CM unit :=
  l ← getL; k ← must (abs_index l i);
  match stack l with
  | v :: s => putL (set_stack (take k s ++ v :: drop k s) l)
  | [] => fault
  end.

Definition rawget (l : lua_State) (r : nat) (k : lkey) : lua_value :=
  match tables l !! r with
  | Some t => default LNil (tb_fields t !! k)
  | None => LNil
  end.

(** Storing nil removes the key. *)
Definition map_set (k : lkey) (v : lua_value) (m : gmap lkey lua_value) :
    gmap lkey lua_value :=
  if decide (v = LNil) then delete k m else <[k := v]> m.

Definition rawset (r : nat) (k : lkey) (v : lua_value) (l : lua_State) : lua_State :=
  match tables l !! r with
  | Some t =>
      set_tables (<[r := {| tb_fields := map_set k v (tb_fields t);
                            tb_meta := tb_meta t |}]> (tables l)) l
  | None => l
  end.

Definition getmetatable (l : lua_State) (v : lua_value) : option nat :=
  match v with
  | LTable r => t ← tables l !! r; tb_meta t
  | LUserdata u => d ← udata l !! u; ud_meta d
  | _ => None
  end.

(** [luaV_gettable]: indexing with the [__index] metamethod, which is followed
    when it is a table (the only kind these modules install); [None] is the
    error of indexing a value that cannot be indexed, or a handler that is
    not a table. *)
Fixpoint luaV_gettable (loop : nat) (l : lua_State) (v : lua_value) (k : lkey) :
    option lua_value :=
  match loop with
  | O => None
  | S loop' =>
      let handler :=
        match getmetatable l v with
        | Some m => rawget l m (KStr "__index")
        | None => LNil
        end in
      match v with
      | LTable r =>
          match rawget l r k with
          | LNil =>
              match handler with
              | LNil => Some LNil
              | LTable _ => luaV_gettable loop' l handler k
              | _ => None
              end
          | x => Some x
          end
      | _ =>
          match handler with
          | LTable _ => luaV_gettable loop' l handler k
          | _ => None
          end
      end
  end.

Definition MAXTAGLOOP : nat := 100.

(** [t[k]] for a value [t]. *)
Definition index_value (t : lua_value) (k : lkey) : CM lua_value :=
  l ← getL;
  match luaV_gettable MAXTAGLOOP l t k with
  | Some v => mret v
  | None => luaL_error "attempt to index a value that is not a table"
  end.

(** [t[k] = v] for a value [t]; the tables of these modules have no
    [__newindex], the assignment is raw. *)
Definition setindex_value (t : lua_value) (k : lkey) (v : lua_value) : CM unit :=
  l ← getL;
  match t with
  | LTable r => putL (rawset r k v l)
  | _ => luaL_error "attempt to index a value that is not a table"
  end.

(** The same where [t] is at a stack index or is the registry. *)
Definition gettable_at (i : Z) (k : lkey) : CM lua_value :=
  l ← getL;
  if bool_decide (i = LUA_REGISTRYINDEX) then mret (default LNil (registry l !! k))
  else t ← must (index2adr l i); index_value t k.

Definition settable_at (i : Z) (k : lkey) (v : lua_value) : CM unit :=
  l ← getL;
  if bool_decide (i = LUA_REGISTRYINDEX)
  then putL (set_registry (map_set k v (registry l)) l)
  else t ← must (index2adr l i); setindex_value t k v.

Definition lua_getfield (i : Z) (k : string) : CM unit :=
  v ← gettable_at i (KStr k); push v.

(** Pops the key, pushes [t[key]]. *)
Definition lua_gettable (i : Z) : CM unit :=
  l ← getL; kv ← must (head (stack l)); k ← must (to_key kv);
  v ← gettable_at i k;
  lua_pop 1;; push v.

(** [t[k] = v] with [v] on top of the stack; pops it. *)
Definition lua_setfield (i : Z) (k : string) : CM unit :=
  l ← getL; v ← must (head (stack l));
  settable_at i (KStr k) v;; lua_pop 1.

(** [t[k] = v] with [v] on top of the stack and [k] below it; pops both. *)
Definition lua_settable (i : Z) : CM unit :=
  l ← getL; v ← must (index2adr l (-1)); kv ← must (index2adr l (-2));
  k ← must (to_key kv);
  settable_at i k v;; lua_pop 2.

Definition lua_newtable : CM unit :=
  l ← getL;
  putL (set_tables (tables l ++ [{| tb_fields := ∅; tb_meta := None |}]) l);;
  push (LTable (length (tables l))).

(** Allocates a userdata one pointer wide, pushes it and returns its
    reference; the pointer in the block is not initialised (modelled as
    [NULL]). *)
Definition lua_newuserdata : CM nat :=
  l ← getL;
  putL (set_udata (udata l ++ [{| ud_block := NULL; ud_meta := None |}]) l);;
  push (LUserdata (length (udata l)));;
  mret (length (udata l)).

(** [*s = t] and [*s] for a userdata block [s]. *)
Definition write_block (u : nat) (p : ptr) : CM unit :=
  l ← getL; d ← must (udata l !! u);
  putL (set_udata (<[u := {| ud_block := p; ud_meta := ud_meta d |}]> (udata l)) l).
Definition read_block (u : nat) : CM ptr :=
  l ← getL; d ← must (udata l !! u); mret (ud_block d).

(** Pops a table (or nil) and makes it the metatable of the value at the
    index. *)
Definition lua_setmetatable (i : Z) : CM unit :=
  l ← getL; m ← must (head (stack l)); v ← must (index2adr l i);
  mt ← match m with
       | LNil => mret None
       | LTable r => mret (Some r)
       | _ => fault
       end;
  match v with
  | LTable r =>
      t ← must (tables l !! r);
      putL (set_tables (<[r := {| tb_fields := tb_fields t; tb_meta := mt |}]> (tables l)) l)
  | LUserdata u =>
      d ← must (udata l !! u);
      putL (set_udata (<[u := {| ud_block := ud_block d; ud_meta := mt |}]> (udata l)) l)
  | _ => fault
  end;;
  lua_pop 1.

Definition luaL_getmetatable (tname : string) : CM unit :=
  lua_getfield LUA_REGISTRYINDEX tname.

Definition luaL_newmetatable (tname : string) : CM Z :=
  luaL_getmetatable tname;;
  nil ← lua_isnil (-1);
  if negb nil then mret 0
  else
    lua_pop 1;;
    lua_newtable;;
    lua_pushvalue (-1);;
    lua_setfield LUA_REGISTRYINDEX tname;;
    mret 1.

(** [luaL_typerror]: the argument is not of the expected type. *)
Definition luaL_typerror {A} (tname : string) : CM A :=
  luaL_error ("bad argument (" +:+ tname +:+ " expected)").

(** Returns the block of the userdata at the index when its metatable is the
    one registered under [tname]; raises otherwise (it never returns null). *)
Definition luaL_checkudata (i : Z) (tname : string) : CM nat :=
  l ← getL;
  match index2adr l i with
  | Some (LUserdata u) =>
      match getmetatable l (LUserdata u), registry l !! KStr tname with
      | Some m, Some (LTable m') =>
          if decide (m = m') then mret u else luaL_typerror tname
      | _, _ => luaL_typerror tname
      end
  | _ => luaL_typerror tname
  end.

Definition luaL_checktype (i : Z) (t : lua_type_t) : CM unit :=
  ty ← lua_type i;
  when (negb (bool_decide (ty = t))) (luaL_typerror "value of another type").

Definition luaL_argcheck (cond : bool) (msg : string) : CM unit :=
  when (negb cond) (luaL_error ("bad argument (" +:+ msg +:+ ")")).

(** [lua_tointeger]: the number at the index, 0 when the value is not a
    number.  The coercion of numeric strings is not modelled. *)
Definition lua_tointeger (i : Z) : CM Z :=
  l ← getL;
  match index2adr l i with
  | Some (LNumber n) => mret n
  | Some (LString _) => fault
  | _ => mret 0
  end.

(** [luaL_optint]: the default when the argument is absent or nil, the
    argument as an [int] when it is a number, an error otherwise. *)
Definition luaL_optint (i : Z) (d : Z) : CM Z :=
  l ← getL;
  match index2adr l i with
  | None | Some LNil => mret d
  | Some (LNumber n) => mret (to_int n)
  | Some (LString _) => fault
  | Some _ => luaL_typerror "number"
  end.

(** [lua_touserdata]: the pointer held by a light userdata, null for a value
    that is no userdata.  The address of the block of a full userdata is an
    address of the interpreter's memory and has no counterpart in the heap
    of cells. *)
Definition lua_touserdata (i : Z) : CM ptr :=
  l ← getL;
  match index2adr l i with
  | Some (LLightUserdata p) => mret p
  | Some (LUserdata _) => fault
  | _ => mret NULL
  end.

(** [lua_tolstring]: the string at the index or null.  The conversion of a
    number in place is not modelled. *)
Definition lua_tolstring (i : Z) : CM (option string) :=
  l ← getL;
  match index2adr l i with
  | Some (LString s) => mret (Some s)
  | Some (LNumber _) => fault
  | _ => mret None
  end.

(** *** Calls

    A C function returns the number of its results, which are the topmost
    values of its frame.  [lua_call callee nargs nresults] finds the function
    below its [nargs] arguments, runs it on a frame made of the arguments and
    replaces function and arguments by [nresults] results (the results are
    cut or filled with nil to that number).  [callee] tells
    which code a function value stands for. *)
Definition lua_CFunction : Type := CM Z.

Definition adjust_results (nresults : nat) (res : list lua_value) : list lua_value :=
  replicate (nresults - length res) LNil ++ drop (length res - nresults) res.

Definition enter_frame (nargs : nat) (s : cstate) : cstate :=
  {| W := W s; L := set_stack (take nargs (stack (L s))) (L s) |}.

(** The callee returned [k] results on a frame that ends as [s']; [below] is
    what the caller had under the function. *)
Definition leave_frame (below : list lua_value) (nresults k : nat)
    (s' : cstate) : outcome unit :=
  let out := stack (L s') in
  match nresults, k with
  | O, _ => Ret () {| W := W s'; L := set_stack below (L s') |}
  | _, O => Ret () {| W := W s';
                      L := set_stack (adjust_results nresults [] ++ below) (L s') |}
  | _, S k' =>
      match out !! k' with
      | Some _ =>
          Ret () {| W := W s';
                    L := set_stack (adjust_results nresults (take k out) ++ below) (L s') |}
      | None => Fault
      end
  end.

Definition lua_call (callee : lua_value → option lua_CFunction)
    (nargs nresults : Z) : CM unit := λ s,
  let stk := stack (L s) in
  let nargs := Z.to_nat nargs in
  match stk !! nargs ≫= callee with
  | None => Fault
  | Some f =>
      match f (enter_frame nargs s) with
      | Ret k s' => leave_frame (drop (S nargs) stk) (Z.to_nat nresults) (Z.to_nat k) s'
      | Raise e s' => Raise e s'
      | Fault => Fault
      end
  end.

Definition LUA_ERRRUN : Z := 2.

(** [lua_pcall] with no error handler: an error of the callee is caught, the
    message replaces function and arguments. *)
Definition lua_pcall (callee : lua_value → option lua_CFunction)
    (nargs nresults : Z) : CM Z := λ s,
  let below := drop (S (Z.to_nat nargs)) (stack (L s)) in
  match lua_call callee nargs nresults s with
  | Ret _ s' => Ret 0 s'
  | Raise e s' =>
      Ret LUA_ERRRUN {| W := W s'; L := set_stack (LString e :: below) (L s') |}
  | Fault => Fault
  end.

(** The code behind a pushed C function. *)
Definition is_cfun (c : cfun) (f : lua_CFunction) (v : lua_value) :
    option lua_CFunction :=
  if decide (v = LCFunction c) then Some f else None.

(** Modelled from the spec: [LUA_REGISTER (L, funcs)] is a macro of a header
    that is not among the sources, and the spec does not describe it; it is
    used where [luaL_register (L, NULL, funcs)] would be, and is taken to set
    each function of the array in the table on top of the stack. *)
Fixpoint LUA_REGISTER (funcs : list (string * cfun)) : CM unit :=
  match funcs with
  | [] => mret ()
  | (name, f) :: rest =>
      lua_pushcfunction f;; lua_setfield (-2) name;; LUA_REGISTER rest
  end.

(** ** The collaborators of the two files *)

(** *** Marshaller

    Modelled from the spec: the marshaller ([mar_encode], [mar_decode]) is not
    among the sources.  It "provides [encode(value) → bytes] and
    [decode(bytes) → value]" such that decoding the encoding of a function
    gives an equivalent function, and "nontransferable values ... are
    rejected".  The model covers the tables the two files marshal, which hold
    a function under ["f"] and possibly one under ["e"]; a user closure
    travels as its identifier. *)
Module Marshal.

(** Modelled from the spec: the bytes of a closure, its identifier in unary. *)
Fixpoint encode_id (n : nat) : string :=
  match n with
  | O => ";"
  | S k => String "i"%char (encode_id k)
  end.

(** Modelled from the spec: reads back one identifier and returns the rest
    of the bytes. *)
Fixpoint decode_id (s : string) : option (nat * string) :=
  match s with
  | EmptyString => None
  | String c rest =>
      if Ascii.eqb c ";"%char then Some (O, rest)
      else if Ascii.eqb c "i"%char then
        match decode_id rest with
        | Some (n, r) => Some (S n, r)
        | None => None
        end
      else None
  end.

(** Modelled from the spec: [encode] of the table [{f = f, e = e}]. *)
Definition encode_env (f : nat) (e : option nat) : string :=
  encode_id f +:+ match e with Some b => encode_id b | None => "" end.

(** Modelled from the spec: [decode]; it rejects bytes that are no encoding. *)
Definition decode_env (s : string) : option (nat * option nat) :=
  match decode_id s with
  | Some (f, EmptyString) => Some (f, None)
  | Some (f, rest) =>
      match decode_id rest with
      | Some (e, EmptyString) => Some (f, Some e)
      | _ => None
      end
  | None => None
  end.

End Marshal.

(** Modelled from the spec: [mar_encode], "[encode(value) → bytes]"; one
    argument, the table; one result, the bytes. *)
Definition mar_encode : lua_CFunction :=
  l ← getL;
  match index2adr l 1 with
  | Some (LTable r) =>
      match rawget l r (KStr "f"), rawget l r (KStr "e") with
      | LClosure f, LNil => push (LString (Marshal.encode_env f None));; mret 1
      | LClosure f, LClosure e => push (LString (Marshal.encode_env f (Some e)));; mret 1
      | _, _ => luaL_error "value cannot be marshalled"
      end
  | _ => luaL_error "value cannot be marshalled"
  end.

(** Modelled from the spec: [mar_decode], "[decode(bytes) → value]"; one
    argument, the bytes; one result, a new table. *)
Definition mar_decode : lua_CFunction :=
  l ← getL;
  match index2adr l 1 with
  | Some (LString b) =>
      match Marshal.decode_env b with
      | Some (f, e) =>
          lua_newtable;;
          push (LClosure f);; lua_setfield (-2) "f";;
          match e with
          | Some e => push (LClosure e);; lua_setfield (-2) "e"
          | None => mret ()
          end;;
          mret 1
      | None => luaL_error "bad code"
      end
  | _ => luaL_error "bad code"
  end.

(** *** Queue

    The lock-free queue module is not among the sources. *)

(** [DEFAULT_QUEUE_CAPACITY] is defined in both files. *)
Definition DEFAULT_QUEUE_CAPACITY : Z := -1.

(** Modelled from the spec: [clp_lfqueue_new], a new, empty queue; it is
    "unbounded by default", and "[set_capacity(n)] where [n < 0] means
    unbounded". *)
Definition clp_lfqueue_new : CM ptr :=
  malloc (CQueue {| q_items := []; q_capacity := DEFAULT_QUEUE_CAPACITY |}).

(** Modelled from the spec: [clp_lfqueue_setcapacity], "[set_capacity(n)]". *)
Definition clp_lfqueue_setcapacity (q : ptr) (n : Z) : CM unit :=
  x ← load_queue q;
  store_queue q {| q_items := q_items x; q_capacity := n |}.

(** Modelled from the spec: [clp_lfqueue_push]; "[push(x)] never blocks and
    never loses items; if capacity is set and reached, [push] fails".
    Returns whether the item was queued. *)
Definition clp_lfqueue_push (q : ptr) (item : ptr) : CM bool :=
  x ← load_queue q;
  if (0 <=? q_capacity x) && (q_capacity x <=? Z.of_nat (length (q_items x)))
  then mret false
  else store_queue q {| q_items := q_items x ++ [item]; q_capacity := q_capacity x |};;
       mret true.

(** *** Registry keys and metatable names *)

(** [CLP_TASK_CACHE] is defined in [task.c]. *)
Definition CLP_TASK_CACHE : string := "clp-process-cache".

(** Modelled from the spec: the other macros are defined in headers that are
    not among the sources, and the spec gives no strings for them.  Each
    stands for a string; the model takes the macro's own name for it, so that
    different macros are different keys. *)
Definition CLP_TASK_METATABLE : string := "CLP_TASK_METATABLE".
Definition CLP_POOL_METATABLE : string := "CLP_POOL_METATABLE".
Definition CLP_CHANNEL_METATABLE : string := "CLP_CHANNEL_METATABLE".
Definition CLP_INSTANCE_KEY : string := "CLP_INSTANCE_KEY".
Definition CLP_ENV_KEY : string := "CLP_ENV_KEY".
Definition CLP_HANDLER_KEY : string := "CLP_HANDLER_KEY".
Definition TASK_HANDLER_KEY : string := "TASK_HANDLER_KEY".
Definition CLP_ERRORFUNCTION_KEY : string := "CLP_ERRORFUNCTION_KEY".

(** *** Channel

    The channel module is not among the sources. *)

(** Modelled from the spec: the [__id] of a channel handle, "[__id] / [ptr]
    returning the stable address as a light opaque value". *)
Definition channel_ptr : lua_CFunction :=
  u ← luaL_checkudata 1 CLP_CHANNEL_METATABLE;
  c ← read_block u;
  lua_pushlightuserdata c;;
  mret 1.

(** Modelled from the spec: the metatable of channel handles; it follows the
    pattern of [get_metatable] in [pool.c], with the [__id] that
    [clp_newtask] calls. *)
Definition get_channelmetatable : CM unit :=
  luaL_getmetatable CLP_CHANNEL_METATABLE;;
  nil ← lua_isnil (-1);
  when nil (
    lua_pop 1;;
    luaL_newmetatable CLP_CHANNEL_METATABLE;;
    lua_pushvalue (-1);;
    lua_setfield (-2) "__index";;
    lua_pushcfunction F_channel_ptr;;
    lua_setfield (-2) "__id").

(** Modelled from the spec: [clp_channelnew] allocates a channel, "an
    internal [Queue<Message>]" and "a list of waiting Instances", both empty,
    and returns its handle, a userdata holding the channel's "stable
    address". *)
Definition clp_channelnew : lua_CFunction :=
  c ← malloc (CChannel {| ch_messages := []; ch_waiters := [] |});
  u ← lua_newuserdata;
  write_block u c;;
  get_channelmetatable;;
  lua_setmetatable (-2);;
  mret 1.

(** *** Task fields *)

Definition set_t_env (v : ptr) (t : clp_Task) : clp_Task :=
  {| t_env := v; t_env_len := t_env_len t; t_instances := t_instances t;
     t_intances_mutex := t_intances_mutex t; t_input := t_input t;
     t_pool := t_pool t; t_parent := t_parent t |}.
Definition set_t_env_len (v : Z) (t : clp_Task) : clp_Task :=
  {| t_env := t_env t; t_env_len := v; t_instances := t_instances t;
     t_intances_mutex := t_intances_mutex t; t_input := t_input t;
     t_pool := t_pool t; t_parent := t_parent t |}.
Definition set_t_instances (v : Z) (t : clp_Task) : clp_Task :=
  {| t_env := t_env t; t_env_len := t_env_len t; t_instances := v;
     t_intances_mutex := t_intances_mutex t; t_input := t_input t;
     t_pool := t_pool t; t_parent := t_parent t |}.
Definition set_t_intances_mutex (v : bool) (t : clp_Task) : clp_Task :=
  {| t_env := t_env t; t_env_len := t_env_len t; t_instances := t_instances t;
     t_intances_mutex := v; t_input := t_input t;
     t_pool := t_pool t; t_parent := t_parent t |}.
Definition set_t_input (v : ptr) (t : clp_Task) : clp_Task :=
  {| t_env := t_env t; t_env_len := t_env_len t; t_instances := t_instances t;
     t_intances_mutex := t_intances_mutex t; t_input := v;
     t_pool := t_pool t; t_parent := t_parent t |}.
Definition set_t_pool (v : ptr) (t : clp_Task) : clp_Task :=
  {| t_env := t_env t; t_env_len := t_env_len t; t_instances := t_instances t;
     t_intances_mutex := t_intances_mutex t; t_input := t_input t;
     t_pool := v; t_parent := t_parent t |}.
Definition set_t_parent (v : ptr) (t : clp_Task) : clp_Task :=
  {| t_env := t_env t; t_env_len := t_env_len t; t_instances := t_instances t;
     t_intances_mutex := t_intances_mutex t; t_input := t_input t;
     t_pool := t_pool t; t_parent := v |}.

(** [s->field = v;] *)
Definition update_task (s : ptr) (f : clp_Task → clp_Task) : CM unit :=
  t ← load_task s; store_task s (f t).

(** A block fresh from [malloc]/[calloc].  [malloc] leaves the fields
    undetermined; each function below assigns every field of the block it
    allocates before the block is read, so the zeroes are never observed. *)
Definition zero_task : clp_Task :=
  {| t_env := NULL; t_env_len := 0; t_instances := 0; t_intances_mutex := false;
     t_input := NULL; t_pool := NULL; t_parent := NULL |}.

(** Modelled from the spec: the macros of the mutex of the instance counter
    are defined in a header that is not among the sources; [instances] is
    changed "atomically".  The model runs one thread: locking waits for the
    holder, if any, and then holds the mutex. *)
Definition MUTEX_INIT (s : ptr) : CM unit := update_task s (set_t_intances_mutex false).
Definition MUTEX_LOCK (s : ptr) : CM unit := update_task s (set_t_intances_mutex true).
Definition MUTEX_UNLOCK (s : ptr) : CM unit := update_task s (set_t_intances_mutex false).

(** *** Scheduler

    The scheduler ([clp_pushinstance], [clp_newthread], the worker body) is
    not among the sources. *)

(** Modelled from the spec: [clp_pushinstance]; [spawn] "creates [n] new
    Instances and hands each to its Pool via the ready queue". *)
Definition clp_pushinstance (i : ptr) : CM unit :=
  x ← load_instance i;
  t ← load_task (i_task x);
  p ← load_pool (t_pool t);
  _ ← clp_lfqueue_push (p_ready p) i;
  mret ().

(** Modelled from the spec: [clp_newthread]; [add(n)] "spawns [n] worker
    threads".  A thread is recorded by the pool it serves. *)
Definition clp_newthread (pool : ptr) : CM unit :=
  w ← getW;
  putW {| mem := mem w; threads := threads w ++ [pool];
          clp_defaultpool := clp_defaultpool w |}.

(** [(void) f (...)] *)
Definition void {A} (m : CM A) : CM unit := _ ← m; mret ().

(** [for (i = 0; i < n; i++) body] for a body that does not read [i]. *)
Fixpoint for_loop (n : nat) (body : CM unit) : CM unit :=
  match n with
  | O => mret ()
  | S k => body;; for_loop k body
  end.

(** ** task.c *)

Definition clp_totask (i : Z) : CM ptr :=
  s ← luaL_checkudata i CLP_TASK_METATABLE;
  luaL_argcheck true "Process expected";;
  read_block s.

(** [size] *)
Definition get_max_instances : lua_CFunction :=
  s ← clp_totask 1;
  t ← load_task s;
  lua_pushnumber (t_instances t);;
  mret 1.

(** [__eq] *)
Definition task_eq : lua_CFunction :=
  s1 ← clp_totask 1;
  s2 ← clp_totask 2;
  lua_pushboolean (bool_decide (s1 = s2));;
  mret 1.

(** [__id] *)
Definition task_ptr : lua_CFunction :=
  s ← luaL_checkudata 1 CLP_TASK_METATABLE;
  p ← read_block s;
  lua_pushlightuserdata p;;
  mret 1.

(** The instance that [clp_newinstance] builds: a fresh interpreter, the task,
    the state [I_CREATED], no channel and no event. *)
Definition new_instance (s : ptr) : instance_s :=
  {| i_L := luaL_newstate; i_task := s; i_state := I_CREATED;
     i_chan := NULL; i_ev := NULL |}.

Definition clp_newinstance (s : ptr) : CM ptr :=
  i ← malloc (CInstance (new_instance s));
  clp_pushinstance i;;
  mret i.

(** [remove] *)
Definition task_destroyinstances : lua_CFunction :=
  s ← clp_totask 1;
  n ← luaL_optint 2 0;
  when (n <? 0) (luaL_error "Argument must be positive");;
  if n =? 0 then
    lua_pushvalue 1;;
    mret 1
  else
    MUTEX_LOCK s;;
    update_task s (λ t, set_t_instances (to_int (t_instances t - n)) t);;
    MUTEX_UNLOCK s;;
    lua_pushvalue 1;;
    mret 1.

(** [spawn] *)
Definition task_instantiate : lua_CFunction :=
  s ← clp_totask 1;
  t ← load_task s;
  when (bool_decide (t_pool t = NULL))
    (luaL_error "Process must be associated to a pool");;
  when (bool_decide (t_env t = NULL))
    (luaL_error "Process must have an environment");;
  n ← lua_tointeger 2;
  let n := to_int n in
  when (n <? 0) (luaL_error "Argument must be positive");;
  if n =? 0 then
    lua_pushvalue 1;;
    mret 1
  else
    MUTEX_LOCK s;;
    update_task s (λ t, set_t_instances (to_int (t_instances t + n)) t);;
    for_loop (Z.to_nat n) (void (clp_newinstance s));;
    MUTEX_UNLOCK s;;
    lua_pushvalue 1;;
    mret 1.

(** [wrap] *)
Definition task_wrap : lua_CFunction :=
  top ← lua_gettop;
  s ← clp_totask 1;
  t ← load_task s;
  when (bool_decide (t_env t ≠ NULL))
    (luaL_error "Process already have a environment");;
  luaL_checktype 2 LUA_TFUNCTION;;
  lua_pushcfunction F_mar_encode;;
  lua_newtable;;
  lua_pushvalue 2;;
  lua_setfield (-2) "f";;
  ty3 ← lua_type 3;
  when (bool_decide (ty3 = LUA_TFUNCTION) && (3 <=? top)) (
    lua_pushvalue 3;;
    lua_setfield (-2) "e");;
  lua_call (is_cfun F_mar_encode mar_encode) 1 1;;
  env ← lua_tolstring (-1) ≫= must;
  let len := Z.of_nat (String.length env) in
  (* malloc (len + 1); envcp[len] = 0; memcpy (envcp, env, len + 1) *)
  envcp ← malloc (CBytes (env +:+ String Ascii.zero EmptyString));
  update_task s (set_t_env envcp);;
  update_task s (set_t_env_len len);;
  lua_pop 1;;
  lua_pushcfunction F_task_instantiate;;
  lua_pushvalue 1;;
  lua_pushnumber 1;;
  lua_call (is_cfun F_task_instantiate task_instantiate) 2 0;;
  lua_pushvalue 1;;
  mret 1.

Definition task_getcached (t : ptr) : CM unit :=
  lua_pushliteral CLP_TASK_CACHE;;
  lua_gettable LUA_REGISTRYINDEX;;
  tbl ← lua_istable (-1);
  when (negb tbl) (
    lua_pop 1;;
    lua_newtable;;
    lua_newtable;;
    lua_pushliteral "v";;
    lua_setfield (-2) "__mode";;
    lua_setmetatable (-2);;
    lua_pushliteral CLP_TASK_CACHE;;
    lua_pushvalue (-2);;
    lua_settable LUA_REGISTRYINDEX);;
  lua_pushlightuserdata t;;
  lua_gettable (-2);;
  lua_remove (-2).

Definition task_putcache (t : ptr) : CM unit :=
  lua_pushliteral CLP_TASK_CACHE;;
  lua_gettable LUA_REGISTRYINDEX;;
  ud ← lua_isuserdata (-1);
  when (negb ud) (
    lua_pop 1;;
    lua_newtable;;
    lua_newtable;;
    lua_pushliteral "v";;
    lua_setfield (-2) "__mode";;
    lua_setmetatable (-2);;
    lua_pushliteral CLP_TASK_CACHE;;
    lua_pushvalue (-2);;
    lua_settable LUA_REGISTRYINDEX);;
  lua_pushlightuserdata t;;
  lua_pushvalue (-3);;
  lua_settable (-3);;
  lua_pop 1.

Definition TaskMetaFunctions : list (string * cfun) :=
  [ ("__eq", F_task_eq);
    ("__gc", F_task_gc);
    ("__tostring", F_task_tostring);
    ("__id", F_task_ptr);
    ("size", F_get_max_instances);
    ("env", F_task_getenv);
    ("wrap", F_task_wrap);
    ("input", F_task_input);
    ("setinput", F_task_setinput);
    ("spawn", F_task_instantiate);
    ("remove", F_task_destroyinstances);
    ("parent", F_task_getparent);
    ("pool", F_task_getpool);
    ("setpool", F_task_setpool) ].

Definition get_taskmetatale : CM unit :=
  luaL_getmetatable CLP_TASK_METATABLE;;
  nil ← lua_isnil (-1);
  when nil (
    lua_pop 1;;
    luaL_newmetatable CLP_TASK_METATABLE;;
    LUA_REGISTER TaskMetaFunctions;;
    lua_pushvalue (-1);;
    lua_setfield (-2) "__index";;
    luaL_loadstring "local t=(...) assert(t:input():put(select(2,...))) return t";;
    lua_setfield (-2) "__call";;
    luaL_loadstring "local ptr=(...):__id() return function() return require'clp.process'.get(ptr) end";;
    lua_setfield (-2) "__wrap").

Definition clp_buildtask (t : ptr) : CM unit :=
  task_getcached t;;
  ty ← lua_type (-1);
  if bool_decide (ty = LUA_TUSERDATA) then mret ()
  else
    lua_pop 1;;
    s ← lua_newuserdata;
    write_block s t;;
    get_taskmetatale;;
    lua_setmetatable (-2);;
    task_putcache t.

(** [new] *)
Definition clp_newtask : lua_CFunction :=
  top ← lua_gettop;
  '(task_, idle) ←
    (if top =? 0 then
       task_ ← lua_newuserdata;
       t ← malloc (CTask zero_task);
       write_block task_ t;;
       update_task t (set_t_env NULL);;
       update_task t (set_t_env_len 0);;
       mret (task_, 0)
     else
       luaL_checktype 1 LUA_TFUNCTION;;
       ty2 ← lua_type 2;
       ty3 ← lua_type 3;
       idle ← (if bool_decide (ty2 = LUA_TNUMBER) then luaL_optint 2 1
               else if bool_decide (ty3 = LUA_TNUMBER) then luaL_optint 3 1
               else mret 1);
       lua_pushcfunction F_mar_encode;;
       lua_newtable;;
       lua_pushvalue 1;;
       lua_setfield (-2) "f";;
       ty2' ← lua_type 2;
       when (bool_decide (ty2' = LUA_TFUNCTION) && (2 <=? top)) (
         lua_pushvalue 2;;
         lua_setfield (-2) "e");;
       lua_call (is_cfun F_mar_encode mar_encode) 1 1;;
       env ← lua_tolstring (-1) ≫= must;
       let len := Z.of_nat (String.length env) in
       task_ ← lua_newuserdata;
       t ← malloc (CTask zero_task);
       write_block task_ t;;
       (* malloc (len); memcpy (envcp, env, len) *)
       envcp ← malloc (CBytes env);
       update_task t (set_t_env envcp);;
       update_task t (set_t_env_len len);;
       lua_remove (-2);;
       mret (task_, idle));
  task ← read_block task_;
  (* instance queue initialization *)
  update_task task (set_t_instances 0);;
  MUTEX_INIT task;;
  (* create input channel *)
  lua_pushcfunction F_clp_channelnew;;
  lua_call (is_cfun F_clp_channelnew clp_channelnew) 0 1;;
  lua_getfield (-1) "__id";;
  lua_insert (-2);;
  lua_call (is_cfun F_channel_ptr channel_ptr) 1 1;;
  c ← lua_touserdata (-1);
  update_task task (set_t_input c);;
  lua_pop 1;;
  (* initialize thread pool *)
  w ← getW;
  update_task task (set_t_pool (clp_defaultpool w));;
  (* assign metatable *)
  get_taskmetatale;;
  lua_setmetatable (-2);;
  (* initialize instances *)
  when (0 <? idle) (
    lua_pushcfunction F_task_instantiate;;
    lua_pushvalue (-2);;
    lua_pushnumber idle;;
    lua_call (is_cfun F_task_instantiate task_instantiate) 2 0);;
  (* initialize parent *)
  update_task task (set_t_parent NULL);;
  lua_pushliteral CLP_INSTANCE_KEY;;
  lua_gettable LUA_REGISTRYINDEX;;
  ty ← lua_type (-1);
  when (bool_decide (ty = LUA_TLIGHTUSERDATA)) (
    i ← lua_touserdata (-1);
    x ← load_instance i;
    update_task task (set_t_parent (i_task x)));;
  lua_pop 1;;
  mret 1.

(** [destroy] *)
Definition clp_destroytask : lua_CFunction :=
  s_ptr ← luaL_checkudata 1 CLP_TASK_METATABLE;
  (* s_ptr is never null *)
  s ← read_block s_ptr;
  if bool_decide (s = NULL) then mret 0
  else
    t ← load_task s;
    when (bool_decide (t_env t ≠ NULL)) (free (t_env t));;
    update_task s (set_t_input NULL);;
    write_block s_ptr NULL;;
    mret 0.

(** [get] *)
Definition clp_gettask : lua_CFunction :=
  s ← lua_touserdata 1;
  if bool_decide (s ≠ NULL) then
    clp_buildtask s;;
    mret 1
  else
    lua_pushnil;;
    lua_pushliteral "Process not found";;
    mret 2.

(** *** Instances *)

Definition LUA_VERSION_NUM : Z := 501.

Definition InstanceLibs : list (string * cfun) :=
  [ ("io", F_luaopen "io");
    ("os", F_luaopen "os");
    ("table", F_luaopen "table");
    ("string", F_luaopen "string");
    ("math", F_luaopen "math");
    ("debug", F_luaopen "debug") ]
  ++ (if 501 <? LUA_VERSION_NUM then [("coroutine", F_luaopen "coroutine")] else []).

(** The two library openers that [clp_initinstance] calls, reduced to what it
    uses of them: [luaopen_package] returns the package table, which has a
    [preload] table. *)
Definition luaopen_base : lua_CFunction := mret 0.

Definition luaopen_package : lua_CFunction :=
  lua_newtable;;
  lua_newtable;;
  lua_setfield (-2) "preload";;
  mret 1.

(** The chunk that [clp_initinstance] loads under the name "Process". *)
Definition Process_buff : string :=
  "local a={...} " +:+
  "local h=a[1].f " +:+
  "local s=a[2] " +:+
  "a[1].e = a[1].e or function(e) return e end " +:+
  "return require'coroutine'.wrap(function() while true do h(s:input():get()) end end)" +:+
  String "010"%char EmptyString.

(** Lua's test of a condition: nil and false are false. *)
Definition lua_toboolean_value (v : lua_value) : bool :=
  match v with
  | LNil | LBoolean false => false
  | _ => true
  end.

(** The meaning of that chunk, statement by statement.  The vararg [...] is
    the frame of the call. *)
Definition Process_chunk : lua_CFunction :=
  (* local a={...} *)
  l ← getL;
  let a := λ i : Z, default LNil (index2adr l i) in
  (* local h=a[1].f *)
  h ← index_value (a 1) (KStr "f");
  (* local s=a[2] *)
  let s := a 2 in
  (* a[1].e = a[1].e or function(e) return e end *)
  e ← index_value (a 1) (KStr "e");
  setindex_value (a 1) (KStr "e") (if lua_toboolean_value e then e else LIdentity);;
  (* return require'coroutine'.wrap(function() while true do h(s:input():get()) end end) *)
  push (LDriver h s);;
  mret 1.

Definition is_chunk (src : string) (f : lua_CFunction) (v : lua_value) :
    option lua_CFunction :=
  if decide (v = LChunk src) then Some f else None.

Definition set_i_L (v : lua_State) (x : instance_s) : instance_s :=
  {| i_L := v; i_task := i_task x; i_state := i_state x; i_chan := i_chan x;
     i_ev := i_ev x |}.
Definition set_i_state (v : instance_state) (x : instance_s) : instance_s :=
  {| i_L := i_L x; i_task := i_task x; i_state := v; i_chan := i_chan x;
     i_ev := i_ev x |}.

(** [lua_State *L = i->L]: runs [m] on the interpreter that instance [i]
    owns.  The interpreter lives in the instance's cell; it is the current
    interpreter while [m] runs and is put back afterwards, also when [m]
    raises. *)
Definition on_instance {A} (i : ptr) (m : CM A) : CM A := λ s,
  let back (s' : cstate) : option cstate :=
    x' ← get_instance (W s') i;
    Some {| W := store i (CInstance (set_i_L (L s') x')) (W s'); L := L s |} in
  match get_instance (W s) i with
  | None => Fault
  | Some x =>
      match m {| W := W s; L := i_L x |} with
      | Ret a s' => from_option (Ret a) Fault (back s')
      | Raise e s' => from_option (Raise e) Fault (back s')
      | Fault => Fault
      end
  end.

Definition clp_initinstance (i : ptr) : CM unit :=
  on_instance i (
    lua_pushliteral CLP_INSTANCE_KEY;;
    lua_pushlightuserdata i;;
    lua_settable LUA_REGISTRYINDEX;;
    lua_pushcfunction (F_luaopen "base");;
    lua_pcall (is_cfun (F_luaopen "base") luaopen_base) 0 0;;
    lua_pushcfunction (F_luaopen "package");;
    lua_pcall (is_cfun (F_luaopen "package") luaopen_package) 0 1;;
    lua_getfield (-1) "preload";;
    LUA_REGISTER InstanceLibs;;
    lua_pop 2;;
    lua_pushliteral TASK_HANDLER_KEY;;
    luaL_loadbuffer Process_buff "Process";;
    lua_pushcfunction F_mar_decode;;
    x ← load_instance i;
    t ← load_task (i_task x);
    env ← load_bytes (t_env t);
    lua_pushlstring env (t_env_len t);;
    lua_call (is_cfun F_mar_decode mar_decode) 1 1;;
    lua_pushvalue (-1);;
    lua_setfield LUA_REGISTRYINDEX CLP_ENV_KEY;;
    clp_buildtask (i_task x);;
    lua_call (is_chunk Process_buff Process_chunk) 2 1;;
    lua_settable LUA_REGISTRYINDEX;;
    lua_getfield LUA_REGISTRYINDEX CLP_ENV_KEY;;
    lua_getfield (-1) "e";;
    lua_setfield LUA_REGISTRYINDEX CLP_ERRORFUNCTION_KEY;;
    lua_pop 1;;
    x ← load_instance i;
    store_instance i (set_i_state I_READY x)).

(** ** pool.c *)

Definition set_p_size (v : Z) (p : pool_s) : pool_s :=
  {| p_size := v; p_lock := p_lock p; p_ready := p_ready p |}.
Definition set_p_lock (v : Z) (p : pool_s) : pool_s :=
  {| p_size := p_size p; p_lock := v; p_ready := p_ready p |}.
Definition set_p_ready (v : ptr) (p : pool_s) : pool_s :=
  {| p_size := p_size p; p_lock := p_lock p; p_ready := v |}.

Definition update_pool (s : ptr) (f : pool_s → pool_s) : CM unit :=
  p ← load_pool s; store_pool s (f p).

Definition zero_pool : pool_s := {| p_size := 0; p_lock := 0; p_ready := NULL |}.

(** Modelled from the spec: [CHANNEL_LOCK] and [CHANNEL_UNLOCK] are macros
    of a header that is not among the sources, "a mutex guarding size
    adjustments"; applied to a pool they take and release its [lock] field.
    As for the task mutex, taking the lock waits for its holder. *)
Definition CHANNEL_LOCK (s : ptr) : CM unit := update_pool s (set_p_lock 1).
Definition CHANNEL_UNLOCK (s : ptr) : CM unit := update_pool s (set_p_lock 0).

Definition clp_topool (i : Z) : CM ptr :=
  p ← luaL_checkudata i CLP_POOL_METATABLE;
  luaL_argcheck true "Pool expected";;
  read_block p.

Definition get_metatable : CM unit :=
  luaL_getmetatable CLP_POOL_METATABLE;;
  nil ← lua_isnil (-1);
  when nil (
    lua_pop 1;;
    luaL_newmetatable CLP_POOL_METATABLE;;
    lua_pushvalue (-1);;
    lua_setfield (-2) "__index";;
    lua_pushcfunction F_pool_tostring;;
    lua_setfield (-2) "__tostring";;
    luaL_loadstring "local ptr=(...):ptr() return function() return require'clp.pool'.get(ptr) end";;
    lua_setfield (-2) "__wrap";;
    lua_pushcfunction F_pool_eq;;
    lua_setfield (-2) "__eq";;
    lua_pushcfunction F_pool_ptr;;
    lua_setfield (-2) "ptr";;
    lua_pushcfunction F_pool_size;;
    lua_setfield (-2) "size";;
    lua_pushcfunction F_pool_addthread;;
    lua_setfield (-2) "add";;
    lua_pushcfunction F_pool_killthread;;
    lua_setfield (-2) "kill").

Definition clp_buildpool (t : ptr) : CM unit :=
  s ← lua_newuserdata;
  write_block s t;;
  get_metatable;;
  lua_setmetatable (-2).

(** [add] *)
Definition pool_addthread : lua_CFunction :=
  s ← clp_topool 1;
  size ← luaL_optint 2 1;
  CHANNEL_LOCK s;;
  when (size <? 0) (luaL_error "argument must be positive or zero");;
  for_loop (Z.to_nat size) (clp_newthread s);;
  update_pool s (λ p, set_p_size (to_int (p_size p + size)) p);;
  CHANNEL_UNLOCK s;;
  mret size.

(** [size] *)
Definition pool_size : lua_CFunction :=
  s ← clp_topool 1;
  CHANNEL_LOCK s;;
  p ← load_pool s;
  lua_pushinteger (p_size p);;
  CHANNEL_UNLOCK s;;
  mret 1.

(** [kill] *)
Definition pool_killthread : lua_CFunction :=
  pool ← clp_topool 1;
  let a := NULL in
  p ← load_pool pool;
  _ ← clp_lfqueue_push (p_ready p) a;
  mret 0.

(** [new] *)
Definition pool_new : lua_CFunction :=
  size ← lua_tointeger 1;
  let size := to_int size in
  when (size <? 0) (luaL_error "Initial pool size must be greater than zero");;
  p ← malloc (CPool zero_pool);
  update_pool p (set_p_size 0);;
  update_pool p (set_p_lock 0);;
  q ← clp_lfqueue_new;
  update_pool p (set_p_ready q);;
  clp_lfqueue_setcapacity q (-1);;
  clp_buildpool p;;
  lua_pushcfunction F_pool_addthread;;
  lua_pushvalue (-2);;
  lua_pushnumber size;;
  lua_call (is_cfun F_pool_addthread pool_addthread) 2 0;;
  mret 1.

(** [get] *)
Definition pool_get : lua_CFunction :=
  p ← lua_touserdata 1;
  if bool_decide (p ≠ NULL) then
    clp_buildpool p;;
    mret 1
  else
    lua_pushnil;;
    lua_pushliteral "Pool is null";;
    mret 2.

(** ** Scheduler: the worker's dequeue

    The worker body is not among the sources. *)

(** Modelled from the spec: what one dequeue by a worker comes to; it waits
    on an empty queue, exits on the tombstone, or takes an instance. *)
Inductive worker_event : Set :=
  | WorkerWaits
  | WorkerExits
  | WorkerTakes (i : ptr).

(** Removes the first occurrence. *)
Fixpoint remove_first (x : ptr) (l : list ptr) : list ptr :=
  match l with
  | [] => []
  | y :: l' => if decide (x = y) then l' else y :: remove_first x l'
  end.

(** Modelled from the spec: "Each worker repeatedly calls
    [ready.pop_blocking()].  If the result is the tombstone, the worker
    decrements the Pool's size and exits.  Otherwise the result is an
    Instance pointer". *)
Definition worker_dequeue (pool : ptr) : CM worker_event :=
  p ← load_pool pool;
  q ← load_queue (p_ready p);
  match q_items q with
  | [] => mret WorkerWaits
  | item :: rest =>
      store_queue (p_ready p) {| q_items := rest; q_capacity := q_capacity q |};;
      if decide (item = NULL) then
        update_pool pool (λ p, set_p_size (to_int (p_size p - 1)) p);;
        w ← getW;
        putW {| mem := mem w; threads := remove_first pool (threads w);
                clp_defaultpool := clp_defaultpool w |};;
        mret WorkerExits
      else mret (WorkerTakes item)
  end.

(** ** The driver coroutine

    The meaning of the closure that the chunk [Process_buff] returns,
    [coroutine.wrap(function() while true do h(s:input():get()) end end)].
    Resuming it runs the loop until [get] finds the channel empty, where the
    coroutine yields. *)

(** Modelled from the spec: how a resumption of the driver ends, "[step
    (instance)] runs the driver coroutine until it next suspends"; it
    suspends or it returns.  The body of the user function [h] is opaque; a
    call of it is recorded with its argument. *)
Inductive resume_result : Type :=
  | Yielded (calls : list (lua_value * lua_value)) (w : world)
  | Returned (calls : list (lua_value * lua_value)) (w : world)
  | Crashed
  | OutOfFuel.

Definition set_ch_messages (m : list lua_value) (c : channel_s) : channel_s :=
  {| ch_messages := m; ch_waiters := ch_waiters c |}.
Definition set_ch_waiters (ws : list ptr) (c : channel_s) : channel_s :=
  {| ch_messages := ch_messages c; ch_waiters := ws |}.

(** Modelled from the spec: [while cond do h(s:input():get()) end], run by
    instance [i] on its interpreter [l]; [s] is a Process handle of [l].
    The loop is the one of the chunk in [task.c]; the channel's [get] is not
    among the sources: "if queue non-empty, returns the head; otherwise the
    calling Instance registers itself as a waiter ... and the coroutine
    suspends". *)
Fixpoint driver_loop (fuel : nat) (cond : bool) (i : ptr) (l : lua_State)
    (h s : lua_value) (calls : list (lua_value * lua_value)) (w : world) :
    resume_result :=
  match fuel with
  | O => OutOfFuel
  | S fuel' =>
      if negb cond then Returned calls w
      else
        (* s:input() *)
        match s with
        | LUserdata u =>
            match udata l !! u with
            | Some d =>
                match get_task w (ud_block d) with
                | Some t =>
                    (* :get() *)
                    match get_channel w (t_input t) with
                    | Some c =>
                        match ch_messages c with
                        | [] =>
                            Yielded calls
                              (store (t_input t)
                                 (CChannel (set_ch_waiters (ch_waiters c ++ [i]) c)) w)
                        | m :: ms =>
                            (* h(...) *)
                            driver_loop fuel' cond i l h s (calls ++ [(h, m)])
                              (store (t_input t) (CChannel (set_ch_messages ms c)) w)
                        end
                    | None => Crashed
                    end
                | None => Crashed
                end
            | None => Crashed
            end
        | _ => Crashed
        end
  end.

(** Modelled from the spec: resuming the value stored under
    [TASK_HANDLER_KEY], as a worker does to step the instance. *)
Definition resume_handler (fuel : nat) (i : ptr) (w : world) : resume_result :=
  match get_instance w i with
  | Some x =>
      match registry (i_L x) !! KStr TASK_HANDLER_KEY with
      | Some (LDriver h s) => driver_loop fuel true i (i_L x) h s [] w
      | _ => Crashed
      end
  | None => Crashed
  end.

(** ** Equality of values

    [lua_equal]: primitive equality, and for two userdata the [__eq]
    metamethod they share.  [task_eq] is the only [__eq] of Process
    handles. *)
Definition get_compTM (l : lua_State) (a b : lua_value) : lua_value :=
  match getmetatable l a, getmetatable l b with
  | Some m1, Some m2 =>
      let tm1 := rawget l m1 (KStr "__eq") in
      let tm2 := rawget l m2 (KStr "__eq") in
      if decide (m1 = m2) then tm1
      else if decide (tm1 = tm2) then tm1 else LNil
  | _, _ => LNil
  end.

Definition lua_equal (a b : lua_value) : CM bool :=
  if decide (a = b) then mret true
  else
    match a, b with
    | LUserdata _, LUserdata _ =>
        l ← getL;
        match get_compTM l a b with
        | LNil => mret false
        | tm =>
            push tm;; push a;; push b;;
            lua_call (is_cfun F_task_eq task_eq) 2 1;;
            l ← getL; r ← must (head (stack l));
            lua_pop 1;;
            mret (lua_toboolean_value r)
        end
    | _, _ => mret false
    end.

(** ** The other methods of a process and of a pool *)

(** [env] *)
Definition task_getenv : lua_CFunction :=
  lua_getfield LUA_REGISTRYINDEX CLP_HANDLER_KEY;;
  ty ← lua_type (-1);
  if negb (bool_decide (ty = LUA_TNIL)) then mret 1
  else
    lua_pop 1;;
    s ← clp_totask 1;
    t ← load_task s;
    (if bool_decide (t_env t = NULL) then lua_pushnil
     else
       lua_pushcfunction F_mar_decode;;
       env ← load_bytes (t_env t);
       lua_pushlstring env (t_env_len t);;
       lua_call (is_cfun F_mar_decode mar_decode) 1 1);;
    mret 1.

(** [pool], the getter. *)
Definition task_getpool : lua_CFunction :=
  top ← lua_gettop;
  when (1 <? top) (luaL_error "To many arguments");;
  s ← clp_totask 1;
  t ← load_task s;
  (if bool_decide (t_pool t ≠ NULL) then clp_buildpool (t_pool t) else lua_pushnil);;
  mret 1.

(** [setpool] *)
Definition task_setpool : lua_CFunction :=
  s ← clp_totask 1;
  p ← clp_topool 2;
  update_task s (set_t_pool p);;
  lua_pop 1;;
  mret 1.

(** [parent] *)
Definition task_getparent : lua_CFunction :=
  s ← clp_totask 1;
  t ← load_task s;
  (if bool_decide (t_parent t ≠ NULL) then clp_buildtask (t_parent t) else lua_pushnil);;
  mret 1.

(** [__gc]: its body is commented out. *)
Definition task_gc : lua_CFunction := mret 0.

(** [lua_getmetatable]: pushes the metatable of the value at the index and
    returns 1, or pushes nothing and returns 0 when the value has none.  An
    index above the top reads as nil.  Of the metatables that a type shares,
    that of strings (set by the string library) is not modelled. *)
Definition lua_getmetatable (i : Z) : CM Z :=
  l ← getL;
  match index2adr l i with
  | Some (LString _) => fault
  | Some v =>
      match getmetatable l v with
      | Some m => push (LTable m);; mret 1
      | None => mret 0
      end
  | None => if i <? 0 then fault else mret 0
  end.

(** [lua_equal (L, i, j)]: 0 when an index is above the top; values of
    different types are different; tables and userdata are equal when they
    are the same object or when their [__eq] says so.  The identity of
    function objects is not modelled, nor is the call of an [__eq] of tables
    (these modules install none). *)
Definition lua_equal_at (i j : Z) : CM bool :=
  l ← getL;
  match index2adr l i, index2adr l j with
  | Some a, Some b =>
      match a, b with
      | LNil, LNil => mret true
      | LBoolean x, LBoolean y => mret (bool_decide (x = y))
      | LNumber x, LNumber y => mret (bool_decide (x = y))
      | LString x, LString y => mret (bool_decide (x = y))
      | LLightUserdata x, LLightUserdata y => mret (bool_decide (x = y))
      | LTable x, LTable y =>
          if decide (x = y) then mret true
          else match get_compTM l a b with
               | LNil => mret false
               | _ => fault
               end
      | LUserdata _, LUserdata _ => lua_equal a b
      | _, _ =>
          if decide (ttype a = ttype b) then fault else mret false
      end
  | _, _ => if (i <? 0) || (j <? 0) then fault else mret false
  end.

(** [isprocess]; [LUA_VERSION_NUM] is 501, the comparison is [lua_equal]. *)
Definition task_istask : lua_CFunction :=
  _ ← lua_getmetatable 1;
  get_taskmetatale;;
  same ← lua_equal_at (-1) (-2);
  let has : Z := if same : bool then 1 else 0 in
  lua_pop 2;;
  lua_pushboolean (negb (has =? 0));;
  mret 1.

(** [ptr] of a pool. *)
Definition pool_ptr : lua_CFunction :=
  s ← luaL_checkudata 1 CLP_POOL_METATABLE;
  p ← read_block s;
  lua_pushlightuserdata p;;
  mret 1.

(** [__eq] of pools. *)
Definition pool_eq : lua_CFunction :=
  p1 ← clp_topool 1;
  p2 ← clp_topool 2;
  lua_pushboolean (bool_decide (p1 = p2));;
  mret 1.

(** * Properties *)

(** ** Entering a C function *)

(** The state in which Lua enters a C function of the binding with the given
    arguments, on interpreter [l] and process [w]: the frame holds the
    arguments and nothing else. *)
Definition call_state (w : world) (l : lua_State) (args : list lua_value) : cstate :=
  {| W := w; L := set_stack (frame args) l |}.

(** The state in which such a function returns after pushing [res] on the
    frame of [args]; interpreter [l'], process [w']. *)
Definition return_state (w' : world) (l' : lua_State) (args res : list lua_value) :
    cstate :=
  {| W := w'; L := set_stack (frame (args ++ res)) l' |}.

(** Userdata [u] of [l] is a Process handle of the task at [t]: it holds [t]
    and carries the metatable registered as [CLP_TASK_METATABLE]. *)
Definition is_task_handle (l : lua_State) (u : nat) (t : ptr) : Prop :=
  ∃ m, registry l !! KStr CLP_TASK_METATABLE = Some (LTable m)
       ∧ udata l !! u = Some {| ud_block := t; ud_meta := Some m |}.

Definition is_pool_handle (l : lua_State) (u : nat) (p : ptr) : Prop :=
  ∃ m, registry l !! KStr CLP_POOL_METATABLE = Some (LTable m)
       ∧ udata l !! u = Some {| ud_block := p; ud_meta := Some m |}.

(** ** A small process

    States reached by running the code, used to instantiate the properties
    below. *)

Definition state_of {A} (o : outcome A) : cstate :=
  match o with
  | Ret _ s | Raise _ s => s
  | Fault => {| W := {| mem := []; threads := []; clp_defaultpool := NULL |};
                L := luaL_newstate |}
  end.

(** After start-up: [pool_new] has made a pool of two workers in an empty
    process, at address 1 (its queue at address 2), and that pool is the
    default pool.  Its handle is userdata 0 of the host interpreter. *)
Definition booted : cstate :=
  let s := state_of (pool_new (call_state
                                 {| mem := []; threads := []; clp_defaultpool := NULL |}
                                 luaL_newstate [LNumber 2])) in
  {| W := {| mem := mem (W s); threads := threads (W s); clp_defaultpool := 1%nat |};
     L := L s |}.

(** After [new(f)] for a user function [f] (closure 7): the task is at
    address 3, its environment at 4, its channel at 5 and its one instance at
    6; the handle is userdata 1. *)
Definition running : cstate :=
  state_of (clp_newtask (call_state (W booted) (L booted) [LClosure 7])).

(** After [new()]: the empty task is at address 3 and its channel at 4; the
    handle is userdata 1. *)
Definition unwrapped : cstate :=
  state_of (clp_newtask (call_state (W booted) (L booted) [])).

(** The task of [running], its pool and the pool's ready queue. *)
Definition running_task : clp_Task :=
  {| t_env := 4; t_env_len := 8; t_instances := 1; t_intances_mutex := false;
     t_input := 5; t_pool := 1; t_parent := NULL |}.
Definition running_pool : pool_s := {| p_size := 2; p_lock := 0; p_ready := 2 |}.
Definition running_queue : lfqueue := {| q_items := [6%nat]; q_capacity := -1 |}.

(** The metatable registered as [CLP_POOL_METATABLE] is absent, or is a
    table. *)
Definition pool_metatable_ok (l : lua_State) : Prop :=
  registry l !! KStr CLP_POOL_METATABLE = None
  ∨ ∃ m, registry l !! KStr CLP_POOL_METATABLE = Some (LTable m).

(** The number of worker threads of a pool. *)
Definition workers (w : world) (p : ptr) : nat :=
  length (filter (λ x, x = p) (threads w)).

(** ** [spawn] and [remove] *)

(** The count of [spawn] and [remove] is absent or is the number 0. *)
Definition zero_count (args : list lua_value) : Prop :=
  args = [] ∨ args = [LNumber 0].

(** The task after [spawn(n)]: the counter is raised and the mutex is free. *)
Definition spawned (n : Z) (T : clp_Task) : clp_Task :=
  set_t_intances_mutex false (set_t_instances (t_instances T + n) T).

(** The task after [remove(n)]: the counter is lowered by [n], as a C [int],
    and the mutex is free. *)
Definition removed (n : Z) (T : clp_Task) : clp_Task :=
  set_t_intances_mutex false (set_t_instances (to_int (t_instances T - n)) T).

(** ** The cache of handles and the metatable of handles *)

(** The metatable of a cache of handles: its values are weak. *)
Definition weak_values : ltable :=
  {| tb_fields := <[KStr "__mode" := LString "v"]> ∅; tb_meta := None |}.

(** The fields that [get_taskmetatale] gives the metatable at reference [m]. *)
Definition task_metatable_fields (m : nat) : gmap lkey lua_value :=
  <[KStr "__wrap" := LChunk "local ptr=(...):__id() return function() return require'clp.process'.get(ptr) end"]>
  (<[KStr "__call" := LChunk "local t=(...) assert(t:input():put(select(2,...))) return t"]>
  (<[KStr "__index" := LTable m]>
  (foldl (λ acc '(name, f), <[KStr name := LCFunction f]> acc) ∅ TaskMetaFunctions))).

(** The cache of handles of [l] is the table at [c]: a table whose values
    are weak. *)
Definition is_cache (l : lua_State) (c : nat) (ct : ltable) : Prop :=
  registry l !! KStr CLP_TASK_CACHE = Some (LTable c)
  ∧ tables l !! c = Some ct
  ∧ ∃ wm wt, tb_meta ct = Some wm
             ∧ tables l !! wm = Some wt
             ∧ tb_fields wt !! KStr "__mode" = Some (LString "v")
             ∧ tb_fields wt !! KStr "__index" = None.

(** The metatable of Process handles is registered, and its [__eq] is
    [task_eq]. *)
Definition task_metatable_ok (l : lua_State) : Prop :=
  ∃ m mt, registry l !! KStr CLP_TASK_METATABLE = Some (LTable m)
          ∧ tables l !! m = Some mt
          ∧ tb_fields mt !! KStr "__eq" = Some (LCFunction F_task_eq).

(** The cache of handles is absent, or is a weak-valued table whose entry
    for an address is a handle of the task at that address. *)
Definition cache_ok (l : lua_State) : Prop :=
  (∀ c, registry l !! KStr CLP_TASK_CACHE ≠ Some (LTable c))
  ∨ ∃ c ct, is_cache l c ct
            ∧ ∀ t v, tb_fields ct !! KPtr t = Some v →
                     ∃ u, v = LUserdata u ∧ is_task_handle l u t.

(** The cache of handles maps the address [t] to the handle [u]. *)
Definition cached (l : lua_State) (t : ptr) (u : nat) : Prop :=
  ∃ c ct, is_cache l c ct ∧ tb_fields ct !! KPtr t = Some (LUserdata u).

(** [l'] extends [l]: same metatable of handles, and the tables and
    userdata of [l] are still there. *)
Definition extends (l l' : lua_State) : Prop :=
  registry l' !! KStr CLP_TASK_METATABLE = registry l !! KStr CLP_TASK_METATABLE
  ∧ (∃ ext, tables l' = tables l ++ ext)
  ∧ (∃ ext, udata l' = udata l ++ ext).

(** The metatable of channel handles is not registered yet, or is a table
    whose [__index] is itself and whose [__id] is [channel_ptr]. *)
Definition channel_metatable_ok (l : lua_State) : Prop :=
  registry l !! KStr CLP_CHANNEL_METATABLE = None
  ∨ ∃ m mt, registry l !! KStr CLP_CHANNEL_METATABLE = Some (LTable m)
            ∧ tables l !! m = Some mt
            ∧ tb_fields mt !! KStr "__index" = Some (LTable m)
            ∧ tb_fields mt !! KStr "__id" = Some (LCFunction F_channel_ptr).

(** The fields that [get_channelmetatable] gives the metatable at
    reference [m]. *)
Definition channel_metatable_fields (m : nat) : gmap lkey lua_value :=
  <[KStr "__id" := LCFunction F_channel_ptr]> (<[KStr "__index" := LTable m]> ∅).

(** The arguments [f, e?, n?] of [new] and [wrap]. *)
Definition new_args (f : nat) (e : option nat) (n : option Z) : list lua_value :=
  LClosure f :: option_list (LClosure <$> e) ++ option_list (LNumber <$> n).

(** The table [{f = f, e = e}] that is serialized as the environment. *)
Definition env_table (f : nat) (e : option nat) : ltable :=
  {| tb_fields := match e with
                  | Some e => <[KStr "e" := LClosure e]> (<[KStr "f" := LClosure f]> ∅)
                  | None => <[KStr "f" := LClosure f]> ∅
                  end;
     tb_meta := None |}.

(** The memory after [new (f, e, n)] with [k] instances: the task, its
    environment and its channel are allocated at the end of [M], then the
    instances, which are queued at the pool. *)
Definition new_mem (M : list cell) (p' q' : nat) (Q : lfqueue) (env : string) (k : Z) :
    list cell :=
  <[q' := CQueue {| q_items := q_items Q ++ seq (S (length M + 3)) (Z.to_nat k);
                    q_capacity := q_capacity Q |}]> M
  ++ CTask {| t_env := S (S (length M)); t_env_len := Z.of_nat (String.length env);
              t_instances := k; t_intances_mutex := false;
              t_input := S (S (S (length M))); t_pool := S p'; t_parent := NULL |}
     :: CBytes env
     :: CChannel {| ch_messages := []; ch_waiters := [] |}
     :: replicate (Z.to_nat k) (CInstance (new_instance (S (length M)))).

(** [t] is a task of [w'] that [w] did not have, and its input is an empty
    channel of [w'] that [w] did not have either. *)
Definition created_with_channel (w w' : world) (t : ptr) (T : clp_Task) : Prop :=
  deref w t = None
  ∧ get_task w' t = Some T
  ∧ t_input T ≠ NULL
  ∧ deref w (t_input T) = None
  ∧ get_channel w' (t_input T) = Some {| ch_messages := []; ch_waiters := [] |}.

(** The pool at [p] has an unbounded ready queue. *)
Definition pool_ready (w : world) (p : ptr) : Prop :=
  ∃ (p' q' : nat) (P : pool_s) (Q : lfqueue),
    p = S p' ∧ mem w !! p' = Some (CPool P) ∧ p_ready P = S q'
    ∧ mem w !! q' = Some (CQueue Q) ∧ q_capacity Q < 0.

(** The number of instances that [new (f, e, n)] makes. *)
Definition idle_of (n : option Z) : Z := from_option to_int 1 n.

(** The error function of an environment: the one that was serialized, the
    identity otherwise. *)
Definition error_function (e : option nat) : lua_value :=
  from_option LClosure LIdentity e.

(** The interpreter of instance [i] of the task at [t] after
    [clp_initinstance], for the environment [(f, e)]. *)
Definition initialised (i t : ptr) (f : nat) (e : option nat) : lua_State :=
  {| stack := [];
     registry :=
       <[KStr CLP_ERRORFUNCTION_KEY := error_function e]>
         (<[KStr TASK_HANDLER_KEY := LDriver (LClosure f) (LUserdata 0)]>
            (<[KStr CLP_TASK_CACHE := LTable 6]>
               (<[KStr CLP_TASK_METATABLE := LTable 5]>
                  (<[KStr CLP_ENV_KEY := LTable 2]>
                     (<[KStr CLP_INSTANCE_KEY := LLightUserdata i]> ∅)))));
     tables :=
       [ {| tb_fields := <[KStr "preload" := LTable 1]> ∅; tb_meta := None |};
         {| tb_fields :=
              foldl (λ acc '(name, c), <[KStr name := LCFunction c]> acc) ∅ InstanceLibs;
            tb_meta := None |};
         {| tb_fields := <[KStr "e" := error_function e]> (tb_fields (env_table f e));
            tb_meta := None |};
         {| tb_fields := ∅; tb_meta := Some 4%nat |};
         weak_values;
         {| tb_fields := task_metatable_fields 5; tb_meta := None |};
         {| tb_fields := <[KPtr t := LUserdata 0]> ∅; tb_meta := Some 7%nat |};
         weak_values ];
     udata := [ {| ud_block := t; ud_meta := Some 5%nat |} ] |}.

(** ** Further states and predicates *)

(** [v] is a Process handle of [l]. *)
Definition is_process_value (l : lua_State) (v : lua_value) : Prop :=
  ∃ u t, v = LUserdata u ∧ is_task_handle l u t.

(** After [new()] in the process of [booted] when its pool is not the
    default pool and there is none: the empty task is at address 3 and its
    channel at 4; the handle is userdata 1.  The task has no pool. *)
Definition unpooled : cstate :=
  state_of (clp_newtask (call_state {| mem := mem (W booted); threads := threads (W booted);
                                       clp_defaultpool := NULL |}
                                    (L booted) [])).

Definition unpooled_task : clp_Task :=
  {| t_env := NULL; t_env_len := 0; t_instances := 0; t_intances_mutex := false;
     t_input := 4; t_pool := NULL; t_parent := NULL |}.

(** After [wrap(f)] on the task of [unpooled], which fails for want of a
    pool: the environment is at address 5. *)
Definition stranded : cstate :=
  state_of (task_wrap (call_state (W unpooled) (L unpooled) [LUserdata 1; LClosure 7])).

(** After [new()] called by instance 6 of the task of [running], in the
    interpreter that [clp_initinstance] gives that instance: the child task
    is at address 7 and its channel at 8; the handle is userdata 1 of that
    interpreter. *)
Definition child : cstate :=
  state_of (clp_newtask (call_state (W running) (initialised 6 3 7 None) [])).

(** The count of [add]: the number given, 1 when none is given. *)
Definition add_count (n : option Z) : Z := default 1 n.

(** After [destroy] on the handle of [running]: the handle, userdata 1,
    holds null. *)
Definition destroyed : cstate :=
  state_of (clp_destroytask (call_state (W running) (L running) [LUserdata 1])).

(** [v] is a Pool handle of [l]. *)
Definition is_pool_value (l : lua_State) (v : lua_value) : Prop :=
  ∃ u p, v = LUserdata u ∧ is_pool_handle l u p.

(** ** Symbolic execution *)

Arguments to_int : simpl never.

Ltac cm_unfold :=
  cbv beta iota delta [mbind CM_bind mret CM_ret getL putL getW putW must fault
    luaL_error luaL_typerror when push
    lua_gettop lua_type lua_isnil lua_istable lua_isuserdata
    lua_pushnil lua_pushnumber lua_pushinteger lua_pushboolean lua_pushliteral
    lua_pushlstring lua_pushlightuserdata lua_pushcfunction luaL_loadstring
    luaL_loadbuffer lua_pushvalue lua_pop lua_remove lua_insert
    lua_getfield lua_gettable lua_setfield lua_settable gettable_at settable_at
    index_value setindex_value lua_newtable lua_newuserdata lua_setmetatable
    luaL_getmetatable luaL_newmetatable
    luaL_checkudata luaL_checktype luaL_argcheck lua_tointeger luaL_optint
    lua_touserdata lua_tolstring read_block write_block malloc free
    load_task load_pool load_instance load_queue load_channel load_bytes
    store_task store_pool store_instance store_queue update_task update_pool
    MUTEX_INIT MUTEX_LOCK MUTEX_UNLOCK CHANNEL_LOCK CHANNEL_UNLOCK
    index2adr abs_index clp_totask clp_topool frame call_state return_state
    lua_call lua_pcall enter_frame leave_frame is_cfun is_chunk
    clp_lfqueue_new clp_lfqueue_setcapacity clp_lfqueue_push
    set_stack set_registry set_tables set_udata map_set rawset rawget
    getmetatable MAXTAGLOOP].

Ltac cm_rew :=
  match goal with
  | H : _ = _ |- _ => rewrite H
  end.

Ltac cm_step :=
  first
    [ progress simpl
    | cm_rew
    | match goal with
      | |- context [@decide ?P ?d] =>
          first [ rewrite (@decide_True _ P d) by done
                | rewrite (@decide_False _ P d) by done ]
      | |- context [@bool_decide ?P ?d] =>
          first [ rewrite (@bool_decide_true P d) by done
                | rewrite (@bool_decide_false P d) by done ]
      end ].

Ltac cm_run := cm_unfold; repeat cm_step.

(** Cells allocated at the end of a heap. *)
Section app_cells.
Context {A : Type}.
Implicit Types (l r : list A) (x y z v : A).

Lemma app_lookup_0 l x r : (l ++ x :: r) !! length l = Some x.
Proof. by apply list_lookup_middle. Qed.

Lemma app_lookup_1 l x y r : (l ++ x :: y :: r) !! S (length l) = Some y.
Proof.
  rewrite (lookup_app_r l) by lia.
  by replace (S (length l) - length l)%nat with 1%nat by lia.
Qed.

Lemma app_lookup_2 l x y z r : (l ++ x :: y :: z :: r) !! S (S (length l)) = Some z.
Proof.
  rewrite (lookup_app_r l) by lia.
  by replace (S (S (length l)) - length l)%nat with 2%nat by lia.
Qed.

Lemma app_lookup_3 l x y z v r :
  (l ++ x :: y :: z :: v :: r) !! S (S (S (length l))) = Some v.
Proof.
  rewrite (lookup_app_r l) by lia.
  by replace (S (S (S (length l))) - length l)%nat with 3%nat by lia.
Qed.

Lemma app_insert_0 l x r v : <[length l := v]> (l ++ x :: r) = l ++ v :: r.
Proof. by rewrite <- (Nat.add_0_r (length l)), insert_app_r. Qed.

Lemma app_insert_1 l x y r v :
  <[S (length l) := v]> (l ++ x :: y :: r) = l ++ x :: v :: r.
Proof.
  replace (S (length l)) with (length l + 1)%nat by lia.
  by rewrite insert_app_r.
Qed.

Lemma app_insert_2 l x y z r v :
  <[S (S (length l)) := v]> (l ++ x :: y :: z :: r) = l ++ x :: y :: v :: r.
Proof.
  replace (S (S (length l))) with (length l + 2)%nat by lia.
  by rewrite insert_app_r.
Qed.

Lemma app_insert_3 l x y z u r v :
  <[S (S (S (length l))) := v]> (l ++ x :: y :: z :: u :: r) = l ++ x :: y :: z :: v :: r.
Proof.
  replace (S (S (S (length l)))) with (length l + 3)%nat by lia.
  by rewrite insert_app_r.
Qed.

Lemma app_snoc_assoc l x r y : (l ++ x :: r) ++ [y] = l ++ x :: (r ++ [y]).
Proof. by rewrite <- app_assoc. Qed.

Lemma length_app_cons l x r : length (l ++ x :: r) = S (length (l ++ r)).
Proof. rewrite !length_app. simpl. lia. Qed.

End app_cells.

Arguments luaV_gettable : simpl never.

Lemma luaV_gettable_S (loop' : nat) (l : lua_State) (v : lua_value) (k : lkey) :
  luaV_gettable (S loop') l v k
  = let handler :=
      match getmetatable l v with
      | Some m => rawget l m (KStr "__index")
      | None => LNil
      end in
    match v with
    | LTable r =>
        match rawget l r k with
        | LNil =>
            match handler with
            | LNil => Some LNil
            | LTable _ => luaV_gettable loop' l handler k
            | _ => None
            end
        | x => Some x
        end
    | _ =>
        match handler with
        | LTable _ => luaV_gettable loop' l handler k
        | _ => None
        end
    end.
Proof. reflexivity. Qed.

(** [t[k]] where the field is present. *)
Lemma luaV_gettable_field (loop' : nat) (l : lua_State) (r : nat) (k : lkey)
    (t : ltable) (x : lua_value) :
  tables l !! r = Some t →
  tb_fields t !! k = Some x →
  x ≠ LNil →
  luaV_gettable (S loop') l (LTable r) k = Some x.
Proof.
  intros Ht Hk Hx. rewrite luaV_gettable_S. unfold rawget. rewrite Ht, Hk. simpl.
  by destruct x.
Qed.

(** [t[k]] where the field is absent and the metatable has no [__index]. *)
Lemma luaV_gettable_absent (loop' : nat) (l : lua_State) (r m : nat) (k : lkey)
    (t tm : ltable) :
  tables l !! r = Some t →
  tb_fields t !! k = None →
  tb_meta t = Some m →
  tables l !! m = Some tm →
  tb_fields tm !! KStr "__index" = None →
  luaV_gettable (S loop') l (LTable r) k = Some LNil.
Proof.
  intros Ht Hk Hm Htm Hi. rewrite luaV_gettable_S. unfold getmetatable, rawget.
  rewrite Ht, Hk. simpl. rewrite Hm, Htm, Hi. done.
Qed.

(** [u[k]] for a userdata whose metatable has a table as [__index]. *)
Lemma luaV_gettable_udata (loop' : nat) (l : lua_State) (u m m' : nat) (k : lkey)
    (d : ludata) (tm : ltable) :
  udata l !! u = Some d →
  ud_meta d = Some m →
  tables l !! m = Some tm →
  tb_fields tm !! KStr "__index" = Some (LTable m') →
  luaV_gettable (S loop') l (LUserdata u) k = luaV_gettable loop' l (LTable m') k.
Proof.
  intros Hu Hm Htm Hi. rewrite luaV_gettable_S. unfold getmetatable, rawget.
  rewrite Hu. simpl. rewrite Hm, Htm, Hi. done.
Qed.

Ltac cm_len := rewrite ?length_insert; first [ assumption | lia ].

Ltac cm_heap :=
  first
    [ rewrite app_lookup_0
    | rewrite app_lookup_1
    | rewrite app_lookup_2
    | rewrite app_lookup_3
    | rewrite app_insert_0
    | rewrite app_insert_1
    | rewrite app_insert_2
    | rewrite app_insert_3
    | rewrite app_snoc_assoc
    | rewrite length_app_cons
    | rewrite app_nil_r
    | rewrite drop_0
    | rewrite lookup_insert_eq
    | rewrite lookup_insert_ne by done
    | rewrite lookup_app_l by cm_len
    | rewrite insert_app_l by cm_len
    | rewrite list_lookup_insert_eq by cm_len
    | rewrite list_lookup_insert_ne by done ].

Ltac cm_mem :=
  progress cbv beta iota delta [get_task get_pool get_instance get_queue
                                get_channel get_bytes deref store alloc].

(** Indexing, by the three lemmas above. *)
Ltac cm_side :=
  simpl; repeat first [ cm_heap | cm_rew ]; first [ reflexivity | done ].

Ltac cm_index :=
  first
    [ erewrite luaV_gettable_field by cm_side
    | erewrite luaV_gettable_absent by cm_side
    | erewrite luaV_gettable_udata by cm_side ].

Ltac cm_exec := cm_unfold; repeat first [ cm_step | cm_heap ].

(** Evaluation of one computation on a state, to a result. *)
Ltac cm_eval extra :=
  cm_unfold; repeat first [ cm_step | cm_heap | extra | cm_mem | cm_index ].

Lemma bind_Ret_eq {A B} (m : CM A) (f : A → CM B) (st : cstate) (a : A)
    (st1 : cstate) (R : outcome B) :
  m st = Ret a st1 → f a st1 = R → (m ≫= f) st = R.
Proof. intros H1 H2. unfold mbind, CM_bind. by rewrite H1. Qed.

Lemma bind_Raise_eq {A B} (m : CM A) (f : A → CM B) (st : cstate) (e : string)
    (st1 : cstate) :
  m st = Raise e st1 → (m ≫= f) st = Raise e st1.
Proof. intros H1. unfold mbind, CM_bind. by rewrite H1. Qed.

Lemma bind_assoc_eq {A B C} (m : CM A) (f : A → CM B) (g : B → CM C) (st : cstate) :
  ((m ≫= f) ≫= g) st = (m ≫= λ x, f x ≫= g) st.
Proof. unfold mbind, CM_bind. by destruct (m st). Qed.

Lemma bind_when_true {B} (m : CM unit) (g : unit → CM B) (st : cstate) :
  (when true m ≫= g) st = (m ≫= g) st.
Proof. done. Qed.

Lemma bind_when_false {B} (m : CM unit) (g : unit → CM B) (st : cstate) :
  (when false m ≫= g) st = g () st.
Proof. done. Qed.

Lemma bind_if_true {A B} (m1 m2 : CM A) (g : A → CM B) (st : cstate) :
  ((if true then m1 else m2) ≫= g) st = (m1 ≫= g) st.
Proof. done. Qed.

Lemma bind_if_false {A B} (m1 m2 : CM A) (g : A → CM B) (st : cstate) :
  ((if false then m1 else m2) ≫= g) st = (m2 ≫= g) st.
Proof. done. Qed.

(** Decides the condition [c] of the goal by evaluation and by the equations
    of the context. *)
Ltac cm_cond c :=
  let c' := eval simpl in c in
  lazymatch c' with
  | true => change c with true
  | false => change c with false
  | _ =>
      let E := fresh "E" in
      first
        [ assert (c = true) as E by (simpl; repeat cm_step; first [ done | lia ])
        | assert (c = false) as E by (simpl; repeat cm_step; first [ done | lia ]) ];
      rewrite E; clear E
  end.

(** One statement of a C function: the goal is [(m ≫= f) st = R]; [m] is run
    on [st] and the goal becomes [f a st1 = R]. *)
Ltac cm_bind extra :=
  lazymatch goal with
  | |- @mbind _ _ _ _ ?g (@mbind _ _ _ _ ?f ?m) ?st = _ =>
      rewrite (bind_assoc_eq m f g st)
  | |- @mbind _ _ _ _ ?g (when true ?m) ?st = _ =>
      rewrite (bind_when_true m g st)
  | |- @mbind _ _ _ _ ?g (when false ?m) ?st = _ =>
      rewrite (bind_when_false m g st)
  | |- @mbind _ _ _ _ ?g (when ?c ?m) ?st = _ => cm_cond c
  | |- @mbind ?M ?I ?A ?B ?g (if true then ?m1 else ?m2) ?st = ?R =>
      change (@mbind M I A B g m1 st = R)
  | |- @mbind ?M ?I ?A ?B ?g (if false then ?m1 else ?m2) ?st = ?R =>
      change (@mbind M I A B g m2 st = R)
  | |- @mbind _ _ _ _ ?g (if ?c then ?m1 else ?m2) ?st = _ => cm_cond c
  | |- (if ?c then ?m1 else ?m2) ?st = _ =>
      lazymatch c with
      | true => cbv iota
      | false => cbv iota
      | _ => cm_cond c
      end
  | |- when ?c ?m ?st = ?R =>
      lazymatch c with
      | true => change (m st = R)
      | false => change (Ret () st = R)
      | _ => cm_cond c
      end
  | |- @mbind _ _ _ _ ?f ?m ?st = _ =>
      first
        [ eapply (bind_Ret_eq m f st); [ cm_eval extra; reflexivity | cbv beta zeta ]
        | eapply (bind_Raise_eq m f st); cm_eval extra; reflexivity ]
  | |- (let '(_, _) := (_, _) in _) _ = _ => cbv beta iota
  end.

Ltac cm_go extra := repeat (cm_bind extra).

Lemma to_int_id (z : Z) : INT_MIN ≤ z ≤ INT_MAX → to_int z = z.
Proof.
  unfold INT_MIN, INT_MAX, to_int. intros H.
  rewrite Z.mod_small; lia.
Qed.

Lemma to_int_range (z : Z) : INT_MIN ≤ to_int z ≤ INT_MAX.
Proof.
  unfold INT_MIN, INT_MAX, to_int.
  pose proof (Z.mod_pos_bound (z + 2 ^ 31) (2 ^ 32)). lia.
Qed.

Lemma to_int_0 : to_int 0 = 0.
Proof. reflexivity. Qed.

(** ** [spawn] and [remove] with a count of zero *)

Lemma task_instantiate_zero (w : world) (l : lua_State) (u : nat) (t : ptr)
    (T : clp_Task) (args : list lua_value) :
  is_task_handle l u t →
  get_task w t = Some T →
  t_pool T ≠ NULL →
  t_env T ≠ NULL →
  zero_count args →
  task_instantiate (call_state w l (LUserdata u :: args))
  = Ret 1 (return_state w l (LUserdata u :: args) [LUserdata u]).
Proof.
  intros (m & Hr & Hu) HT Hp He Hargs. destruct l as [s r tb ud]. simpl in *.
  unfold task_instantiate.
  destruct Hargs as [-> | ->]; cm_run; done.
Qed.

Lemma task_instantiate_no_pool (w : world) (l : lua_State) (u : nat) (t : ptr)
    (T : clp_Task) (args : list lua_value) :
  is_task_handle l u t →
  get_task w t = Some T →
  t_pool T = NULL →
  (args = [] ∨ ∃ n, args = [LNumber n]) →
  task_instantiate (call_state w l (LUserdata u :: args))
  = Raise "Process must be associated to a pool" (call_state w l (LUserdata u :: args)).
Proof.
  intros (m & Hr & Hu) HT Hp Hargs. destruct l as [s r tb ud]. simpl in *.
  unfold task_instantiate.
  destruct Hargs as [-> | [n ->]]; cm_run; done.
Qed.

Lemma task_instantiate_no_env (w : world) (l : lua_State) (u : nat) (t : ptr)
    (T : clp_Task) (args : list lua_value) :
  is_task_handle l u t →
  get_task w t = Some T →
  t_pool T ≠ NULL →
  t_env T = NULL →
  (args = [] ∨ ∃ n, args = [LNumber n]) →
  task_instantiate (call_state w l (LUserdata u :: args))
  = Raise "Process must have an environment" (call_state w l (LUserdata u :: args)).
Proof.
  intros (m & Hr & Hu) HT Hp He Hargs. destruct l as [s r tb ud]. simpl in *.
  unfold task_instantiate.
  destruct Hargs as [-> | [n ->]]; cm_run; done.
Qed.

Lemma task_destroyinstances_zero (w : world) (l : lua_State) (u : nat) (t : ptr)
    (args : list lua_value) :
  is_task_handle l u t →
  zero_count args →
  task_destroyinstances (call_state w l (LUserdata u :: args))
  = Ret 1 (return_state w l (LUserdata u :: args) [LUserdata u]).
Proof.
  intros (m & Hr & Hu) Hargs. destruct l as [s r tb ud]. simpl in *.
  unfold task_destroyinstances.
  destruct Hargs as [-> | ->]; cm_run; done.
Qed.

(** C10.  [spawn(0)] and [remove(0)] are no-ops at the public interface.  With
    the count 0 (or no count) each returns one result, the Process handle it
    was called on, and leaves the process (every field of every task, and
    all the rest of the heap) and the interpreter as they were; [spawn(0)]
    does so only on a task that has a pool and an environment, and raises
    its error otherwise, again without changing anything. *)
Theorem spawn_remove_zero_noop (w : world) (l : lua_State) (u : nat) (t : ptr)
    (T : clp_Task) (args : list lua_value) :
  is_task_handle l u t →
  get_task w t = Some T →
  zero_count args →
  let entry := call_state w l (LUserdata u :: args) in
  let exit := return_state w l (LUserdata u :: args) [LUserdata u] in
  task_destroyinstances entry = Ret 1 exit
  ∧ (t_pool T ≠ NULL → t_env T ≠ NULL → task_instantiate entry = Ret 1 exit)
  ∧ (t_pool T = NULL →
     task_instantiate entry = Raise "Process must be associated to a pool" entry)
  ∧ (t_pool T ≠ NULL → t_env T = NULL →
     task_instantiate entry = Raise "Process must have an environment" entry).
Proof.
  intros Hh HT Hargs entry exit. subst entry exit.
  assert (args = [] ∨ ∃ n, args = [LNumber n]) as Hargs'.
  { destruct Hargs as [-> | ->]; eauto. }
  repeat split; intros.
  - by eapply task_destroyinstances_zero.
  - by eapply task_instantiate_zero.
  - by eapply task_instantiate_no_pool.
  - by eapply task_instantiate_no_env.
Qed.

(** ** [spawn]: the loop that creates the instances *)

Lemma clp_newinstance_step (M : list cell) (thr : list ptr) (dp : ptr)
    (l : lua_State) (t' p' q' : nat) (T : clp_Task) (P : pool_s)
    (items : list ptr) (cap : Z) :
  M !! t' = Some (CTask T) →
  t_pool T = S p' →
  M !! p' = Some (CPool P) →
  p_ready P = S q' →
  M !! q' = Some (CQueue {| q_items := items; q_capacity := cap |}) →
  cap < 0 →
  (void (clp_newinstance (S t')))
    {| W := {| mem := M; threads := thr; clp_defaultpool := dp |}; L := l |}
  = Ret () {| W := {| mem := <[q' := CQueue {| q_items := items ++ [S (length M)];
                                                q_capacity := cap |}]>
                              (M ++ [CInstance (new_instance (S t'))]);
                      threads := thr; clp_defaultpool := dp |};
              L := l |}.
Proof.
  intros Ht Hp HP Hq HQ Hcap.
  pose proof (lookup_lt_Some _ _ _ Ht). pose proof (lookup_lt_Some _ _ _ HP).
  pose proof (lookup_lt_Some _ _ _ HQ).
  assert ((0 <=? cap) = false) by lia.
  unfold void, clp_newinstance, clp_pushinstance. cm_unfold.
  unfold get_instance, get_task, get_pool, get_queue, alloc, deref, store.
  repeat first [ cm_step
               | rewrite list_lookup_middle by done
               | rewrite lookup_app_l by done ].
  done.
Qed.

Lemma clp_newinstance_loop (k : nat) : ∀ (M : list cell) (thr : list ptr) (dp : ptr)
    (l : lua_State) (t' p' q' : nat) (T : clp_Task) (P : pool_s)
    (items : list ptr) (cap : Z),
  M !! t' = Some (CTask T) →
  t_pool T = S p' →
  M !! p' = Some (CPool P) →
  p_ready P = S q' →
  M !! q' = Some (CQueue {| q_items := items; q_capacity := cap |}) →
  cap < 0 →
  for_loop k (void (clp_newinstance (S t')))
    {| W := {| mem := M; threads := thr; clp_defaultpool := dp |}; L := l |}
  = Ret () {| W := {| mem := <[q' := CQueue {| q_items := items ++ seq (S (length M)) k;
                                                q_capacity := cap |}]> M
                              ++ replicate k (CInstance (new_instance (S t')));
                      threads := thr; clp_defaultpool := dp |};
              L := l |}.
Proof.
  induction k as [|k IH]; intros M thr dp l t' p' q' T P items cap Ht Hp HP Hq HQ Hcap.
  - simpl. rewrite !app_nil_r. rewrite list_insert_id by done. done.
  - pose proof (lookup_lt_Some _ _ _ Ht). pose proof (lookup_lt_Some _ _ _ HP).
    pose proof (lookup_lt_Some _ _ _ HQ).
    assert (t' ≠ q') by (intros ->; congruence).
    assert (p' ≠ q') by (intros ->; congruence).
    change (for_loop (S k) ?b) with (b ≫= λ _, for_loop k b).
    unfold mbind at 1, CM_bind at 1.
    erewrite clp_newinstance_step by done.
    rewrite (IH _ thr dp l t' p' q' T P (items ++ [S (length M)]) cap); try done.
    + rewrite list_insert_insert_eq, length_insert, length_app.
      rewrite insert_app_l by done.
      rewrite <- !app_assoc.
      replace (length M + length [CInstance (new_instance (S t'))])%nat
        with (S (length M)) by (simpl; lia).
      reflexivity.
    + rewrite list_lookup_insert_ne by done. by rewrite lookup_app_l.
    + rewrite list_lookup_insert_ne by done. by rewrite lookup_app_l.
    + rewrite list_lookup_insert_eq; [done|]. rewrite length_app. lia.
Qed.

Lemma get_task_ptr (w : world) (t : ptr) (T : clp_Task) :
  get_task w t = Some T → ∃ t', t = S t' ∧ mem w !! t' = Some (CTask T).
Proof.
  unfold get_task, deref. destruct t as [|t']; [done|].
  destruct (mem w !! t') as [[]|] eqn:E; try done. intros [= ->]. eauto.
Qed.

Lemma get_pool_ptr (w : world) (p : ptr) (P : pool_s) :
  get_pool w p = Some P → ∃ p', p = S p' ∧ mem w !! p' = Some (CPool P).
Proof.
  unfold get_pool, deref. destruct p as [|p']; [done|].
  destruct (mem w !! p') as [[]|] eqn:E; try done. intros [= ->]. eauto.
Qed.

Lemma get_queue_ptr (w : world) (q : ptr) (Q : lfqueue) :
  get_queue w q = Some Q → ∃ q', q = S q' ∧ mem w !! q' = Some (CQueue Q).
Proof.
  unfold get_queue, deref. destruct q as [|q']; [done|].
  destruct (mem w !! q') as [[]|] eqn:E; try done. intros [= ->]. eauto.
Qed.

Lemma task_instantiate_pos (w : world) (l : lua_State) (u : nat) (t' p' q' : nat)
    (T : clp_Task) (P : pool_s) (Q : lfqueue) (n : Z) :
  is_task_handle l u (S t') →
  mem w !! t' = Some (CTask T) →
  t_pool T = S p' →
  t_env T ≠ NULL →
  mem w !! p' = Some (CPool P) →
  p_ready P = S q' →
  mem w !! q' = Some (CQueue Q) →
  q_capacity Q < 0 →
  0 < n ≤ INT_MAX →
  INT_MIN ≤ t_instances T + n ≤ INT_MAX →
  task_instantiate (call_state w l [LUserdata u; LNumber n])
  = Ret 1 (return_state
             {| mem := <[q' := CQueue {| q_items := q_items Q
                                           ++ seq (S (length (mem w))) (Z.to_nat n);
                                         q_capacity := q_capacity Q |}]>
                         (<[t' := CTask (spawned n T)]> (mem w))
                       ++ replicate (Z.to_nat n) (CInstance (new_instance (S t')));
                threads := threads w;
                clp_defaultpool := clp_defaultpool w |}
             l [LUserdata u; LNumber n] [LUserdata u]).
Proof.
  intros (m & Hr & Hu) HT Hp He HP Hq HQ Hcap Hn Hsum.
  destruct l as [s r tb ud], w as [M thr dp], Q as [items cap]. simpl in *.
  pose proof (lookup_lt_Some _ _ _ HT). pose proof (lookup_lt_Some _ _ _ HP).
  pose proof (lookup_lt_Some _ _ _ HQ).
  assert (t' ≠ q') by (intros ->; congruence).
  assert (t' ≠ p') by (intros ->; congruence).
  assert (to_int n = n) as Hn' by (apply to_int_id; unfold INT_MIN, INT_MAX in *; lia).
  assert ((n <? 0) = false) by lia.
  assert ((n =? 0) = false) by lia.
  assert (t_pool T ≠ NULL) by (rewrite Hp; done).
  unfold task_instantiate. cm_unfold.
  unfold get_task, deref, store.
  repeat first [ cm_step | rewrite list_lookup_insert_eq by done
               | rewrite list_insert_insert_eq ].
  rewrite (clp_newinstance_loop _ _ _ _ _ t' p' q'
             (set_t_instances (to_int (t_instances T + n)) (set_t_intances_mutex true T))
             P items cap
             ltac:(by apply list_lookup_insert_eq) Hp
             ltac:(by rewrite list_lookup_insert_ne) Hq
             ltac:(by rewrite list_lookup_insert_ne) Hcap).
  assert (t_instances T + n - n = t_instances T) as Hsub by lia.
  repeat first [ cm_step
               | rewrite lookup_app_l by (rewrite !length_insert; done)
               | rewrite list_lookup_insert_ne by done
               | rewrite list_lookup_insert_eq by done
               | rewrite length_insert ].
  rewrite insert_app_l by (rewrite !length_insert; done).
  rewrite list_insert_insert_ne by done.
  rewrite list_insert_insert_eq.
  rewrite (to_int_id _ Hsum).
  by destruct T.
Qed.

(** C4.  [spawn(n)] raises a synchronous error on a task without a pool and
    on a task without an environment, changing nothing.  On a task that has
    both (its pool being a live pool with an unbounded ready queue) it
    returns the handle, raises the counter [instances] by exactly [n] (the
    code takes the task's mutex around the update, and the mutex is free
    afterwards) and creates exactly [n] new instances: [n] cells are added
    to the heap, each an instance of this task in state [I_CREATED] with a
    fresh interpreter, no older instance changes, and the new instances are
    queued, in order, on the ready queue of the pool.  ([n] is a count that fits a C [int], as
    does the raised counter.) *)
Theorem spawn_errors_and_effect (w : world) (l : lua_State) (u : nat) (t : ptr)
    (T : clp_Task) (n : Z) :
  is_task_handle l u t →
  get_task w t = Some T →
  let args := [LUserdata u; LNumber n] in
  let entry := call_state w l args in
  (t_pool T = NULL →
   task_instantiate entry = Raise "Process must be associated to a pool" entry)
  ∧ (t_pool T ≠ NULL → t_env T = NULL →
     task_instantiate entry = Raise "Process must have an environment" entry)
  ∧ (t_pool T ≠ NULL → t_env T ≠ NULL →
     ∀ (P : pool_s) (Q : lfqueue),
       get_pool w (t_pool T) = Some P →
       get_queue w (p_ready P) = Some Q →
       q_capacity Q < 0 →
       0 ≤ n ≤ INT_MAX →
       INT_MIN ≤ t_instances T →
       t_instances T + n ≤ INT_MAX →
       ∃ (w' : world) (T' : clp_Task) (M' : list cell),
         task_instantiate entry = Ret 1 (return_state w' l args [LUserdata u])
         ∧ get_task w' t = Some T'
         ∧ t_instances T' = t_instances T + n
         ∧ (t_intances_mutex T = false → t_intances_mutex T' = false)
         ∧ (t_env T', t_env_len T', t_input T', t_pool T', t_parent T')
           = (t_env T, t_env_len T, t_input T, t_pool T, t_parent T)
         ∧ mem w' = M' ++ replicate (Z.to_nat n) (CInstance (new_instance t))
         ∧ length M' = length (mem w)
         ∧ (∀ k x, M' !! k = Some (CInstance x) ↔ mem w !! k = Some (CInstance x))
         ∧ get_queue w' (p_ready P)
           = Some {| q_items := q_items Q ++ seq (S (length (mem w))) (Z.to_nat n);
                     q_capacity := q_capacity Q |}
         ∧ threads w' = threads w).
Proof.
  intros Hh HT args entry. subst args entry.
  split; [|split].
  - intros. eapply task_instantiate_no_pool; eauto.
  - intros. eapply task_instantiate_no_env; eauto.
  - intros Hp He P Q HP HQ Hcap Hn Hlo Hhi.
    destruct (decide (n = 0)) as [-> | Hn0].
    + exists w, T, (mem w).
      rewrite (task_instantiate_zero w l u t T [LNumber 0]) by (done || by right).
      simpl. rewrite app_nil_r, Z.add_0_r.
      repeat split; try done. destruct Q; by rewrite app_nil_r.
    + destruct (get_task_ptr _ _ _ HT) as (t' & -> & HT').
      destruct (get_pool_ptr _ _ _ HP) as (p' & Hp' & HP').
      destruct (get_queue_ptr _ _ _ HQ) as (q' & Hq' & HQ').
      pose proof (lookup_lt_Some _ _ _ HT'). pose proof (lookup_lt_Some _ _ _ HP').
      pose proof (lookup_lt_Some _ _ _ HQ').
      assert (t' ≠ q') by (intros ->; congruence).
      eexists _, (spawned n T), _.
      split; [|split; [|split; [|split; [|split; [|split; [|split; [|split; [|split]]]]]]]].
      * eapply (task_instantiate_pos w l u t' p' q' T P Q n); try done; lia.
      * unfold get_task, deref. simpl.
        rewrite lookup_app_l by (rewrite !length_insert; done).
        rewrite list_lookup_insert_ne by done.
        by rewrite list_lookup_insert_eq.
      * done.
      * done.
      * done.
      * done.
      * by rewrite !length_insert.
      * intros k x.
        destruct (decide (k = q')) as [-> | ?].
        { rewrite list_lookup_insert_eq by (rewrite length_insert; done).
          rewrite HQ'. split; intros [=]. }
        rewrite list_lookup_insert_ne by done.
        destruct (decide (k = t')) as [-> | ?].
        { rewrite list_lookup_insert_eq by done. rewrite HT'. split; intros [=]. }
        by rewrite list_lookup_insert_ne.
      * unfold get_queue, deref. simpl. rewrite Hq'.
        rewrite lookup_app_l by (rewrite !length_insert; done).
        by rewrite list_lookup_insert_eq by (rewrite length_insert; done).
      * done.
Qed.

(** ** [remove] *)

Lemma task_destroyinstances_pos (w : world) (l : lua_State) (u : nat) (t' : nat)
    (T : clp_Task) (n : Z) :
  is_task_handle l u (S t') →
  mem w !! t' = Some (CTask T) →
  0 < n ≤ INT_MAX →
  task_destroyinstances (call_state w l [LUserdata u; LNumber n])
  = Ret 1 (return_state
             {| mem := <[t' := CTask (removed n T)]> (mem w);
                threads := threads w;
                clp_defaultpool := clp_defaultpool w |}
             l [LUserdata u; LNumber n] [LUserdata u]).
Proof.
  intros (m & Hr & Hu) HT Hn.
  destruct l as [s r tb ud], w as [M thr dp]. simpl in *.
  pose proof (lookup_lt_Some _ _ _ HT).
  assert (to_int n = n) as Hn' by (apply to_int_id; unfold INT_MIN, INT_MAX in *; lia).
  assert ((n <? 0) = false) by lia.
  assert ((n =? 0) = false) by lia.
  unfold task_destroyinstances. cm_unfold.
  unfold get_task, deref, store.
  repeat first [ cm_step | rewrite list_lookup_insert_eq by done
               | rewrite list_insert_insert_eq ].
  by destruct T.
Qed.

Lemma task_destroyinstances_neg (w : world) (l : lua_State) (u : nat) (t : ptr)
    (n : Z) :
  is_task_handle l u t →
  INT_MIN ≤ n < 0 →
  task_destroyinstances (call_state w l [LUserdata u; LNumber n])
  = Raise "Argument must be positive" (call_state w l [LUserdata u; LNumber n]).
Proof.
  intros (m & Hr & Hu) Hn.
  destruct l as [s r tb ud]. simpl in *.
  assert (to_int n = n) as Hn' by (apply to_int_id; unfold INT_MIN, INT_MAX in *; lia).
  assert ((n <? 0) = true) by lia.
  unfold task_destroyinstances. cm_run. done.
Qed.

(** C1 (amended).  [remove(n)] does not clamp.  For a count [n >= 1] it
    returns the handle and lowers [instances] by exactly [n], so the counter
    is negative afterwards when [n] exceeds it; a negative [n] raises
    "Argument must be positive" and changes nothing.  It never destroys an
    instance: no cell of the heap other than the task's own changes, the
    task keeps its other fields, and the threads are the same. *)
Theorem remove_lowers_counter_unclamped (w : world) (l : lua_State) (u : nat)
    (t : ptr) (T : clp_Task) (n : Z) :
  is_task_handle l u t →
  get_task w t = Some T →
  let args := [LUserdata u; LNumber n] in
  let entry := call_state w l args in
  (INT_MIN ≤ n < 0 →
   task_destroyinstances entry = Raise "Argument must be positive" entry)
  ∧ (0 < n ≤ INT_MAX →
     INT_MIN ≤ t_instances T - n →
     t_instances T ≤ INT_MAX →
     ∃ (w' : world) (T' : clp_Task),
       task_destroyinstances entry = Ret 1 (return_state w' l args [LUserdata u])
       ∧ get_task w' t = Some T'
       ∧ t_instances T' = t_instances T - n
       ∧ (t_instances T < n → t_instances T' < 0)
       ∧ (t_env T', t_env_len T', t_input T', t_pool T', t_parent T')
         = (t_env T, t_env_len T, t_input T, t_pool T, t_parent T)
       ∧ length (mem w') = length (mem w)
       ∧ (∀ p, p ≠ t → deref w' p = deref w p)
       ∧ threads w' = threads w).
Proof.
  intros Hh HT args entry. subst args entry. split.
  - intros. by eapply task_destroyinstances_neg.
  - intros Hn Hlo Hhi.
    destruct (get_task_ptr _ _ _ HT) as (t' & -> & HT').
    pose proof (lookup_lt_Some _ _ _ HT').
    assert (to_int (t_instances T - n) = t_instances T - n) as Hi
      by (apply to_int_id; unfold INT_MIN, INT_MAX in *; lia).
    eexists _, (removed n T).
    split; [|split; [|split; [|split; [|split; [|split; [|split]]]]]].
    + by eapply task_destroyinstances_pos.
    + unfold get_task, deref. simpl. by rewrite list_lookup_insert_eq.
    + simpl. done.
    + simpl. lia.
    + done.
    + simpl. by rewrite length_insert.
    + intros [|p'] Hp; [done|]. unfold deref. simpl.
      rewrite list_lookup_insert_ne; [done|]. congruence.
    + done.
Qed.

Lemma remove_lowers_counter_unclamped_witness :
  ∃ (w' : world) (T' : clp_Task),
    task_destroyinstances (call_state (W running) (L running) [LUserdata 1; LNumber 2])
    = Ret 1 (return_state w' (L running) [LUserdata 1; LNumber 2] [LUserdata 1])
    ∧ get_task w' 3 = Some T'
    ∧ t_instances T' = -1.
Proof.
  assert (is_task_handle (L running) 1 3) as Hh
    by (exists 3%nat; split; vm_compute; reflexivity).
  assert (get_task (W running) 3 = Some running_task) as HT
    by (vm_compute; reflexivity).
  destruct (proj2 (remove_lowers_counter_unclamped _ _ _ _ _ 2 Hh HT))
    as (w' & T' & H1 & H2 & H3 & _);
    [unfold INT_MAX; simpl; lia | unfold INT_MIN; simpl; lia
    | unfold INT_MAX; simpl; lia |].
  exists w', T'. split; [exact H1|]. split; [exact H2|exact H3].
Defined.

(** C1, counterexample.  On a task with one instance, [remove(2)] returns
    normally and leaves the counter at -1: it is neither clamped at zero nor
    kept non-negative. *)
Lemma remove_counter_negative :
  let entry := call_state (W running) (L running) [LUserdata 1; LNumber 2] in
  let s' := state_of (task_destroyinstances entry) in
  (t_instances <$> get_task (W running) 3) = Some 1
  ∧ task_destroyinstances entry = Ret 1 s'
  ∧ (t_instances <$> get_task (W s') 3) = Some (-1)
  ∧ ¬ (0 ≤ -1).
Proof.
  split; [vm_compute; reflexivity|].
  split; [vm_compute; reflexivity|].
  split; [vm_compute; reflexivity|].
  lia.
Qed.

Lemma spawn_remove_zero_noop_witness :
  task_destroyinstances (call_state (W running) (L running) [LUserdata 1; LNumber 0])
  = Ret 1 (return_state (W running) (L running) [LUserdata 1; LNumber 0] [LUserdata 1])
  ∧ task_instantiate (call_state (W running) (L running) [LUserdata 1; LNumber 0])
    = Ret 1 (return_state (W running) (L running) [LUserdata 1; LNumber 0] [LUserdata 1]).
Proof.
  assert (is_task_handle (L running) 1 3) as Hh
    by (exists 3%nat; split; vm_compute; reflexivity).
  assert (get_task (W running) 3 = Some running_task) as HT
    by (vm_compute; reflexivity).
  assert (zero_count [LNumber 0]) as Hz by (right; reflexivity).
  destruct (spawn_remove_zero_noop _ _ _ _ _ _ Hh HT Hz) as (H1 & H2 & _).
  split; [exact H1|].
  apply H2; simpl; discriminate.
Defined.

Lemma spawn_errors_and_effect_witness :
  ∃ (w' : world) (T' : clp_Task),
    task_instantiate (call_state (W running) (L running) [LUserdata 1; LNumber 3])
    = Ret 1 (return_state w' (L running) [LUserdata 1; LNumber 3] [LUserdata 1])
    ∧ get_task w' 3 = Some T'
    ∧ t_instances T' = 4.
Proof.
  assert (is_task_handle (L running) 1 3) as Hh
    by (exists 3%nat; split; vm_compute; reflexivity).
  assert (get_task (W running) 3 = Some running_task) as HT
    by (vm_compute; reflexivity).
  assert (get_pool (W running) (t_pool running_task) = Some running_pool) as HP
    by (vm_compute; reflexivity).
  assert (get_queue (W running) (p_ready running_pool) = Some running_queue) as HQ
    by (vm_compute; reflexivity).
  destruct (proj2 (proj2 (spawn_errors_and_effect _ _ _ _ _ 3 Hh HT))
              ltac:(simpl; discriminate) ltac:(simpl; discriminate) _ _ HP HQ)
    as (w' & T' & M' & H1 & H2 & H3 & _);
    [simpl; lia | unfold INT_MAX; simpl; lia | unfold INT_MIN; simpl; lia
    | unfold INT_MAX; simpl; lia |].
  exists w', T'. split; [exact H1|]. split; [exact H2|exact H3].
Defined.

(** ** [destroy] *)

Lemma clp_destroytask_live (w : world) (l : lua_State) (u : nat) (t' e' : nat)
    (T : clp_Task) (b : string) (m : nat) :
  registry l !! KStr CLP_TASK_METATABLE = Some (LTable m) →
  udata l !! u = Some {| ud_block := S t'; ud_meta := Some m |} →
  mem w !! t' = Some (CTask T) →
  t_env T = S e' →
  mem w !! e' = Some (CBytes b) →
  clp_destroytask (call_state w l [LUserdata u])
  = Ret 0 (return_state
             {| mem := <[t' := CTask (set_t_input NULL T)]> (<[e' := CFreed]> (mem w));
                threads := threads w;
                clp_defaultpool := clp_defaultpool w |}
             (set_udata (<[u := {| ud_block := NULL; ud_meta := Some m |}]> (udata l)) l)
             [LUserdata u] []).
Proof.
  intros Hr Hu HT He Hb.
  destruct l as [s r tb ud], w as [M thr dp]. simpl in *.
  pose proof (lookup_lt_Some _ _ _ HT). pose proof (lookup_lt_Some _ _ _ Hb).
  assert (t' ≠ e') by (intros ->; congruence).
  assert (t_env T ≠ NULL) by (rewrite He; done).
  unfold clp_destroytask. cm_unfold. unfold get_task, get_bytes, deref, store.
  repeat first [ cm_step
               | rewrite list_lookup_insert_ne by done
               | rewrite list_lookup_insert_eq by (rewrite ?length_insert; done) ].
  done.
Qed.

Lemma clp_destroytask_dead (w : world) (l : lua_State) (u : nat) (m : nat) :
  registry l !! KStr CLP_TASK_METATABLE = Some (LTable m) →
  udata l !! u = Some {| ud_block := NULL; ud_meta := Some m |} →
  clp_destroytask (call_state w l [LUserdata u])
  = Ret 0 (return_state w l [LUserdata u] []).
Proof.
  intros Hr Hu. destruct l as [s r tb ud]. simpl in *.
  unfold clp_destroytask. cm_run. done.
Qed.

(** C9 (amended).  [destroy] does not look at the counter [instances].  On a
    handle of a live task whose environment is set it returns no result and,
    whatever the value of [instances], frees the environment buffer, sets
    the task's [input] to null and clears the pointer in the handle; the
    task structure itself stays allocated, with its counter and its other
    fields (the dangling [env] pointer included) as they were, and no other
    cell changes.  On the handle so cleared, a second [destroy] does
    nothing. *)
Theorem destroy_ignores_instances (w : world) (l : lua_State) (u : nat) (t : ptr)
    (T : clp_Task) (b : string) :
  is_task_handle l u t →
  get_task w t = Some T →
  get_bytes w (t_env T) = Some b →
  ∃ (w' : world) (l' : lua_State),
    clp_destroytask (call_state w l [LUserdata u])
    = Ret 0 (return_state w' l' [LUserdata u] [])
    ∧ deref w' (t_env T) = Some CFreed
    ∧ get_task w' t = Some (set_t_input NULL T)
    ∧ (∃ m, udata l' !! u = Some {| ud_block := NULL; ud_meta := Some m |}
            ∧ registry l' !! KStr CLP_TASK_METATABLE = Some (LTable m))
    ∧ length (mem w') = length (mem w)
    ∧ (∀ p, p ≠ t → p ≠ t_env T → deref w' p = deref w p)
    ∧ clp_destroytask (call_state w' l' [LUserdata u])
      = Ret 0 (return_state w' l' [LUserdata u] []).
Proof.
  intros (m & Hr & Hu) HT Hb.
  destruct (get_task_ptr _ _ _ HT) as (t' & -> & HT').
  assert (∃ e', t_env T = S e' ∧ mem w !! e' = Some (CBytes b)) as (e' & He & Hb').
  { unfold get_bytes, deref in Hb. destruct (t_env T) as [|e']; [done|].
    destruct (mem w !! e') as [[]|] eqn:E; try done. injection Hb as ->. eauto. }
  pose proof (lookup_lt_Some _ _ _ HT'). pose proof (lookup_lt_Some _ _ _ Hb').
  pose proof (lookup_lt_Some _ _ _ Hu).
  assert (t' ≠ e') by (intros ->; congruence).
  eexists _, _. split; [by eapply clp_destroytask_live|].
  split; [|split; [|split; [|split; [|split]]]].
  - rewrite He. unfold deref. simpl.
    rewrite list_lookup_insert_ne by done. by rewrite list_lookup_insert_eq.
  - unfold get_task, deref. simpl.
    by rewrite list_lookup_insert_eq by (rewrite length_insert; done).
  - exists m. simpl. split; [|done]. by rewrite list_lookup_insert_eq.
  - simpl. by rewrite !length_insert.
  - intros [|p'] Hp1 Hp2; [done|]. unfold deref. simpl.
    rewrite !list_lookup_insert_ne; [done| |]; congruence.
  - eapply clp_destroytask_dead; simpl; [done|]. by rewrite list_lookup_insert_eq.
Qed.

Lemma destroy_ignores_instances_witness :
  0 < t_instances running_task
  ∧ ∃ (w' : world) (l' : lua_State),
      clp_destroytask (call_state (W running) (L running) [LUserdata 1])
      = Ret 0 (return_state w' l' [LUserdata 1] [])
      ∧ deref w' 4 = Some CFreed.
Proof.
  split; [simpl; lia|].
  assert (is_task_handle (L running) 1 3) as Hh
    by (exists 3%nat; split; vm_compute; reflexivity).
  assert (get_task (W running) 3 = Some running_task) as HT
    by (vm_compute; reflexivity).
  assert (get_bytes (W running) (t_env running_task) = Some "iiiiiii;") as Hb
    by (vm_compute; reflexivity).
  destruct (destroy_ignores_instances _ _ _ _ _ _ Hh HT Hb)
    as (w' & l' & H1 & H2 & _).
  exists w', l'. split; [exact H1|exact H2].
Defined.

(** C9, counterexample.  The task of [running] has one instance
    ([instances = 1 > 0]); [destroy] on its handle returns normally and
    afterwards the buffer of [env], at address 4, is freed, the task's
    [input] is null and the handle no longer points to the task. *)
Lemma destroy_with_live_instance_frees_env :
  let entry := call_state (W running) (L running) [LUserdata 1] in
  let s' := state_of (clp_destroytask entry) in
  (t_instances <$> get_task (W running) 3) = Some 1
  ∧ get_bytes (W running) 4 = Some "iiiiiii;"
  ∧ clp_destroytask entry = Ret 0 s'
  ∧ deref (W s') 4 = Some CFreed
  ∧ (t_input <$> get_task (W s') 3) = Some NULL
  ∧ (ud_block <$> udata (L s') !! 1%nat) = Some NULL.
Proof.
  split; [vm_compute; reflexivity|].
  split; [vm_compute; reflexivity|].
  split; [vm_compute; reflexivity|].
  split; [vm_compute; reflexivity|].
  split; vm_compute; reflexivity.
Qed.

(** ** [kill] *)

Lemma pool_killthread_push (w : world) (l : lua_State) (u : nat) (p' q' : nat)
    (P : pool_s) (Q : lfqueue) :
  is_pool_handle l u (S p') →
  mem w !! p' = Some (CPool P) →
  p_ready P = S q' →
  mem w !! q' = Some (CQueue Q) →
  q_capacity Q < 0 →
  pool_killthread (call_state w l [LUserdata u])
  = Ret 0 (return_state
             {| mem := <[q' := CQueue {| q_items := q_items Q ++ [NULL];
                                         q_capacity := q_capacity Q |}]> (mem w);
                threads := threads w;
                clp_defaultpool := clp_defaultpool w |}
             l [LUserdata u] []).
Proof.
  intros (m & Hr & Hu) HP Hq HQ Hcap.
  destruct l as [s r tb ud], w as [M thr dp], Q as [items cap]. simpl in *.
  assert ((0 <=? cap) = false) by lia.
  unfold pool_killthread. cm_unfold. unfold get_pool, get_queue, deref, store.
  repeat cm_step. done.
Qed.

Lemma worker_dequeue_tombstone (w : world) (l : lua_State) (p' q' : nat)
    (P : pool_s) (rest : list ptr) (cap : Z) :
  mem w !! p' = Some (CPool P) →
  p_ready P = S q' →
  mem w !! q' = Some (CQueue {| q_items := NULL :: rest; q_capacity := cap |}) →
  worker_dequeue (S p') {| W := w; L := l |}
  = Ret WorkerExits
      {| W := {| mem := <[p' := CPool (set_p_size (to_int (p_size P - 1)) P)]>
                          (<[q' := CQueue {| q_items := rest; q_capacity := cap |}]>
                             (mem w));
                 threads := remove_first (S p') (threads w);
                 clp_defaultpool := clp_defaultpool w |};
         L := l |}.
Proof.
  intros HP Hq HQ. destruct w as [M thr dp]. simpl in *.
  pose proof (lookup_lt_Some _ _ _ HP). pose proof (lookup_lt_Some _ _ _ HQ).
  assert (q' ≠ p') by (intros ->; congruence).
  unfold worker_dequeue. cm_unfold. unfold get_pool, get_queue, deref, store.
  repeat first [ cm_step
               | rewrite list_lookup_insert_ne by done
               | rewrite list_lookup_insert_eq by (rewrite ?length_insert; done) ].
  done.
Qed.

(** C7.  [kill()] on a pool (whose ready queue is unbounded, as [new] makes
    it) returns no result and pushes exactly one tombstone, the null
    pointer, at the end of the pool's ready queue; nothing else changes: the
    pool structure with its [size], every other cell, the worker threads and
    the interpreter are as before.  The size goes down when a worker
    dequeues the tombstone: if the queue was empty, the next dequeue by a
    worker of the pool finds the tombstone, lowers [size] by one and the
    worker exits. *)
Theorem kill_pushes_one_tombstone (w : world) (l : lua_State) (u : nat) (p : ptr)
    (P : pool_s) (Q : lfqueue) :
  is_pool_handle l u p →
  get_pool w p = Some P →
  get_queue w (p_ready P) = Some Q →
  q_capacity Q < 0 →
  ∃ w' : world,
    pool_killthread (call_state w l [LUserdata u])
    = Ret 0 (return_state w' l [LUserdata u] [])
    ∧ get_queue w' (p_ready P)
      = Some {| q_items := q_items Q ++ [NULL]; q_capacity := q_capacity Q |}
    ∧ get_pool w' p = Some P
    ∧ length (mem w') = length (mem w)
    ∧ (∀ x, x ≠ p_ready P → deref w' x = deref w x)
    ∧ threads w' = threads w
    ∧ (q_items Q = [] →
       ∃ w'' : world,
         worker_dequeue p {| W := w'; L := l |} = Ret WorkerExits {| W := w''; L := l |}
         ∧ get_pool w'' p = Some (set_p_size (to_int (p_size P - 1)) P)
         ∧ threads w'' = remove_first p (threads w)).
Proof.
  intros Hh HP HQ Hcap.
  destruct (get_pool_ptr _ _ _ HP) as (p' & -> & HP').
  destruct (get_queue_ptr _ _ _ HQ) as (q' & Hq & HQ').
  pose proof (lookup_lt_Some _ _ _ HP'). pose proof (lookup_lt_Some _ _ _ HQ').
  assert (q' ≠ p') by (intros ->; congruence).
  eexists. split; [by eapply pool_killthread_push|].
  split; [|split; [|split; [|split; [|split]]]].
  - rewrite Hq. unfold get_queue, deref. simpl. by rewrite list_lookup_insert_eq.
  - unfold get_pool, deref. simpl. rewrite list_lookup_insert_ne by done.
    by rewrite HP'.
  - simpl. by rewrite length_insert.
  - intros [|x'] Hx; [done|]. unfold deref. simpl.
    rewrite list_lookup_insert_ne; [done|]. congruence.
  - done.
  - intros Hempty. eexists. split.
    + eapply (worker_dequeue_tombstone _ _ p' q' P []); simpl.
      * by rewrite list_lookup_insert_ne.
      * done.
      * rewrite list_lookup_insert_eq by done. by rewrite Hempty.
    + split; [|done]. unfold get_pool, deref. simpl.
      by rewrite list_lookup_insert_eq by (rewrite !length_insert; done).
Qed.

Lemma kill_pushes_one_tombstone_witness :
  ∃ w' : world,
    pool_killthread (call_state (W running) (L running) [LUserdata 0])
    = Ret 0 (return_state w' (L running) [LUserdata 0] [])
    ∧ get_queue w' 2 = Some {| q_items := [6%nat; NULL]; q_capacity := -1 |}
    ∧ get_pool w' 1 = Some running_pool.
Proof.
  assert (is_pool_handle (L running) 0 1) as Hh
    by (exists 0%nat; split; vm_compute; reflexivity).
  assert (get_pool (W running) 1 = Some running_pool) as HP
    by (vm_compute; reflexivity).
  assert (get_queue (W running) (p_ready running_pool) = Some running_queue) as HQ
    by (vm_compute; reflexivity).
  destruct (kill_pushes_one_tombstone _ _ _ _ _ _ Hh HP HQ ltac:(simpl; lia))
    as (w' & H1 & H2 & H3 & _).
  exists w'. split; [exact H1|]. split; [exact H2|exact H3].
Defined.

(** ** [new] of a pool *)

Lemma clp_newthread_loop (k : nat) : ∀ (M : list cell) (thr : list ptr) (dp : ptr)
    (l : lua_State) (p : ptr),
  for_loop k (clp_newthread p)
    {| W := {| mem := M; threads := thr; clp_defaultpool := dp |}; L := l |}
  = Ret () {| W := {| mem := M; threads := thr ++ replicate k p;
                      clp_defaultpool := dp |};
              L := l |}.
Proof.
  induction k as [|k IH]; intros M thr dp l p.
  - simpl. by rewrite app_nil_r.
  - change (for_loop k (clp_newthread p)
              {| W := {| mem := M; threads := thr ++ [p]; clp_defaultpool := dp |};
                 L := l |}
            = Ret () {| W := {| mem := M; threads := thr ++ replicate (S k) p;
                                clp_defaultpool := dp |};
                        L := l |}).
    rewrite IH. by rewrite <- app_assoc.
Qed.

Lemma pool_addthread_ok (M : list cell) (thr : list ptr) (dp : ptr)
    (r : gmap lkey lua_value) (tb : list ltable) (ud : list ludata)
    (u m p' : nat) (P : pool_s) (size : Z) :
  r !! KStr CLP_POOL_METATABLE = Some (LTable m) →
  ud !! u = Some {| ud_block := S p'; ud_meta := Some m |} →
  M !! p' = Some (CPool P) →
  0 ≤ size ≤ INT_MAX →
  INT_MIN ≤ p_size P + size ≤ INT_MAX →
  pool_addthread
    {| W := {| mem := M; threads := thr; clp_defaultpool := dp |};
       L := {| stack := [LNumber size; LUserdata u]; registry := r; tables := tb;
               udata := ud |} |}
  = Ret size
      {| W := {| mem := <[p' := CPool (set_p_lock 0 (set_p_size (p_size P + size) P))]> M;
                 threads := thr ++ replicate (Z.to_nat size) (S p');
                 clp_defaultpool := dp |};
         L := {| stack := [LNumber size; LUserdata u]; registry := r; tables := tb;
                 udata := ud |} |}.
Proof.
  intros Hr Hu HP Hsize Hsum.
  pose proof (lookup_lt_Some _ _ _ HP).
  assert (to_int size = size) as Hs by (apply to_int_id; unfold INT_MIN, INT_MAX in *; lia).
  assert ((size <? 0) = false) by lia.
  unfold pool_addthread. cm_unfold. unfold get_pool, deref, store.
  repeat first [ cm_step | cm_heap ].
  rewrite clp_newthread_loop.
  repeat first [ cm_step | cm_heap | rewrite list_insert_insert_eq ].
  rewrite (to_int_id _ Hsum). by destruct P.
Qed.

Lemma pool_new_negative (w : world) (l : lua_State) (size : Z) :
  INT_MIN ≤ size < 0 →
  pool_new (call_state w l [LNumber size])
  = Raise "Initial pool size must be greater than zero" (call_state w l [LNumber size]).
Proof.
  intros Hs. destruct l as [s r tb ud].
  assert (to_int size = size) as Hs' by (apply to_int_id; unfold INT_MIN, INT_MAX in *; lia).
  assert ((size <? 0) = true) by lia.
  unfold pool_new. cm_exec. done.
Qed.

Ltac cm_addthread :=
  idtac;
  match goal with
  | |- context [pool_addthread
                  {| W := {| mem := ?M ++ _; threads := _; clp_defaultpool := _ |};
                     L := {| stack := [_; LUserdata ?u]; registry := ?r; tables := _;
                             udata := _ |} |}] =>
      erewrite (pool_addthread_ok _ _ _ _ _ _ u _ (length M));
      [ | repeat first [ cm_heap | cm_rew ]; try reflexivity;
          unfold INT_MIN, INT_MAX in *; simpl; lia .. ]
  end.

Lemma pool_new_ok (w : world) (l : lua_State) (size : Z) :
  pool_metatable_ok l →
  0 ≤ size ≤ INT_MAX →
  ∃ l' : lua_State,
    pool_new (call_state w l [LNumber size])
    = Ret 1 {| W := {| mem := mem w ++ [CPool {| p_size := size; p_lock := 0;
                                                 p_ready := S (S (length (mem w))) |};
                                        CQueue {| q_items := []; q_capacity := -1 |}];
                       threads := threads w
                                  ++ replicate (Z.to_nat size) (S (length (mem w)));
                       clp_defaultpool := clp_defaultpool w |};
               L := l' |}
    ∧ stack l' = frame [LNumber size; LUserdata (length (udata l))]
    ∧ is_pool_handle l' (length (udata l)) (S (length (mem w))).
Proof.
  intros Hmt Hs. destruct l as [s r tb ud], w as [M thr dp].
  assert (to_int size = size) as Hs' by (apply to_int_id; unfold INT_MIN, INT_MAX in *; lia).
  assert ((size <? 0) = false) by lia.
  unfold is_pool_handle.
  destruct Hmt as [Hmt | [m Hmt]]; simpl in Hmt.
  - eexists. split; [|split].
    + unfold pool_new, clp_buildpool, get_metatable. unfold call_state. simpl.
      cm_go cm_addthread.
      cm_eval fail. reflexivity.
    + reflexivity.
    + simpl. eexists. split; [by rewrite lookup_insert_eq|]. by rewrite app_lookup_0.
  - eexists. split; [|split].
    + unfold pool_new, clp_buildpool, get_metatable. unfold call_state. simpl.
      cm_go cm_addthread.
      cm_eval fail. reflexivity.
    + reflexivity.
    + simpl. eexists. split; [done|]. by rewrite app_lookup_0.
Qed.

Lemma pool_size_ok (w : world) (l : lua_State) (u : nat) (p' : nat) (P : pool_s) :
  is_pool_handle l u (S p') →
  mem w !! p' = Some (CPool P) →
  p_lock P = 0 →
  pool_size (call_state w l [LUserdata u])
  = Ret 1 (return_state w l [LUserdata u] [LNumber (p_size P)]).
Proof.
  intros (m & Hr & Hu) HP Hlock.
  destruct l as [s r tb ud], w as [M thr dp]. simpl in *.
  pose proof (lookup_lt_Some _ _ _ HP).
  unfold pool_size. cm_unfold. unfold get_pool, deref, store.
  repeat first [ cm_step | cm_heap | rewrite list_insert_insert_eq ].
  rewrite list_insert_id; [done|]. rewrite HP. destruct P. simpl in *. by subst.
Qed.

Lemma workers_fresh (thr : list ptr) (p : ptr) (n k : nat) :
  Forall (λ x, x ≤ n)%nat thr →
  (n < p)%nat →
  length (filter (λ x, x = p) (thr ++ replicate k p)) = k.
Proof.
  intros Hthr Hp. rewrite filter_app, length_app.
  replace (filter (λ x, x = p) thr) with (@nil nat).
  - simpl. induction k as [|k IH]; [done|]. simpl.
    rewrite filter_cons_True by done. simpl. by rewrite IH.
  - symmetry. induction Hthr as [|x thr Hx _ IH]; [done|].
    rewrite filter_cons_False by lia. done.
Qed.

(** C6.  [Pool.new(size)] raises an error for every [size < 0] (changing
    nothing).  For every [size >= 0] (that fits a C [int]) it returns one
    result, the handle of a new pool whose ready queue is new, empty and
    unbounded (capacity -1) and whose [size] field is [size]; exactly [size]
    worker threads are started for it and no other thread or cell changes,
    so that the pool has [size] workers.  [size()] on the returned handle
    gives [size]: in particular [Pool.new(0)] succeeds, with no worker and
    [size() == 0]. *)
Theorem pool_new_spec (w : world) (l : lua_State) (size : Z) :
  pool_metatable_ok l →
  let entry := call_state w l [LNumber size] in
  (INT_MIN ≤ size < 0 →
   pool_new entry = Raise "Initial pool size must be greater than zero" entry)
  ∧ (0 ≤ size ≤ INT_MAX →
     ∃ (w' : world) (l' : lua_State) (u : nat) (p q : ptr),
       pool_new entry = Ret 1 {| W := w'; L := l' |}
       ∧ stack l' = frame [LNumber size; LUserdata u]
       ∧ is_pool_handle l' u p
       ∧ get_pool w p = None
       ∧ get_pool w' p = Some {| p_size := size; p_lock := 0; p_ready := q |}
       ∧ get_queue w' q = Some {| q_items := []; q_capacity := -1 |}
       ∧ (∀ x, (x ≤ length (mem w))%nat → deref w' x = deref w x)
       ∧ threads w' = threads w ++ replicate (Z.to_nat size) p
       ∧ (Forall (λ x, x ≤ length (mem w))%nat (threads w) →
          workers w' p = Z.to_nat size)
       ∧ pool_size (call_state w' l' [LUserdata u])
         = Ret 1 (return_state w' l' [LUserdata u] [LNumber size])).
Proof.
  intros Hmt entry. subst entry. split.
  - apply pool_new_negative.
  - intros Hs.
    destruct (pool_new_ok w l size Hmt Hs) as (l' & Hrun & Hstk & Hh).
    eexists _, l', (length (udata l)), (S (length (mem w))), (S (S (length (mem w)))).
    split; [exact Hrun|].
    split; [exact Hstk|]. split; [exact Hh|].
    split; [|split; [|split; [|split; [|split; [|split]]]]].
    + unfold get_pool, deref. by rewrite lookup_ge_None_2.
    + unfold get_pool, deref. simpl. by rewrite app_lookup_0.
    + unfold get_queue, deref. simpl. by rewrite app_lookup_1.
    + intros [|x'] Hx; [done|]. unfold deref. simpl.
      by rewrite lookup_app_l by lia.
    + done.
    + intros Hthr. unfold workers. simpl. eapply workers_fresh; [done|]. lia.
    + eapply (pool_size_ok _ _ _ (length (mem w))
                {| p_size := size; p_lock := 0; p_ready := S (S (length (mem w))) |});
        [done| |done].
      simpl. by rewrite app_lookup_0.
Qed.

Lemma pool_new_spec_witness :
  ∃ (w' : world) (l' : lua_State) (u : nat) (p : ptr),
    pool_new (call_state (W running) (L running) [LNumber 0]) = Ret 1 {| W := w'; L := l' |}
    ∧ workers w' p = 0%nat
    ∧ pool_size (call_state w' l' [LUserdata u])
      = Ret 1 (return_state w' l' [LUserdata u] [LNumber 0]).
Proof.
  assert (pool_metatable_ok (L running)) as Hmt
    by (right; exists 0%nat; vm_compute; reflexivity).
  destruct (proj2 (pool_new_spec (W running) (L running) 0 Hmt)
              ltac:(unfold INT_MAX; simpl; lia))
    as (w' & l' & u & p & q & H1 & _ & _ & _ & _ & _ & _ & _ & H2 & H3).
  exists w', l', u, p. split; [exact H1|]. split; [|exact H3].
  apply H2. vm_compute. repeat constructor.
Defined.

(** ** [get]: the cache of handles *)

Lemma task_getcached_new (w : world) (s : list lua_value) (r : gmap lkey lua_value)
    (tb : list ltable) (ud : list ludata) (t : ptr) :
  (∀ c, r !! KStr CLP_TASK_CACHE ≠ Some (LTable c)) →
  task_getcached t {| W := w; L := {| stack := s; registry := r; tables := tb; udata := ud |} |}
  = Ret () {| W := w;
              L := {| stack := LNil :: s;
                      registry := <[KStr CLP_TASK_CACHE := LTable (length tb)]> r;
                      tables := tb ++ [ {| tb_fields := ∅; tb_meta := Some (S (length tb)) |};
                                        weak_values ];
                      udata := ud |} |}.
Proof.
  intros Hc. unfold task_getcached, weak_values.
  destruct (r !! KStr CLP_TASK_CACHE) as [[]|] eqn:E;
    try (by exfalso; eapply Hc);
    (cm_go fail; cm_eval fail; reflexivity).
Qed.

Lemma get_taskmetatale_new (w : world) (s : list lua_value) (r : gmap lkey lua_value)
    (tb : list ltable) (ud : list ludata) :
  r !! KStr CLP_TASK_METATABLE = None →
  get_taskmetatale {| W := w; L := {| stack := s; registry := r; tables := tb; udata := ud |} |}
  = Ret () {| W := w;
              L := {| stack := LTable (length tb) :: s;
                      registry := <[KStr CLP_TASK_METATABLE := LTable (length tb)]> r;
                      tables := tb ++ [ {| tb_fields := task_metatable_fields (length tb);
                                           tb_meta := None |} ];
                      udata := ud |} |}.
Proof.
  intros Hr. unfold get_taskmetatale, task_metatable_fields, TaskMetaFunctions.
  cbn [LUA_REGISTER foldl].
  cm_go fail. cm_eval fail. reflexivity.
Qed.

Lemma get_taskmetatale_old (w : world) (s : list lua_value) (r : gmap lkey lua_value)
    (tb : list ltable) (ud : list ludata) (m : nat) :
  r !! KStr CLP_TASK_METATABLE = Some (LTable m) →
  get_taskmetatale {| W := w; L := {| stack := s; registry := r; tables := tb; udata := ud |} |}
  = Ret () {| W := w;
              L := {| stack := LTable m :: s; registry := r; tables := tb; udata := ud |} |}.
Proof.
  intros Hr. unfold get_taskmetatale.
  cm_go fail. cm_eval fail. reflexivity.
Qed.

Lemma task_getcached_old (w : world) (s : list lua_value) (r : gmap lkey lua_value)
    (tb : list ltable) (ud : list ludata) (t : ptr) (c : nat) (ct : ltable) :
  is_cache {| stack := s; registry := r; tables := tb; udata := ud |} c ct →
  tb_fields ct !! KPtr t ≠ Some LNil →
  task_getcached t {| W := w; L := {| stack := s; registry := r; tables := tb; udata := ud |} |}
  = Ret () {| W := w;
              L := {| stack := default LNil (tb_fields ct !! KPtr t) :: s;
                      registry := r; tables := tb; udata := ud |} |}.
Proof.
  intros (Hr & Hc & wm & wt & Hm & Hwt & Hmode & Hidx) Hnil. simpl in *.
  unfold task_getcached.
  destruct (tb_fields ct !! KPtr t) as [v|] eqn:E.
  - assert (v ≠ LNil) by congruence.
    cm_go fail. cm_eval fail. reflexivity.
  - cm_go fail. cm_eval fail. reflexivity.
Qed.

Lemma task_putcache_ok (w : world) (s : list lua_value) (r : gmap lkey lua_value)
    (tb : list ltable) (ud : list ludata) (t : ptr) (u c : nat) :
  r !! KStr CLP_TASK_CACHE = Some (LTable c) →
  task_putcache t {| W := w; L := {| stack := LUserdata u :: s; registry := r; tables := tb;
                                     udata := ud |} |}
  = Ret () {| W := w;
              L := {| stack := LUserdata u :: s;
                      registry := <[KStr CLP_TASK_CACHE := LTable (length tb)]> r;
                      tables := tb ++ [ {| tb_fields := <[KPtr t := LUserdata u]> ∅;
                                           tb_meta := Some (S (length tb)) |};
                                        weak_values ];
                      udata := ud |} |}.
Proof.
  intros Hr. unfold task_putcache, weak_values.
  cm_go fail. cm_eval fail. reflexivity.
Qed.

Lemma clp_buildtask_hit (w : world) (s : list lua_value) (r : gmap lkey lua_value)
    (tb : list ltable) (ud : list ludata) (t : ptr) (c u : nat) (ct : ltable) :
  is_cache {| stack := s; registry := r; tables := tb; udata := ud |} c ct →
  tb_fields ct !! KPtr t = Some (LUserdata u) →
  clp_buildtask t {| W := w; L := {| stack := s; registry := r; tables := tb; udata := ud |} |}
  = Ret () {| W := w;
              L := {| stack := LUserdata u :: s; registry := r; tables := tb;
                      udata := ud |} |}.
Proof.
  intros Hc Ht. unfold clp_buildtask.
  eapply bind_Ret_eq.
  { rewrite (task_getcached_old _ _ _ _ _ _ _ _ Hc) by (by rewrite Ht).
    rewrite Ht. reflexivity. }
  cm_go fail. cm_eval fail. reflexivity.
Qed.

Lemma clp_buildtask_miss (w : world) (s : list lua_value) (r : gmap lkey lua_value)
    (tb : list ltable) (ud : list ludata) (t : ptr) (m c : nat) (ct : ltable) :
  r !! KStr CLP_TASK_METATABLE = Some (LTable m) →
  is_cache {| stack := s; registry := r; tables := tb; udata := ud |} c ct →
  tb_fields ct !! KPtr t = None →
  clp_buildtask t {| W := w; L := {| stack := s; registry := r; tables := tb; udata := ud |} |}
  = Ret () {| W := w;
              L := {| stack := LUserdata (length ud) :: s;
                      registry := <[KStr CLP_TASK_CACHE := LTable (length tb)]> r;
                      tables := tb ++ [ {| tb_fields := <[KPtr t := LUserdata (length ud)]> ∅;
                                           tb_meta := Some (S (length tb)) |};
                                        weak_values ];
                      udata := ud ++ [ {| ud_block := t; ud_meta := Some m |} ] |} |}.
Proof.
  intros Hm Hc Ht. unfold clp_buildtask.
  eapply bind_Ret_eq.
  { rewrite (task_getcached_old _ _ _ _ _ _ _ _ Hc) by (by rewrite Ht).
    rewrite Ht. reflexivity. }
  destruct Hc as (Hr & _). simpl in Hr.
  cm_go fail.
  eapply bind_Ret_eq.
  { rewrite (get_taskmetatale_old _ _ _ _ _ _ Hm). reflexivity. }
  cbv beta. cm_go fail.
  by eapply task_putcache_ok.
Qed.

Lemma clp_buildtask_cold (w : world) (s : list lua_value) (r : gmap lkey lua_value)
    (tb : list ltable) (ud : list ludata) (t : ptr) (m : nat) :
  r !! KStr CLP_TASK_METATABLE = Some (LTable m) →
  (∀ c, r !! KStr CLP_TASK_CACHE ≠ Some (LTable c)) →
  clp_buildtask t {| W := w; L := {| stack := s; registry := r; tables := tb; udata := ud |} |}
  = Ret () {| W := w;
              L := {| stack := LUserdata (length ud) :: s;
                      registry := <[KStr CLP_TASK_CACHE := LTable (S (S (length tb)))]> r;
                      tables := tb ++ [ {| tb_fields := ∅; tb_meta := Some (S (length tb)) |};
                                        weak_values;
                                        {| tb_fields := <[KPtr t := LUserdata (length ud)]> ∅;
                                           tb_meta := Some (S (S (S (length tb)))) |};
                                        weak_values ];
                      udata := ud ++ [ {| ud_block := t; ud_meta := Some m |} ] |} |}.
Proof.
  intros Hm Hc. unfold clp_buildtask.
  eapply bind_Ret_eq.
  { by apply task_getcached_new. }
  cm_go fail.
  eapply bind_Ret_eq.
  { rewrite (get_taskmetatale_old _ _ _ _ _ m); [reflexivity|].
    by rewrite lookup_insert_ne. }
  cbv beta. cm_go fail.
  erewrite task_putcache_ok by apply lookup_insert_eq.
  rewrite insert_insert_eq, <- app_assoc, length_app. simpl.
  replace (length tb + 2)%nat with (S (S (length tb))) by lia.
  reflexivity.
Qed.

(** ** Equality of handles *)

Lemma task_eq_ok (w : world) (r : gmap lkey lua_value) (tb : list ltable)
    (ud : list ludata) (h1 h2 : nat) (t1 t2 : ptr) (m : nat) :
  r !! KStr CLP_TASK_METATABLE = Some (LTable m) →
  ud !! h1 = Some {| ud_block := t1; ud_meta := Some m |} →
  ud !! h2 = Some {| ud_block := t2; ud_meta := Some m |} →
  task_eq {| W := w; L := {| stack := [LUserdata h2; LUserdata h1]; registry := r;
                             tables := tb; udata := ud |} |}
  = Ret 1 {| W := w; L := {| stack := [LBoolean (bool_decide (t1 = t2));
                                       LUserdata h2; LUserdata h1];
                             registry := r; tables := tb; udata := ud |} |}.
Proof.
  intros Hm H1 H2. unfold task_eq.
  cm_go fail. cm_eval fail. reflexivity.
Qed.

Lemma get_compTM_handles (l : lua_State) (h1 h2 : nat) (t1 t2 : ptr) :
  task_metatable_ok l →
  is_task_handle l h1 t1 →
  is_task_handle l h2 t2 →
  get_compTM l (LUserdata h1) (LUserdata h2) = LCFunction F_task_eq.
Proof.
  intros (m & mt & Hm & Hmt & Heq) (m1 & Hm1 & H1) (m2 & Hm2 & H2).
  assert (m1 = m) as -> by congruence. assert (m2 = m) as -> by congruence.
  unfold get_compTM, getmetatable, rawget. rewrite H1, H2. simpl.
  rewrite decide_True by done. by rewrite Hmt, Heq.
Qed.

Lemma lua_equal_handles (w : world) (l : lua_State) (h1 h2 : nat) (t1 t2 : ptr) :
  task_metatable_ok l →
  is_task_handle l h1 t1 →
  is_task_handle l h2 t2 →
  lua_equal (LUserdata h1) (LUserdata h2) {| W := w; L := l |}
  = Ret (bool_decide (t1 = t2)) {| W := w; L := l |}.
Proof.
  intros Hok Hh1 Hh2. unfold lua_equal.
  destruct (decide (LUserdata h1 = LUserdata h2)) as [E|E].
  - destruct Hh1 as (m1 & Hm1 & H1), Hh2 as (m2 & Hm2 & H2).
    assert (t1 = t2) as -> by congruence.
    by rewrite bool_decide_true.
  - eapply bind_Ret_eq; [reflexivity|]. cbv beta. cbn [L].
    rewrite (get_compTM_handles _ _ _ _ _ Hok Hh1 Hh2).
    destruct Hh1 as (m & Hm & H1), Hh2 as (m2 & Hm2 & H2).
    destruct l as [s r tb ud]. simpl in *.
    assert (m2 = m) as -> by congruence. clear Hm2 Hok E.
    cm_go fail.
    eapply bind_Ret_eq.
    { unfold lua_call, enter_frame, leave_frame, is_cfun, set_stack. simpl.
      rewrite (task_eq_ok _ _ _ _ _ _ _ _ _ Hm H1 H2). simpl. rewrite drop_0. reflexivity. }
    cbv beta. cm_go fail. cm_eval fail.
    by destruct (bool_decide (t1 = t2)).
Qed.

Lemma extends_handle (l l' : lua_State) (u : nat) (t : ptr) :
  extends l l' → is_task_handle l u t → is_task_handle l' u t.
Proof.
  intros (Hr & _ & ext & Hu) (m & Hm & Hd). exists m. split; [congruence|].
  rewrite Hu. by apply lookup_app_l_Some.
Qed.

Lemma extends_metatable (l l' : lua_State) :
  extends l l' → task_metatable_ok l → task_metatable_ok l'.
Proof.
  intros (Hr & (ext & Ht) & _) (m & mt & Hm & Hmt & Heq). exists m, mt.
  split; [congruence|]. split; [|done].
  rewrite Ht. by apply lookup_app_l_Some.
Qed.

Lemma is_cache_fresh (s : list lua_value) (r : gmap lkey lua_value) (tb : list ltable)
    (ud : list ludata) (f : gmap lkey lua_value) (rest : list ltable) (k : nat) :
  k = length tb →
  is_cache {| stack := s; registry := <[KStr CLP_TASK_CACHE := LTable k]> r;
              tables := tb ++ {| tb_fields := f; tb_meta := Some (S k) |}
                              :: weak_values :: rest;
              udata := ud |}
           k {| tb_fields := f; tb_meta := Some (S k) |}.
Proof.
  intros ->. split; [apply lookup_insert_eq|]. split; [apply app_lookup_0|].
  exists (S (length tb)), weak_values. split; [done|]. split; [apply app_lookup_1|].
  done.
Qed.

Lemma clp_buildtask_spec (w : world) (l : lua_State) (t : ptr) :
  task_metatable_ok l →
  cache_ok l →
  ∃ l' u,
    clp_buildtask t {| W := w; L := l |} = Ret () {| W := w; L := l' |}
    ∧ stack l' = LUserdata u :: stack l
    ∧ is_task_handle l' u t
    ∧ cached l' t u
    ∧ (∀ u0, cached l t u0 → u0 = u ∧ registry l' = registry l ∧ tables l' = tables l
                              ∧ udata l' = udata l)
    ∧ ((∀ u0, ¬ cached l t u0) → u = length (udata l))
    ∧ extends l l'
    ∧ cache_ok l'.
Proof.
  intros (m & mt & Hm & Hmt & Heq) Hc. destruct l as [s r tb ud]. simpl in *.
  destruct Hc as [Hc | (c & ct & Hc & Hv)]; simpl in *.
  - eexists _, _. split; [by apply (clp_buildtask_cold _ _ _ _ _ _ m)|]. simpl.
    assert (is_task_handle
      {| stack := LUserdata (length ud) :: s;
         registry := <[KStr CLP_TASK_CACHE := LTable (S (S (length tb)))]> r;
         tables := tb ++ [ {| tb_fields := ∅; tb_meta := Some (S (length tb)) |};
                           weak_values;
                           {| tb_fields := <[KPtr t := LUserdata (length ud)]> ∅;
                              tb_meta := Some (S (S (S (length tb)))) |};
                           weak_values ];
         udata := ud ++ [ {| ud_block := t; ud_meta := Some m |} ] |} (length ud) t) as Hh.
    { exists m. simpl. split; [by rewrite lookup_insert_ne|]. apply app_lookup_0. }
    assert (is_cache
      {| stack := LUserdata (length ud) :: s;
         registry := <[KStr CLP_TASK_CACHE := LTable (S (S (length tb)))]> r;
         tables := tb ++ [ {| tb_fields := ∅; tb_meta := Some (S (length tb)) |};
                           weak_values;
                           {| tb_fields := <[KPtr t := LUserdata (length ud)]> ∅;
                              tb_meta := Some (S (S (S (length tb)))) |};
                           weak_values ];
         udata := ud ++ [ {| ud_block := t; ud_meta := Some m |} ] |}
      (S (S (length tb)))
      {| tb_fields := <[KPtr t := LUserdata (length ud)]> ∅;
         tb_meta := Some (S (S (S (length tb)))) |}) as Hcache.
    { split; [apply lookup_insert_eq|]. split; [apply app_lookup_2|].
      exists (S (S (S (length tb)))), weak_values. split; [done|].
      split; [apply app_lookup_3|]. done. }
    split; [done|]. split; [done|].
    split. { eexists _, _. split; [exact Hcache|]. apply lookup_insert_eq. }
    split. { intros u0 (c0 & ct0 & (Hr0 & _) & _). simpl in Hr0. by destruct (Hc c0). }
    split; [done|].
    split. { split; [by simpl; rewrite lookup_insert_ne|]. split; eexists; done. }
    right. eexists _, _. split; [exact Hcache|]. simpl. intros t0 v0 Hl.
    apply lookup_insert_Some in Hl as [[E <-] | [_ Hl]]; [|by rewrite lookup_empty in Hl].
    injection E as <-. by exists (length ud).
  - destruct (tb_fields ct !! KPtr t) as [v|] eqn:Ht.
    + destruct (Hv t v Ht) as (u & -> & Hu).
      eexists _, u. split; [by eapply clp_buildtask_hit|]. simpl.
      split; [done|]. split; [done|].
      split. { by exists c, ct. }
      split. { intros u0 (c0 & ct0 & (Hr0 & Hc0 & _) & Hf0). simpl in *.
               destruct Hc as (Hr1 & Hc1 & _). simpl in *.
               assert (c0 = c) as -> by congruence.
               assert (ct0 = ct) as -> by congruence.
               split; [congruence|done]. }
      split. { intros Hn. destruct (Hn u). by exists c, ct. }
      split. { split; [done|]. split; exists []; simpl; by rewrite app_nil_r. }
      right. by exists c, ct.
    + eexists _, _. split; [by eapply (clp_buildtask_miss _ _ _ _ _ _ m)|]. simpl.
      assert (is_task_handle
        {| stack := LUserdata (length ud) :: s;
           registry := <[KStr CLP_TASK_CACHE := LTable (length tb)]> r;
           tables := tb ++ [ {| tb_fields := <[KPtr t := LUserdata (length ud)]> ∅;
                                tb_meta := Some (S (length tb)) |};
                             weak_values ];
           udata := ud ++ [ {| ud_block := t; ud_meta := Some m |} ] |} (length ud) t) as Hh.
      { exists m. simpl. split; [by rewrite lookup_insert_ne|]. apply app_lookup_0. }
      split; [done|]. split; [done|].
      split. { eexists _, _. split; [by apply is_cache_fresh|]. apply lookup_insert_eq. }
      split. { intros u0 (c0 & ct0 & (Hr0 & Hc0 & _) & Hf0). simpl in *.
               destruct Hc as (Hr1 & Hc1 & _). simpl in *.
               assert (c0 = c) as -> by congruence.
               assert (ct0 = ct) as -> by congruence. congruence. }
      split; [done|].
      split. { split; [by simpl; rewrite lookup_insert_ne|]. split; eexists; done. }
      right. eexists _, _. split; [by apply is_cache_fresh|]. simpl. intros t0 v0 Hl.
      apply lookup_insert_Some in Hl as [[E <-] | [_ Hl]]; [|by rewrite lookup_empty in Hl].
      injection E as <-. by exists (length ud).
Qed.

Lemma task_ptr_ok (w : world) (l : lua_State) (h : nat) (t : ptr) :
  is_task_handle l h t →
  task_ptr (call_state w l [LUserdata h])
  = Ret 1 (return_state w l [LUserdata h] [LLightUserdata t]).
Proof.
  intros (m & Hm & Hh). destruct l as [s r tb ud]. simpl in *.
  unfold task_ptr. cm_go fail. cm_eval fail. reflexivity.
Qed.

(** C8.  Handles of the same task compare equal with Lua's [==]: the
    [__eq] of their metatable, [task_eq], compares the addresses they hold.
    [h:__id()] is that address, and [get] applied to it (the address of a
    live task) returns a handle of the task that compares equal to [h].
    [get] consults the weak-valued cache of handles, keyed by the address:
    it returns the cached handle when there is one (so [h] itself when [h]
    is the cached one), and otherwise makes a new handle of the task, a
    userdata other than [h], and caches it. *)
Theorem get_round_trip (w : world) (l : lua_State) (h : nat) (t : ptr) :
  task_metatable_ok l →
  cache_ok l →
  is_task_handle l h t →
  t ≠ NULL →
  (∀ h2, is_task_handle l h2 t →
         lua_equal (LUserdata h) (LUserdata h2) {| W := w; L := l |}
         = Ret true {| W := w; L := l |})
  ∧ task_ptr (call_state w l [LUserdata h])
    = Ret 1 (return_state w l [LUserdata h] [LLightUserdata t])
  ∧ ∃ l' h',
      clp_gettask (call_state w l [LLightUserdata t]) = Ret 1 {| W := w; L := l' |}
      ∧ stack l' = frame [LLightUserdata t; LUserdata h']
      ∧ is_task_handle l' h' t
      ∧ is_task_handle l' h t
      ∧ lua_equal (LUserdata h') (LUserdata h) {| W := w; L := l' |}
        = Ret true {| W := w; L := l' |}
      ∧ cached l' t h'
      ∧ (cached l t h → h' = h)
      ∧ ((∀ u0, ¬ cached l t u0) → h' = length (udata l) ∧ h' ≠ h)
      ∧ task_metatable_ok l'
      ∧ cache_ok l'.
Proof.
  intros Hok Hc Hh Ht. split; [|split].
  - intros h2 Hh2. rewrite (lua_equal_handles _ _ _ _ t t) by done.
    by rewrite bool_decide_true.
  - by apply task_ptr_ok.
  - destruct l as [s r tb ud].
    destruct (clp_buildtask_spec w
                {| stack := [LLightUserdata t]; registry := r; tables := tb;
                   udata := ud |} t Hok Hc)
      as (l' & h' & Hrun & Hstk & Hh' & Hcd & Hhit & Hnew & Hext & Hc').
    assert (is_task_handle l' h t) as Hh1 by (by eapply extends_handle).
    assert (task_metatable_ok l') as Hok' by (by eapply extends_metatable).
    exists l', h'. split.
    { unfold clp_gettask, call_state, set_stack. cbn [stack registry tables udata].
      change (frame [LLightUserdata t]) with [LLightUserdata t].
      cm_go fail. cm_eval fail. reflexivity. }
    simpl in Hstk.
    split; [done|]. split; [done|]. split; [done|].
    split. { rewrite (lua_equal_handles _ _ _ _ t t) by done. by rewrite bool_decide_true. }
    split; [done|].
    split. { intros Hcached. by destruct (Hhit h Hcached). }
    split; [|done].
    intros Hn. split; [by apply Hnew|]. rewrite (Hnew Hn).
    destruct Hh as (m & _ & Hd). simpl in *. apply lookup_lt_Some in Hd. lia.
Qed.

Lemma get_round_trip_witness :
  3%nat ≠ NULL
  ∧ ∃ (l' : lua_State) (h' : nat),
      clp_gettask (call_state (W unwrapped) (L unwrapped) [LLightUserdata 3%nat])
      = Ret 1 {| W := W unwrapped; L := l' |}
      ∧ is_task_handle l' h' 3
      ∧ lua_equal (LUserdata h') (LUserdata 1) {| W := W unwrapped; L := l' |}
        = Ret true {| W := W unwrapped; L := l' |}.
Proof.
  assert (3%nat ≠ NULL) as Ht by (unfold NULL; lia).
  split; [exact Ht|].
  assert (task_metatable_ok (L unwrapped)) as Hok.
  { exists 2%nat. eexists. split; [vm_compute; reflexivity|].
    split; vm_compute; reflexivity. }
  assert (cache_ok (L unwrapped)) as Hc.
  { left. intros c. vm_compute. discriminate. }
  assert (is_task_handle (L unwrapped) 1 3) as Hh
    by (exists 2%nat; split; vm_compute; reflexivity).
  destruct (get_round_trip (W unwrapped) (L unwrapped) 1 3 Hok Hc Hh Ht)
    as (_ & _ & l' & h' & H1 & _ & H2 & _ & H3 & _).
  exists l', h'. split; [exact H1|]. split; [exact H2|exact H3].
Defined.

(** ** [new] of a process *)

Lemma get_channelmetatable_new (w : world) (s : list lua_value) (r : gmap lkey lua_value)
    (tb : list ltable) (ud : list ludata) :
  r !! KStr CLP_CHANNEL_METATABLE = None →
  get_channelmetatable
    {| W := w; L := {| stack := s; registry := r; tables := tb; udata := ud |} |}
  = Ret () {| W := w;
              L := {| stack := LTable (length tb) :: s;
                      registry := <[KStr CLP_CHANNEL_METATABLE := LTable (length tb)]> r;
                      tables := tb ++ [ {| tb_fields := channel_metatable_fields (length tb);
                                           tb_meta := None |} ];
                      udata := ud |} |}.
Proof.
  intros Hr. unfold get_channelmetatable, channel_metatable_fields.
  cm_go fail. cm_eval fail. reflexivity.
Qed.

Lemma get_channelmetatable_old (w : world) (s : list lua_value) (r : gmap lkey lua_value)
    (tb : list ltable) (ud : list ludata) (m : nat) :
  r !! KStr CLP_CHANNEL_METATABLE = Some (LTable m) →
  get_channelmetatable
    {| W := w; L := {| stack := s; registry := r; tables := tb; udata := ud |} |}
  = Ret () {| W := w;
              L := {| stack := LTable m :: s; registry := r; tables := tb; udata := ud |} |}.
Proof.
  intros Hr. unfold get_channelmetatable.
  cm_go fail. cm_eval fail. reflexivity.
Qed.

(** [clp_channelnew] allocates a channel and returns a handle of it; the
    metatable of the handle depends on the registry and the tables only. *)
Lemma clp_channelnew_spec (r : gmap lkey lua_value) (tb : list ltable) :
  channel_metatable_ok {| stack := []; registry := r; tables := tb; udata := [] |} →
  ∃ (m : nat) (mt : ltable) (ext : list ltable),
    (∀ (M : list cell) (thr : list ptr) (dp : ptr) (s : list lua_value) (ud : list ludata),
       clp_channelnew
         {| W := {| mem := M; threads := thr; clp_defaultpool := dp |};
            L := {| stack := s; registry := r; tables := tb; udata := ud |} |}
       = Ret 1 {| W := {| mem := M ++ [CChannel {| ch_messages := []; ch_waiters := [] |}];
                          threads := thr; clp_defaultpool := dp |};
                  L := {| stack := LUserdata (length ud) :: s;
                          registry := <[KStr CLP_CHANNEL_METATABLE := LTable m]> r;
                          tables := tb ++ ext;
                          udata := ud ++ [ {| ud_block := S (length M);
                                              ud_meta := Some m |} ] |} |})
    ∧ (tb ++ ext) !! m = Some mt
    ∧ tb_fields mt !! KStr "__index" = Some (LTable m)
    ∧ tb_fields mt !! KStr "__id" = Some (LCFunction F_channel_ptr).
Proof.
  intros [Hr | (m & mt & Hr & Hm & Hi & Hd)]; simpl in *.
  - exists (length tb), {| tb_fields := channel_metatable_fields (length tb); tb_meta := None |},
      [ {| tb_fields := channel_metatable_fields (length tb); tb_meta := None |} ].
    split; [|split; [apply app_lookup_0|done]].
    intros M thr dp s ud.
    unfold clp_channelnew. cm_go fail.
    eapply bind_Ret_eq; [by apply get_channelmetatable_new|]. cbv beta.
    cm_go fail. cm_eval fail. reflexivity.
  - exists m, mt, []. rewrite app_nil_r. split; [|done].
    intros M thr dp s ud.
    rewrite insert_id by done.
    unfold clp_channelnew. cm_go fail.
    eapply bind_Ret_eq; [by eapply get_channelmetatable_old|]. cbv beta.
    cm_go fail. cm_eval fail. reflexivity.
Qed.

Lemma channel_ptr_ok (w : world) (r : gmap lkey lua_value) (tb : list ltable)
    (ud : list ludata) (u m : nat) (c : ptr) :
  r !! KStr CLP_CHANNEL_METATABLE = Some (LTable m) →
  ud !! u = Some {| ud_block := c; ud_meta := Some m |} →
  channel_ptr {| W := w; L := {| stack := [LUserdata u]; registry := r; tables := tb;
                                 udata := ud |} |}
  = Ret 1 {| W := w; L := {| stack := [LLightUserdata c; LUserdata u]; registry := r;
                             tables := tb; udata := ud |} |}.
Proof.
  intros Hr Hu. unfold channel_ptr. cm_go fail. cm_eval fail. reflexivity.
Qed.

Lemma get_taskmetatale_spec (r : gmap lkey lua_value) (tb : list ltable) :
  r !! KStr CLP_TASK_METATABLE = None
  ∨ task_metatable_ok {| stack := []; registry := r; tables := tb; udata := [] |} →
  ∃ (m : nat) (mt : ltable) (ext : list ltable),
    (∀ (w : world) (s : list lua_value) (ud : list ludata),
       get_taskmetatale
         {| W := w; L := {| stack := s; registry := r; tables := tb; udata := ud |} |}
       = Ret () {| W := w;
                   L := {| stack := LTable m :: s;
                           registry := <[KStr CLP_TASK_METATABLE := LTable m]> r;
                           tables := tb ++ ext; udata := ud |} |})
    ∧ (tb ++ ext) !! m = Some mt
    ∧ tb_fields mt !! KStr "__eq" = Some (LCFunction F_task_eq).
Proof.
  intros [Hr | (m & mt & Hr & Hm & He)]; simpl in *.
  - exists (length tb), {| tb_fields := task_metatable_fields (length tb); tb_meta := None |},
      [ {| tb_fields := task_metatable_fields (length tb); tb_meta := None |} ].
    split; [intros; by apply get_taskmetatale_new|]. split; [apply app_lookup_0|].
    vm_compute; reflexivity.
  - exists m, mt, []. rewrite app_nil_r, insert_id by done.
    split; [intros; by apply get_taskmetatale_old|done].
Qed.

Lemma lua_call_eq (callee : lua_value → option lua_CFunction) (f : lua_CFunction)
    (nargs nresults k : Z) (st s' : cstate) (R : outcome unit) :
  stack (L st) !! Z.to_nat nargs ≫= callee = Some f →
  f (enter_frame (Z.to_nat nargs) st) = Ret k s' →
  leave_frame (drop (S (Z.to_nat nargs)) (stack (L st))) (Z.to_nat nresults) (Z.to_nat k) s'
  = R →
  lua_call callee nargs nresults st = R.
Proof.
  intros Hf Hrun <-. unfold lua_call, lua_CFunction, CM in *. cbv zeta.
  by rewrite Hf, Hrun.
Qed.

Lemma clp_newtask_empty (M : list cell) (thr : list ptr) (dp : ptr)
    (s : list lua_value) (r : gmap lkey lua_value) (tb : list ltable) (ud : list ludata) :
  channel_metatable_ok {| stack := []; registry := r; tables := tb; udata := [] |} →
  (r !! KStr CLP_TASK_METATABLE = None
   ∨ task_metatable_ok {| stack := []; registry := r; tables := tb; udata := [] |}) →
  r !! KStr CLP_INSTANCE_KEY = None →
  ∃ l',
    clp_newtask (call_state {| mem := M; threads := thr; clp_defaultpool := dp |}
                            {| stack := s; registry := r; tables := tb; udata := ud |} [])
    = Ret 1 {| W := {| mem := M ++ [ CTask {| t_env := NULL; t_env_len := 0;
                                              t_instances := 0; t_intances_mutex := false;
                                              t_input := S (S (length M)); t_pool := dp;
                                              t_parent := NULL |};
                                     CChannel {| ch_messages := []; ch_waiters := [] |} ];
                       threads := thr; clp_defaultpool := dp |};
               L := l' |}
    ∧ stack l' = frame [LUserdata (length ud)]
    ∧ is_task_handle l' (length ud) (S (length M))
    ∧ task_metatable_ok l'.
Proof.
  intros Hch Htm Hik.
  destruct (clp_channelnew_spec r tb Hch) as (cm & cmt & cext & Hchan & Hcm & Hci & Hcd).
  assert (<[KStr CLP_CHANNEL_METATABLE := LTable cm]> r !! KStr CLP_TASK_METATABLE = None
          ∨ task_metatable_ok
              {| stack := []; registry := <[KStr CLP_CHANNEL_METATABLE := LTable cm]> r;
                 tables := tb ++ cext; udata := [] |})
    as Htm'.
  { destruct Htm as [Hr | (m & mt & Hr & Hm & He)]; simpl in *.
    - left. by rewrite lookup_insert_ne.
    - right. exists m, mt. simpl. split; [by rewrite lookup_insert_ne|].
      split; [by apply lookup_app_l_Some|done]. }
  destruct (get_taskmetatale_spec _ _ Htm') as (tm & tmt & text & Hmeta & Htm2 & Heq).
  eexists. split.
  { unfold clp_newtask, call_state, set_stack. cbn [stack registry tables udata].
    change (frame []) with (@nil lua_value).
    cm_go ltac:(first [ rewrite Hchan | rewrite Hmeta
                      | erewrite channel_ptr_ok
                          by first [ apply lookup_insert_eq | apply app_lookup_1 ] ]).
    reflexivity. }
  split; [done|]. split.
  - exists tm. simpl. split; [apply lookup_insert_eq|apply app_lookup_0].
  - exists tm, tmt. simpl. split; [apply lookup_insert_eq|done].
Qed.

Lemma mar_encode_ok (w : world) (r : gmap lkey lua_value) (tb : list ltable)
    (ud : list ludata) (x : nat) (t : ltable) (f : nat) (e : option nat) :
  tb !! x = Some t →
  tb_fields t !! KStr "f" = Some (LClosure f) →
  tb_fields t !! KStr "e" = LClosure <$> e →
  mar_encode {| W := w; L := {| stack := [LTable x]; registry := r; tables := tb;
                                udata := ud |} |}
  = Ret 1 {| W := w; L := {| stack := [LString (Marshal.encode_env f e); LTable x];
                             registry := r; tables := tb; udata := ud |} |}.
Proof.
  intros Hx Hf He. unfold mar_encode. cm_unfold. simpl. rewrite Hx, Hf, He.
  by destruct e.
Qed.

Lemma channel_metatable_ok_mono (s s' : list lua_value) (r : gmap lkey lua_value)
    (tb ext : list ltable) (ud ud' : list ludata) :
  channel_metatable_ok {| stack := s; registry := r; tables := tb; udata := ud |} →
  channel_metatable_ok {| stack := s'; registry := r; tables := tb ++ ext; udata := ud' |}.
Proof.
  intros [Hr | (m & mt & Hr & Hm & Hi & Hd)]; [by left|right]. simpl in *.
  exists m, mt. simpl. split; [done|]. split; [by apply lookup_app_l_Some|done].
Qed.

Lemma task_metatable_ok_mono (s s' : list lua_value) (r : gmap lkey lua_value)
    (tb ext : list ltable) (ud ud' : list ludata) (k : lkey) (v : lua_value) :
  k ≠ KStr CLP_TASK_METATABLE →
  r !! KStr CLP_TASK_METATABLE = None
  ∨ task_metatable_ok {| stack := s; registry := r; tables := tb; udata := ud |} →
  <[k := v]> r !! KStr CLP_TASK_METATABLE = None
  ∨ task_metatable_ok {| stack := s'; registry := <[k := v]> r; tables := tb ++ ext;
                         udata := ud' |}.
Proof.
  intros Hk [Hr | (m & mt & Hr & Hm & He)]; simpl in *.
  - left. by rewrite lookup_insert_ne.
  - right. exists m, mt. simpl. split; [by rewrite lookup_insert_ne|].
    split; [by apply lookup_app_l_Some|done].
Qed.

Ltac newtask_run Hchan Hmeta :=
  unfold clp_newtask, call_state, set_stack, new_args, frame;
  cbn [stack registry tables udata option_list fmap option_fmap option_map app reverse
       rev_append];
  cm_go ltac:(first [ rewrite Hchan | rewrite Hmeta
                    | erewrite channel_ptr_ok
                        by first [ apply lookup_insert_eq | apply app_lookup_1 ]
                    | erewrite (mar_encode_ok _ _ _ _ _ _ _ (Some _))
                        by first [ apply app_lookup_0 | done ]
                    | erewrite (mar_encode_ok _ _ _ _ _ _ _ None)
                        by first [ apply app_lookup_0 | done ] ]);
  reflexivity.

Ltac newtask_handle tm :=
  exists tm; split; [apply lookup_insert_eq|apply app_lookup_0].

Ltac newtask_meta tm tmt :=
  exists tm, tmt; split; [apply lookup_insert_eq|done].

Lemma clp_newtask_env_idle (M : list cell) (thr : list ptr) (dp : ptr)
    (s : list lua_value) (r : gmap lkey lua_value) (tb : list ltable) (ud : list ludata)
    (f : nat) (e : option nat) (n : Z) :
  channel_metatable_ok {| stack := []; registry := r; tables := tb; udata := [] |} →
  (r !! KStr CLP_TASK_METATABLE = None
   ∨ task_metatable_ok {| stack := []; registry := r; tables := tb; udata := [] |}) →
  r !! KStr CLP_INSTANCE_KEY = None →
  to_int n ≤ 0 →
  ∃ l',
    clp_newtask (call_state {| mem := M; threads := thr; clp_defaultpool := dp |}
                            {| stack := s; registry := r; tables := tb; udata := ud |}
                            (new_args f e (Some n)))
    = Ret 1 {| W := {| mem := M ++ [ CTask {| t_env := S (S (length M));
                                              t_env_len := Z.of_nat (String.length
                                                             (Marshal.encode_env f e));
                                              t_instances := 0; t_intances_mutex := false;
                                              t_input := S (S (S (length M))); t_pool := dp;
                                              t_parent := NULL |};
                                     CBytes (Marshal.encode_env f e);
                                     CChannel {| ch_messages := []; ch_waiters := [] |} ];
                       threads := thr; clp_defaultpool := dp |};
               L := l' |}
    ∧ stack l' = frame (new_args f e (Some n) ++ [LUserdata (length ud)])
    ∧ is_task_handle l' (length ud) (S (length M))
    ∧ task_metatable_ok l'.
Proof.
  intros Hch Htm Hik Hn.
  destruct (clp_channelnew_spec r (tb ++ [env_table f e])
              (channel_metatable_ok_mono _ _ _ _ _ _ _ Hch))
    as (cm & cmt & cext & Hchan & Hcm & Hci & Hcd).
  destruct (get_taskmetatale_spec _ _
              (task_metatable_ok_mono [] [] r tb ([env_table f e] ++ cext) [] []
                 (KStr CLP_CHANNEL_METATABLE) (LTable cm) ltac:(done) Htm))
    as (tm & tmt & text & Hmeta & Htm2 & Heq).
  rewrite app_assoc in Hmeta, Htm2.
  assert ((0 <? to_int n) = false) as Hidle by lia.
  unfold env_table in *.
  destruct e as [e|]; (eexists; split; [|split; [|split]]);
    [ newtask_run Hchan Hmeta | reflexivity | newtask_handle tm | newtask_meta tm tmt
    | newtask_run Hchan Hmeta | reflexivity | newtask_handle tm | newtask_meta tm tmt ].
Qed.

Lemma app_lookup_insert_0 {A} (l r : list A) (i : nat) (v x : A) :
  (<[i := v]> l ++ x :: r) !! length l = Some x.
Proof. rewrite <- (length_insert l i v). apply app_lookup_0. Qed.

Lemma app_insert_insert_0 {A} (l r : list A) (i : nat) (v x y : A) :
  <[length l := y]> (<[i := v]> l ++ x :: r) = <[i := v]> l ++ y :: r.
Proof. rewrite <- (length_insert l i v) at 1. apply app_insert_0. Qed.

Ltac newtask_spawn M p' q' P Q tm Hq Hcap :=
  lazymatch goal with
  | |- (lua_call _ _ _ ≫= _)
         {| W := ?w; L := {| stack := _; registry := ?r; tables := ?tb; udata := ?ud |} |}
       = _ =>
      eapply bind_Ret_eq;
      [ eapply lua_call_eq;
        [ reflexivity
        | eapply (task_instantiate_pos w
                    {| stack := []; registry := r; tables := tb; udata := ud |}
                    _ (length M) p' q' _ P Q);
          [ exists tm; split; [apply lookup_insert_eq | apply app_lookup_0]
          | apply app_lookup_0
          | reflexivity
          | done
          | by apply lookup_app_l_Some
          | exact Hq
          | by apply lookup_app_l_Some
          | exact Hcap
          | unfold INT_MIN, INT_MAX in *; lia
          | simpl; unfold INT_MIN, INT_MAX in *; lia ]
        | simpl; reflexivity ]
      | ]
  end.

Ltac newtask_steps Hchan Hmeta :=
  cm_go ltac:(first [ rewrite Hchan | rewrite Hmeta
                    | erewrite channel_ptr_ok
                        by first [ apply lookup_insert_eq | apply app_lookup_1 ]
                    | erewrite (mar_encode_ok _ _ _ _ _ _ _ (Some _))
                        by first [ apply app_lookup_0 | done ]
                    | erewrite (mar_encode_ok _ _ _ _ _ _ _ None)
                        by first [ apply app_lookup_0 | done ] ]).

Ltac newtask_run_spawn M p' q' P Q tm Hchan Hmeta Hq Hcap :=
  unfold clp_newtask, call_state, set_stack, new_args, frame;
  cbn [stack registry tables udata option_list fmap option_fmap option_map app reverse
       rev_append];
  newtask_steps Hchan Hmeta;
  newtask_spawn M p' q' P Q tm Hq Hcap;
  rewrite app_insert_0, insert_app_l, <- app_assoc, length_app by done;
  cbn [app length];
  cm_go ltac:(first [ rewrite app_lookup_insert_0 | rewrite app_insert_insert_0 ]);
  reflexivity.

Lemma clp_newtask_env_spawn (M : list cell) (thr : list ptr) (p' q' : nat)
    (P : pool_s) (Q : lfqueue)
    (s : list lua_value) (r : gmap lkey lua_value) (tb : list ltable) (ud : list ludata)
    (f : nat) (e : option nat) (n : option Z) :
  channel_metatable_ok {| stack := []; registry := r; tables := tb; udata := [] |} →
  (r !! KStr CLP_TASK_METATABLE = None
   ∨ task_metatable_ok {| stack := []; registry := r; tables := tb; udata := [] |}) →
  r !! KStr CLP_INSTANCE_KEY = None →
  M !! p' = Some (CPool P) →
  p_ready P = S q' →
  M !! q' = Some (CQueue Q) →
  q_capacity Q < 0 →
  0 < from_option to_int 1 n →
  ∃ l',
    clp_newtask (call_state {| mem := M; threads := thr; clp_defaultpool := S p' |}
                            {| stack := s; registry := r; tables := tb; udata := ud |}
                            (new_args f e n))
    = Ret 1 {| W := {| mem := new_mem M p' q' Q (Marshal.encode_env f e)
                                 (from_option to_int 1 n);
                       threads := thr; clp_defaultpool := S p' |};
               L := l' |}
    ∧ stack l' = frame (new_args f e n ++ [LUserdata (length ud)])
    ∧ is_task_handle l' (length ud) (S (length M))
    ∧ task_metatable_ok l'.
Proof.
  intros Hch Htm Hik HP Hq HQ Hcap Hn.
  destruct (clp_channelnew_spec r (tb ++ [env_table f e])
              (channel_metatable_ok_mono _ _ _ _ _ _ _ Hch))
    as (cm & cmt & cext & Hchan & Hcm & Hci & Hcd).
  destruct (get_taskmetatale_spec _ _
              (task_metatable_ok_mono [] [] r tb ([env_table f e] ++ cext) [] []
                 (KStr CLP_CHANNEL_METATABLE) (LTable cm) ltac:(done) Htm))
    as (tm & tmt & text & Hmeta & Htm2 & Heq).
  rewrite app_assoc in Hmeta, Htm2.
  unfold env_table in *.
  pose proof (lookup_lt_Some _ _ _ HQ) as Hlt.
  assert (0 < from_option to_int 1 n ≤ INT_MAX) as Hrange.
  { split; [done|]. destruct n as [n|]; simpl; [apply to_int_range|by unfold INT_MAX]. }
  destruct e as [e|], n as [n|]; simpl in Hn, Hrange;
    (eexists; split; [|split; [|split]]);
    [ newtask_run_spawn M p' q' P Q tm Hchan Hmeta Hq Hcap
    | reflexivity | newtask_handle tm | newtask_meta tm tmt
    | newtask_run_spawn M p' q' P Q tm Hchan Hmeta Hq Hcap
    | reflexivity | newtask_handle tm | newtask_meta tm tmt
    | newtask_run_spawn M p' q' P Q tm Hchan Hmeta Hq Hcap
    | reflexivity | newtask_handle tm | newtask_meta tm tmt
    | newtask_run_spawn M p' q' P Q tm Hchan Hmeta Hq Hcap
    | reflexivity | newtask_handle tm | newtask_meta tm tmt ].
Qed.

(** C3.  [new] allocates the input channel of the task it creates whether
    or not the task gets an environment.  Without arguments it returns a
    handle of a new task with no environment and no instance, whose input
    is a new, empty channel; with a function (and an error function, and a
    count) it returns a handle of a new task with the serialized
    environment, whose input is a new, empty channel as well. *)
Theorem new_allocates_channel (w : world) (l : lua_State) (f : nat) (e : option nat)
    (n : option Z) :
  channel_metatable_ok l →
  registry l !! KStr CLP_TASK_METATABLE = None ∨ task_metatable_ok l →
  registry l !! KStr CLP_INSTANCE_KEY = None →
  (∃ w' l' u t T,
     clp_newtask (call_state w l []) = Ret 1 {| W := w'; L := l' |}
     ∧ stack l' = frame [LUserdata u]
     ∧ is_task_handle l' u t
     ∧ created_with_channel w w' t T
     ∧ t_env T = NULL
     ∧ t_instances T = 0)
  ∧ (pool_ready w (clp_defaultpool w) ∨ idle_of n ≤ 0 →
     ∃ w' l' u t T,
       clp_newtask (call_state w l (new_args f e n)) = Ret 1 {| W := w'; L := l' |}
       ∧ stack l' = frame (new_args f e n ++ [LUserdata u])
       ∧ is_task_handle l' u t
       ∧ created_with_channel w w' t T
       ∧ get_bytes w' (t_env T) = Some (Marshal.encode_env f e)
       ∧ t_instances T = Z.max 0 (idle_of n)).
Proof.
  intros Hch Htm Hik. destruct l as [s r tb ud], w as [M thr dp]. simpl in Hik.
  split.
  - destruct (clp_newtask_empty M thr dp s r tb ud Hch Htm Hik)
      as (l' & Hrun & Hstk & Hh & _).
    eexists _, l', _, _, _. split; [exact Hrun|]. split; [exact Hstk|].
    split; [exact Hh|]. split.
    { unfold created_with_channel, get_task, get_channel, deref. cbn [mem].
      rewrite app_lookup_0.
      split; [by apply lookup_ge_None|]. split; [reflexivity|].
      cbn [t_input]. rewrite app_lookup_1.
      split; [done|]. split; [apply lookup_ge_None; lia|done]. }
    done.
  - intros Hpool.
    destruct (decide (0 < idle_of n)) as [Hpos | Hneg].
    + destruct Hpool as [(p' & q' & P & Q & Hp & HP & Hq & HQ & Hcap) | ?]; [|lia].
      simpl in Hp, HP, HQ. subst dp.
      destruct (clp_newtask_env_spawn M thr p' q' P Q s r tb ud f e n
                  Hch Htm Hik HP Hq HQ Hcap Hpos)
        as (l' & Hrun & Hstk & Hh & _).
      eexists _, l', _, _, _. split; [exact Hrun|]. split; [exact Hstk|].
      split; [exact Hh|].
      pose proof (lookup_lt_Some _ _ _ HQ) as Hlt.
      unfold created_with_channel, get_task, get_channel, get_bytes, deref, new_mem.
      cbn [mem].
      rewrite app_lookup_insert_0.
      split.
      { split; [by apply lookup_ge_None|]. split; [reflexivity|].
        cbn [t_input].
        rewrite (lookup_app_r (<[q' := _]> M)) by (rewrite length_insert; lia).
        rewrite length_insert.
        replace (S (S (length M)) - length M)%nat with 2%nat by lia.
        split; [done|]. split; [apply lookup_ge_None; lia|done]. }
      cbn [t_env t_instances].
      rewrite (lookup_app_r (<[q' := _]> M)) by (rewrite length_insert; lia).
      rewrite length_insert.
      replace (S (length M) - length M)%nat with 1%nat by lia.
      split; [done|]. unfold idle_of in *. lia.
    + destruct n as [n|]; [|by unfold idle_of in Hneg].
      assert (to_int n ≤ 0) as Hn by (unfold idle_of in Hneg; simpl in Hneg; lia).
      destruct (clp_newtask_env_idle M thr dp s r tb ud f e n Hch Htm Hik Hn)
        as (l' & Hrun & Hstk & Hh & _).
      eexists _, l', _, _, _. split; [exact Hrun|]. split; [exact Hstk|].
      split; [exact Hh|].
      unfold created_with_channel, get_task, get_channel, get_bytes, deref.
      cbn [mem].
      rewrite app_lookup_0.
      split.
      { split; [by apply lookup_ge_None|]. split; [reflexivity|].
        cbn [t_input]. rewrite app_lookup_2.
        split; [done|]. split; [apply lookup_ge_None; lia|done]. }
      cbn [t_env t_instances]. rewrite app_lookup_1.
      split; [done|]. unfold idle_of. simpl. lia.
Qed.

Lemma new_allocates_channel_witness :
  (∃ w' l' t T,
     clp_newtask (call_state (W booted) (L booted) []) = Ret 1 {| W := w'; L := l' |}
     ∧ get_task w' t = Some T
     ∧ t_env T = NULL
     ∧ get_channel w' (t_input T) = Some {| ch_messages := []; ch_waiters := [] |})
  ∧ (∃ w' l' t T,
       clp_newtask (call_state (W booted) (L booted) [LClosure 7])
       = Ret 1 {| W := w'; L := l' |}
       ∧ get_task w' t = Some T
       ∧ get_bytes w' (t_env T) = Some "iiiiiii;"
       ∧ get_channel w' (t_input T) = Some {| ch_messages := []; ch_waiters := [] |}).
Proof.
  assert (channel_metatable_ok (L booted)) as Hch by (left; vm_compute; reflexivity).
  assert (registry (L booted) !! KStr CLP_TASK_METATABLE = None
          ∨ task_metatable_ok (L booted)) as Htm by (left; vm_compute; reflexivity).
  assert (registry (L booted) !! KStr CLP_INSTANCE_KEY = None) as Hik
    by (vm_compute; reflexivity).
  assert (pool_ready (W booted) (clp_defaultpool (W booted)) ∨ idle_of None ≤ 0) as Hp.
  { left. exists 0%nat, 1%nat, {| p_size := 2; p_lock := 0; p_ready := 2 |},
      {| q_items := []; q_capacity := -1 |}.
    split; [reflexivity|]. split; [vm_compute; reflexivity|]. split; [reflexivity|].
    split; [vm_compute; reflexivity|]. simpl. lia. }
  destruct (new_allocates_channel (W booted) (L booted) 7 None None Hch Htm Hik)
    as [(w1 & l1 & u1 & t1 & T1 & Hrun1 & _ & _ & (_ & HT1 & _ & _ & Hc1) & He1 & _) H2].
  destruct (H2 Hp)
    as (w2 & l2 & u2 & t2 & T2 & Hrun2 & _ & _ & (_ & HT2 & _ & _ & Hc2) & He2 & _).
  split.
  - exists w1, l1, t1, T1. split; [exact Hrun1|]. split; [exact HT1|].
    split; [exact He1|exact Hc1].
  - exists w2, l2, t2, T2. split; [exact Hrun2|]. split; [exact HT2|].
    split; [exact He2|exact Hc2].
Defined.

(** ** [wrap] *)

Ltac wrap_unfold :=
  unfold task_wrap, call_state, return_state, set_stack, new_args, frame;
  cbn [stack registry tables udata option_list fmap option_fmap option_map app reverse
       rev_append].

Lemma task_wrap_set (M : list cell) (thr : list ptr) (dp : ptr)
    (s : list lua_value) (r : gmap lkey lua_value) (tb : list ltable) (ud : list ludata)
    (u t' : nat) (T : clp_Task) (f : nat) (e : option nat) (n : option Z) :
  is_task_handle {| stack := s; registry := r; tables := tb; udata := ud |} u (S t') →
  M !! t' = Some (CTask T) →
  t_env T ≠ NULL →
  task_wrap (call_state {| mem := M; threads := thr; clp_defaultpool := dp |}
                        {| stack := s; registry := r; tables := tb; udata := ud |}
                        (LUserdata u :: new_args f e n))
  = Raise "Process already have a environment"
          (call_state {| mem := M; threads := thr; clp_defaultpool := dp |}
                      {| stack := s; registry := r; tables := tb; udata := ud |}
                      (LUserdata u :: new_args f e n)).
Proof.
  intros (m & Hm & Hu) HT He. simpl in *.
  destruct e as [e|], n as [n|]; wrap_unfold; cm_go fail; cm_eval fail; reflexivity.
Qed.

Lemma task_wrap_unset (M : list cell) (thr : list ptr) (dp : ptr)
    (s : list lua_value) (r : gmap lkey lua_value) (tb : list ltable) (ud : list ludata)
    (u t' p' q' : nat) (T : clp_Task) (P : pool_s) (Q : lfqueue)
    (f : nat) (e : option nat) (n : option Z) :
  is_task_handle {| stack := s; registry := r; tables := tb; udata := ud |} u (S t') →
  M !! t' = Some (CTask T) →
  t_env T = NULL →
  t_pool T = S p' →
  M !! p' = Some (CPool P) →
  p_ready P = S q' →
  M !! q' = Some (CQueue Q) →
  q_capacity Q < 0 →
  INT_MIN ≤ t_instances T + 1 ≤ INT_MAX →
  task_wrap (call_state {| mem := M; threads := thr; clp_defaultpool := dp |}
                        {| stack := s; registry := r; tables := tb; udata := ud |}
                        (LUserdata u :: new_args f e n))
  = Ret 1 (return_state
             {| mem := <[q' := CQueue {| q_items := q_items Q ++ [S (S (length M))];
                                         q_capacity := q_capacity Q |}]>
                         (<[t' := CTask (spawned 1
                                   (set_t_env_len
                                      (Z.of_nat (String.length (Marshal.encode_env f e)))
                                      (set_t_env (S (length M)) T)))]> M)
                       ++ [ CBytes (Marshal.encode_env f e +:+ String Ascii.zero EmptyString);
                            CInstance (new_instance (S t')) ];
                threads := thr; clp_defaultpool := dp |}
             {| stack := s; registry := r; tables := tb ++ [env_table f e]; udata := ud |}
             (LUserdata u :: new_args f e n) [LUserdata u]).
Proof.
  intros (m & Hm & Hu) HT He Hp HP Hq HQ Hcap Hrange. simpl in *.
  pose proof (lookup_lt_Some _ _ _ HT) as Hlt.
  pose proof (lookup_lt_Some _ _ _ HQ) as Hltq.
  assert (t' ≠ q') as Htq by (intros ->; congruence).
  assert (t' ≠ p') as Htp by (intros ->; congruence).
  destruct e as [e|], n as [n|]; wrap_unfold;
    (cm_go ltac:(first [ erewrite (mar_encode_ok _ _ _ _ _ _ _ (Some _))
                           by first [ apply app_lookup_0 | done ]
                       | erewrite (mar_encode_ok _ _ _ _ _ _ _ None)
                           by first [ apply app_lookup_0 | done ] ]);
     rewrite list_insert_insert_eq;
     lazymatch goal with
     | |- (lua_call _ _ _ ≫= _)
            {| W := ?w; L := {| stack := _; registry := ?r; tables := ?tb; udata := ?ud |} |}
          = _ =>
         eapply bind_Ret_eq;
         [ eapply lua_call_eq;
           [ reflexivity
           | eapply (task_instantiate_pos w
                       {| stack := []; registry := r; tables := tb; udata := ud |}
                       u t' p' q' _ P Q 1);
             [ by exists m
             | cbn [mem]; rewrite lookup_app_l by (by rewrite length_insert);
               by apply list_lookup_insert_eq
             | exact Hp
             | done
             | cbn [mem]; apply lookup_app_l_Some; by rewrite list_lookup_insert_ne
             | exact Hq
             | cbn [mem]; apply lookup_app_l_Some; by rewrite list_lookup_insert_ne
             | exact Hcap
             | by unfold INT_MAX
             | exact Hrange ]
           | simpl; reflexivity ]
         | ]
     end;
     cm_go fail; cm_eval fail;
     rewrite length_insert, list_insert_insert_eq; reflexivity).
Qed.

(** C2.  [wrap] raises when the task has an environment.  On a task without
    one it serializes [f] (and [e]), stores the bytes in the task, and
    creates one instance whatever count [n] it is passed: the count given to
    [task_instantiate] is the literal 1, so the counter grows by 1 and one
    instance is allocated and queued at the pool. *)
Theorem wrap_creates_one_instance (w : world) (l : lua_State) (u : nat) (t : ptr)
    (T : clp_Task) (f : nat) (e : option nat) (n : option Z) :
  is_task_handle l u t →
  get_task w t = Some T →
  (t_env T ≠ NULL →
   task_wrap (call_state w l (LUserdata u :: new_args f e n))
   = Raise "Process already have a environment"
           (call_state w l (LUserdata u :: new_args f e n)))
  ∧ (t_env T = NULL →
     pool_ready w (t_pool T) →
     INT_MIN ≤ t_instances T + 1 ≤ INT_MAX →
     ∃ (w' : world) (l' : lua_State) (T' : clp_Task) (Q Q' : lfqueue) (q : ptr),
       task_wrap (call_state w l (LUserdata u :: new_args f e n))
       = Ret 1 (return_state w' l' (LUserdata u :: new_args f e n) [LUserdata u])
       ∧ get_task w' t = Some T'
       ∧ get_bytes w' (t_env T')
         = Some (Marshal.encode_env f e +:+ String Ascii.zero EmptyString)
       ∧ t_env_len T' = Z.of_nat (String.length (Marshal.encode_env f e))
       ∧ t_instances T' = t_instances T + 1
       ∧ get_queue w q = Some Q
       ∧ get_queue w' q = Some Q'
       ∧ q_items Q' = q_items Q ++ [S (S (length (mem w)))]
       ∧ ∃ (M' : list cell) (b : string),
           length M' = length (mem w)
           ∧ mem w' = M' ++ [CBytes b; CInstance (new_instance t)]).
Proof.
  intros Hh HT. destruct (get_task_ptr _ _ _ HT) as (t' & -> & HT').
  destruct l as [s r tb ud], w as [M thr dp]. simpl in HT'. split.
  - intros He. by eapply task_wrap_set.
  - intros He (p' & q' & P & Q & Hp & HP & Hq & HQ & Hcap) Hrange. simpl in HP, HQ.
    pose proof (lookup_lt_Some _ _ _ HT') as Hlt.
    pose proof (lookup_lt_Some _ _ _ HQ) as Hltq.
    assert (t' ≠ q') as Htq by (intros ->; congruence).
    eexists _, _, _, Q, _, (S q').
    split; [by eapply (task_wrap_unset M thr dp s r tb ud u t' p' q' T P Q)|].
    unfold get_task, get_bytes, get_queue, deref. cbn [mem].
    rewrite (lookup_app_l _ _ t') by (by rewrite !length_insert).
    rewrite list_lookup_insert_ne, list_lookup_insert_eq by done.
    split; [reflexivity|]. cbn [t_env spawned set_t_intances_mutex set_t_instances
                                set_t_env_len set_t_env t_env_len t_instances].
    rewrite (lookup_app_r _ _ (length M)) by (by rewrite !length_insert).
    rewrite !length_insert, Nat.sub_diag.
    split; [done|]. split; [done|]. split; [done|].
    rewrite HQ. split; [done|].
    rewrite (lookup_app_l _ _ q') by (by rewrite !length_insert).
    rewrite list_lookup_insert_eq by (by rewrite length_insert).
    split; [reflexivity|]. split; [done|].
    eexists _, _. split; [|reflexivity]. by rewrite !length_insert.
Qed.

Lemma wrap_creates_one_instance_witness :
  ∃ (w' : world) (l' : lua_State) (T' : clp_Task),
    task_wrap (call_state (W unwrapped) (L unwrapped) [LUserdata 1; LClosure 5; LNumber 3])
    = Ret 1 (return_state w' l' [LUserdata 1; LClosure 5; LNumber 3] [LUserdata 1])
    ∧ get_task w' 3 = Some T'
    ∧ t_instances T' = 1.
Proof.
  assert (is_task_handle (L unwrapped) 1 3) as Hh
    by (exists 2%nat; split; vm_compute; reflexivity).
  assert (get_task (W unwrapped) 3
          = Some {| t_env := NULL; t_env_len := 0; t_instances := 0;
                    t_intances_mutex := false; t_input := 4; t_pool := 1;
                    t_parent := NULL |}) as HT by (vm_compute; reflexivity).
  assert (pool_ready (W unwrapped) 1) as Hp.
  { exists 0%nat, 1%nat, {| p_size := 2; p_lock := 0; p_ready := 2 |},
      {| q_items := []; q_capacity := -1 |}.
    split; [reflexivity|]. split; [vm_compute; reflexivity|]. split; [reflexivity|].
    split; [vm_compute; reflexivity|]. simpl. lia. }
  destruct (proj2 (wrap_creates_one_instance _ _ _ _ _ 5 None (Some 3) Hh HT)
              eq_refl Hp) as (w' & l' & T' & _ & _ & _ & Hrun & HT' & _ & _ & Hi & _).
  { unfold INT_MIN, INT_MAX. simpl. lia. }
  exists w', l', T'. split; [exact Hrun|]. split; [exact HT'|exact Hi].
Defined.

(** ** [clp_initinstance] *)

Lemma clp_buildtask_new (w : world) (s : list lua_value) (r : gmap lkey lua_value)
    (tb : list ltable) (ud : list ludata) (t : ptr) :
  r !! KStr CLP_TASK_METATABLE = None →
  (∀ c, r !! KStr CLP_TASK_CACHE ≠ Some (LTable c)) →
  clp_buildtask t {| W := w; L := {| stack := s; registry := r; tables := tb; udata := ud |} |}
  = Ret () {| W := w;
              L := {| stack := LUserdata (length ud) :: s;
                      registry := <[KStr CLP_TASK_CACHE := LTable (S (S (S (length tb))))]>
                                    (<[KStr CLP_TASK_METATABLE := LTable (S (S (length tb)))]> r);
                      tables := tb ++ [ {| tb_fields := ∅; tb_meta := Some (S (length tb)) |};
                                        weak_values;
                                        {| tb_fields := task_metatable_fields (S (S (length tb)));
                                           tb_meta := None |};
                                        {| tb_fields := <[KPtr t := LUserdata (length ud)]> ∅;
                                           tb_meta := Some (S (S (S (S (length tb))))) |};
                                        weak_values ];
                      udata := ud ++ [ {| ud_block := t;
                                          ud_meta := Some (S (S (length tb))) |} ] |} |}.
Proof.
  intros Hm Hc. unfold clp_buildtask.
  eapply bind_Ret_eq.
  { by apply task_getcached_new. }
  cm_go fail.
  eapply bind_Ret_eq.
  { rewrite get_taskmetatale_new by (by rewrite lookup_insert_ne). reflexivity. }
  cbv beta. rewrite length_app. cbn [length]. rewrite <- app_assoc. cbn [app].
  replace (length tb + 2)%nat with (S (S (length tb))) by lia.
  cm_go fail.
  erewrite task_putcache_ok
    by (rewrite lookup_insert_ne by done; apply lookup_insert_eq).
  rewrite length_app. cbn [length]. rewrite <- app_assoc. cbn [app].
  replace (length tb + 3)%nat with (S (S (S (length tb)))) by lia.
  f_equal. f_equal. f_equal.
  rewrite (insert_insert_ne _ (KStr CLP_TASK_METATABLE)) by done.
  by rewrite insert_insert_eq, insert_insert_ne.
Qed.

Lemma mar_decode_ok (w : world) (r : gmap lkey lua_value) (tb : list ltable)
    (ud : list ludata) (b : string) (f : nat) (e : option nat) :
  Marshal.decode_env b = Some (f, e) →
  mar_decode {| W := w; L := {| stack := [LString b]; registry := r; tables := tb;
                                udata := ud |} |}
  = Ret 1 {| W := w; L := {| stack := [LTable (length tb); LString b]; registry := r;
                             tables := tb ++ [env_table f e]; udata := ud |} |}.
Proof.
  intros Hb. unfold mar_decode, env_table. cm_unfold. simpl. rewrite Hb.
  destruct e as [e|]; cm_go fail; cm_eval fail; reflexivity.
Qed.

Lemma on_instance_Ret {A} (i' : nat) (m : CM A) (w w1 : world) (l l1 : lua_State)
    (x x1 : instance_s) (a : A) :
  mem w !! i' = Some (CInstance x) →
  m {| W := w; L := i_L x |} = Ret a {| W := w1; L := l1 |} →
  mem w1 !! i' = Some (CInstance x1) →
  on_instance (S i') m {| W := w; L := l |}
  = Ret a {| W := store (S i') (CInstance (set_i_L l1 x1)) w1; L := l |}.
Proof.
  intros Hi Hm Hi1. unfold on_instance, get_instance, deref. cbn [W L].
  by rewrite Hi, Hm; cbn [W L]; rewrite Hi1.
Qed.

Lemma clp_initinstance_body (M : list cell) (thr : list ptr) (dp : ptr)
    (i' t' b' : nat) (x : instance_s) (T : clp_Task) (b : string) (f : nat)
    (e : option nat) (l : lua_State) :
  M !! i' = Some (CInstance x) →
  i_L x = luaL_newstate →
  i_task x = S t' →
  M !! t' = Some (CTask T) →
  t_env T = S b' →
  M !! b' = Some (CBytes b) →
  Marshal.decode_env (String.substring 0 (Z.to_nat (t_env_len T)) b) = Some (f, e) →
  clp_initinstance (S i')
    {| W := {| mem := M; threads := thr; clp_defaultpool := dp |}; L := l |}
  = Ret () {| W := {| mem := <[i' := CInstance
                                      (set_i_L (initialised (S i') (S t') f e)
                                         (set_i_state I_READY x))]> M;
                      threads := thr; clp_defaultpool := dp |};
              L := l |}.
Proof.
  intros Hi HL Ht HT He Hb Hdec.
  pose proof (lookup_lt_Some _ _ _ Hi) as Hlt.
  unfold clp_initinstance.
  destruct e as [e|];
    (erewrite on_instance_Ret; [ | exact Hi | | ];
     [ | rewrite HL;
         unfold luaL_newstate, get_instance, get_task, get_bytes, deref;
         unfold InstanceLibs, LUA_VERSION_NUM;
         cbn [Z.ltb Z.compare Pos.compare Pos.compare_cont app];
         cbn [LUA_REGISTER];
         cm_go ltac:(first [ erewrite mar_decode_ok by exact Hdec
                           | rewrite clp_buildtask_new by done
                           | progress unfold Process_chunk, env_table ]);
         cm_eval fail; reflexivity
       | cbn [mem]; by apply list_lookup_insert_eq ];
     unfold store; cbn [mem threads clp_defaultpool];
     rewrite list_insert_insert_eq; reflexivity).
Qed.

(** The loop of the driver has no exit: resuming it never returns. *)
Lemma driver_loop_never_returns (fuel : nat) : ∀ (i : ptr) (l : lua_State)
    (h s : lua_value) (calls calls' : list (lua_value * lua_value)) (w w' : world),
  driver_loop fuel true i l h s calls w ≠ Returned calls' w'.
Proof.
  induction fuel as [|fuel IH]; intros i l h s calls calls' w w'; [done|].
  simpl. destruct s; try done.
  destruct (udata l !! _); [|done].
  destruct (get_task w _); [|done].
  destruct (get_channel w _) as [ch|]; [|done].
  destruct (ch_messages ch); [done|]. apply IH.
Qed.

(** Resumed, the driver hands the queued messages of the task's input
    channel to [h], in order, and suspends on the empty channel as a waiter. *)
Lemma driver_loop_drains (msgs : list lua_value) : ∀ (fuel : nat) (i : ptr)
    (l : lua_State) (h : lua_value) (u : nat) (d : ludata) (T : clp_Task)
    (c : channel_s) (calls : list (lua_value * lua_value)) (w : world),
  udata l !! u = Some d →
  get_task w (ud_block d) = Some T →
  get_channel w (t_input T) = Some c →
  ch_messages c = msgs →
  (length msgs < fuel)%nat →
  driver_loop fuel true i l h (LUserdata u) calls w
  = Yielded (calls ++ map (pair h) msgs)
            (store (t_input T)
               (CChannel {| ch_messages := []; ch_waiters := ch_waiters c ++ [i] |}) w).
Proof.
  induction msgs as [|m ms IH]; intros fuel i l h u d T c calls w Hu HT Hc Hm Hf;
    (destruct fuel as [|fuel]; [simpl in Hf; lia|]); simpl; rewrite Hu, HT, Hc, Hm.
  - rewrite app_nil_r. unfold set_ch_waiters. by rewrite Hm.
  - assert (t_input T ≠ ud_block d) as Hne.
    { intros E. rewrite E in Hc. unfold get_task, get_channel in *.
      destruct (deref w (ud_block d)) as [[]|]; congruence. }
    unfold get_channel, get_task, deref in *.
    destruct (t_input T) as [|c'] eqn:Ec; [done|].
    destruct (ud_block d) as [|t'] eqn:Et; [done|].
    assert (c' ≠ t') by congruence.
    destruct (mem w !! c') as [[]|] eqn:Hcell; try done.
    assert (c' < length (mem w))%nat by (by eapply lookup_lt_Some).
    erewrite (IH fuel i l h u d T (set_ch_messages ms c)); try done.
    + rewrite <- app_assoc. simpl. unfold store. rewrite Ec. simpl.
      by rewrite list_insert_insert_eq.
    + rewrite Et. unfold store. simpl. by rewrite list_lookup_insert_ne.
    + rewrite Ec. unfold store. simpl. by rewrite list_lookup_insert_eq.
    + simpl in Hf. lia.
Qed.

(** C5.  [clp_initinstance] on an instance with a fresh interpreter, whose
    task has the serialized environment [(f, e)], leaves the instance in
    state [I_READY]; the interpreter then holds under [TASK_HANDLER_KEY] the
    driver of [f] on a handle of the task, and under [CLP_ERRORFUNCTION_KEY]
    the function [e], or the identity when no [e] was serialized.  The
    driver is the loop [while true do f(input:get()) end]: resuming it never
    returns; it calls [f] on each queued message of the task's input
    channel, in order, and suspends on the empty channel. *)
Theorem init_installs_driver (w : world) (l : lua_State) (i t : ptr) (x : instance_s)
    (T : clp_Task) (b : string) (f : nat) (e : option nat) :
  get_instance w i = Some x →
  i_L x = luaL_newstate →
  i_task x = t →
  get_task w t = Some T →
  get_bytes w (t_env T) = Some b →
  Marshal.decode_env (String.substring 0 (Z.to_nat (t_env_len T)) b) = Some (f, e) →
  ∃ (w' : world) (x' : instance_s) (u : nat),
    clp_initinstance i {| W := w; L := l |} = Ret () {| W := w'; L := l |}
    ∧ get_instance w' i = Some x'
    ∧ i_state x' = I_READY
    ∧ i_task x' = t
    ∧ get_task w' t = Some T
    ∧ registry (i_L x') !! KStr TASK_HANDLER_KEY
      = Some (LDriver (LClosure f) (LUserdata u))
    ∧ is_task_handle (i_L x') u t
    ∧ registry (i_L x') !! KStr CLP_ERRORFUNCTION_KEY = Some (error_function e)
    ∧ (∀ (w1 : world) (fuel : nat) (calls : list (lua_value * lua_value)) (w2 : world),
         resume_handler fuel i w1 ≠ Returned calls w2)
    ∧ (∀ (w1 : world) (T1 : clp_Task) (c : channel_s),
         get_instance w1 i = Some x' →
         get_task w1 t = Some T1 →
         get_channel w1 (t_input T1) = Some c →
         resume_handler (S (length (ch_messages c))) i w1
         = Yielded (map (pair (LClosure f)) (ch_messages c))
                   (store (t_input T1)
                      (CChannel {| ch_messages := [];
                                   ch_waiters := ch_waiters c ++ [i] |}) w1)).
Proof.
  intros Hi HL Ht HT Hb Hdec.
  unfold get_instance, get_task, get_bytes, deref in Hi, HT, Hb.
  destruct i as [|i']; [done|]. destruct t as [|t']; [done|].
  destruct (t_env T) as [|b'] eqn:He; [done|].
  destruct w as [M thr dp]. cbn [mem] in *.
  destruct (M !! i') as [[]|] eqn:Hi'; try done. injection Hi as ->.
  destruct (M !! t') as [[]|] eqn:Ht'; try done. injection HT as ->.
  destruct (M !! b') as [[]|] eqn:Hb'; try done. injection Hb as ->.
  assert (i' ≠ t') as Hne by (intros ->; congruence).
  pose proof (lookup_lt_Some _ _ _ Hi') as Hlt.
  eexists _, _, 0%nat.
  split; [by eapply (clp_initinstance_body M thr dp i' t' b' x T b f e l)|].
  split.
  { unfold get_instance, deref. cbn [mem]. by rewrite list_lookup_insert_eq. }
  split; [done|]. split; [done|].
  split.
  { unfold get_task, deref. cbn [mem]. by rewrite list_lookup_insert_ne, Ht'. }
  split; [done|].
  split.
  { exists 5%nat. split; [|done]. simpl.
    rewrite !lookup_insert_ne by done. apply lookup_insert_eq. }
  split; [apply lookup_insert_eq|].
  split.
  - intros w1 fuel calls w2. unfold resume_handler.
    destruct (get_instance w1 (S i')) as [x1|]; [|done].
    destruct (registry (i_L x1) !! KStr TASK_HANDLER_KEY) as [[]|]; try done.
    apply driver_loop_never_returns.
  - intros w1 T1 c Hx1 HT1 Hc. unfold resume_handler. rewrite Hx1.
    cbn [i_L set_i_L]. unfold initialised at 1. cbn [registry].
    rewrite lookup_insert_ne, lookup_insert_eq by done.
    rewrite (driver_loop_drains (ch_messages c) _ _ _ _ 0%nat
               {| ud_block := S t'; ud_meta := Some 5%nat |} T1 c [] w1);
      [reflexivity|reflexivity|exact HT1|exact Hc|reflexivity|lia].
Qed.

Lemma init_installs_driver_witness :
  ∃ (w' : world) (x' : instance_s) (u : nat),
    clp_initinstance 6 {| W := W running; L := L running |}
    = Ret () {| W := w'; L := L running |}
    ∧ get_instance w' 6 = Some x'
    ∧ i_state x' = I_READY
    ∧ registry (i_L x') !! KStr TASK_HANDLER_KEY
      = Some (LDriver (LClosure 7) (LUserdata u))
    ∧ registry (i_L x') !! KStr CLP_ERRORFUNCTION_KEY = Some LIdentity.
Proof.
  assert (get_instance (W running) 6 = Some (new_instance 3)) as Hi
    by (vm_compute; reflexivity).
  assert (get_task (W running) 3 = Some running_task) as HT
    by (vm_compute; reflexivity).
  assert (get_bytes (W running) (t_env running_task) = Some "iiiiiii;") as Hb
    by (vm_compute; reflexivity).
  assert (Marshal.decode_env
            (String.substring 0 (Z.to_nat (t_env_len running_task)) "iiiiiii;")
          = Some (7%nat, None)) as Hd by (vm_compute; reflexivity).
  destruct (init_installs_driver (W running) (L running) 6 3 (new_instance 3)
              running_task "iiiiiii;" 7 None Hi eq_refl eq_refl HT Hb Hd)
    as (w' & x' & u & Hrun & Hx & Hs & _ & _ & Hh & _ & He & _).
  exists w', x', u. split; [exact Hrun|]. split; [exact Hx|]. split; [exact Hs|].
  split; [exact Hh|exact He].
Defined.

(** * Further properties *)

(** ** The receiver of a method *)

(** The first argument of a frame, whatever follows it. *)
Lemma index2adr_first (l : lua_State) (v : lua_value) (args : list lua_value) :
  index2adr (set_stack (frame (v :: args)) l) 1 = Some v.
Proof.
  unfold index2adr, abs_index, frame, set_stack. cbn [stack].
  rewrite reverse_cons, length_app. cbn [length].
  assert ((1 <=? Z.of_nat (length (reverse args) + 1)) = true) as ->
    by (apply Z.leb_le; lia).
  simpl. replace (length (reverse args) + 1 - Z.to_nat 1)%nat
    with (length (reverse args)) by lia.
  by apply list_lookup_middle.
Qed.

Lemma luaL_checkudata_reject (w : world) (l : lua_State) (v : lua_value)
    (args : list lua_value) :
  ¬ is_process_value l v →
  luaL_checkudata 1 CLP_TASK_METATABLE (call_state w l (v :: args))
  = Raise ("bad argument (" +:+ CLP_TASK_METATABLE +:+ " expected)")
          (call_state w l (v :: args)).
Proof.
  intros Hv. unfold luaL_checkudata, call_state.
  cbv beta iota delta [mbind CM_bind getL]. cbn [L].
  rewrite index2adr_first.
  destruct v; try reflexivity.
  unfold getmetatable, set_stack. cbn [udata registry].
  destruct (udata l !! u) as [[t [m|]]|] eqn:Hu; try reflexivity. simpl.
  destruct (registry l !! KStr CLP_TASK_METATABLE) as [[]|] eqn:Hr; try reflexivity.
  destruct (decide (m = r)) as [->|]; [|reflexivity].
  destruct Hv. exists u, t. split; [done|]. by exists r.
Qed.

Lemma clp_totask_reject {B} (w : world) (l : lua_State) (v : lua_value)
    (args : list lua_value) (k : ptr → CM B) :
  ¬ is_process_value l v →
  (clp_totask 1 ≫= k) (call_state w l (v :: args))
  = Raise ("bad argument (" +:+ CLP_TASK_METATABLE +:+ " expected)")
          (call_state w l (v :: args)).
Proof.
  intros Hv. unfold clp_totask. rewrite bind_assoc_eq.
  apply bind_Raise_eq. by apply luaL_checkudata_reject.
Qed.

(** X1.  The methods of a process check their receiver: on a first argument
    that is not a Process handle of the interpreter (a number, nil, a table, a
    pool handle, ...) each raises the type error of [luaL_checkudata] and
    changes nothing, whatever the other arguments. *)
Theorem methods_reject_other_values (w : world) (l : lua_State) (v : lua_value)
    (args : list lua_value) :
  ¬ is_process_value l v →
  let entry := call_state w l (v :: args) in
  ∃ msg : string,
    get_max_instances entry = Raise msg entry
    ∧ task_instantiate entry = Raise msg entry
    ∧ task_destroyinstances entry = Raise msg entry
    ∧ task_wrap entry = Raise msg entry
    ∧ task_ptr entry = Raise msg entry
    ∧ task_getparent entry = Raise msg entry
    ∧ task_setpool entry = Raise msg entry
    ∧ task_eq entry = Raise msg entry
    ∧ clp_destroytask entry = Raise msg entry.
Proof.
  intros Hv entry. eexists. repeat split.
  - by apply clp_totask_reject.
  - by apply clp_totask_reject.
  - by apply clp_totask_reject.
  - unfold task_wrap. eapply bind_Ret_eq; [reflexivity|]. by apply clp_totask_reject.
  - apply bind_Raise_eq. by apply luaL_checkudata_reject.
  - by apply clp_totask_reject.
  - by apply clp_totask_reject.
  - by apply clp_totask_reject.
  - apply bind_Raise_eq. by apply luaL_checkudata_reject.
Qed.

Lemma methods_reject_other_values_witness :
  ∃ msg : string,
    task_instantiate (call_state (W running) (L running) [LUserdata 0; LNumber 1])
    = Raise msg (call_state (W running) (L running) [LUserdata 0; LNumber 1]).
Proof.
  assert (¬ is_process_value (L running) (LUserdata 0)) as Hv.
  { intros (u & t & [= <-] & m & Hm & Hu). vm_compute in Hm, Hu. congruence. }
  destruct (methods_reject_other_values (W running) (L running) (LUserdata 0)
              [LNumber 1] Hv) as (msg & _ & H & _).
  exists msg. exact H.
Defined.

(** ** Equality, [spawn] and [remove] *)



(** X3.  [spawn(n)] with a negative count, on a task that has a pool and an
    environment, raises "Argument must be positive" and changes nothing. *)
Theorem spawn_negative_count (w : world) (l : lua_State) (u : nat) (t : ptr)
    (T : clp_Task) (n : Z) :
  is_task_handle l u t →
  get_task w t = Some T →
  t_pool T ≠ NULL →
  t_env T ≠ NULL →
  INT_MIN ≤ n < 0 →
  task_instantiate (call_state w l [LUserdata u; LNumber n])
  = Raise "Argument must be positive" (call_state w l [LUserdata u; LNumber n]).
Proof.
  intros (m & Hr & Hu) HT Hp He Hn. destruct l as [s r tb ud]. simpl in *.
  assert (to_int n = n) as Hn' by (apply to_int_id; unfold INT_MIN, INT_MAX in *; lia).
  assert ((n <? 0) = true) by lia.
  unfold task_instantiate. cm_run. done.
Qed.

Lemma spawn_negative_count_witness :
  task_instantiate (call_state (W running) (L running) [LUserdata 1; LNumber (-1)])
  = Raise "Argument must be positive"
          (call_state (W running) (L running) [LUserdata 1; LNumber (-1)]).
Proof.
  assert (is_task_handle (L running) 1 3) as Hh
    by (exists 3%nat; split; vm_compute; reflexivity).
  assert (get_task (W running) 3 = Some running_task) as HT
    by (vm_compute; reflexivity).
  apply (spawn_negative_count _ _ _ _ _ _ Hh HT); [done|done|].
  unfold INT_MIN. simpl. lia.
Defined.

Lemma get_max_instances_ok (w : world) (l : lua_State) (u : nat) (t : ptr)
    (T : clp_Task) :
  is_task_handle l u t →
  get_task w t = Some T →
  get_max_instances (call_state w l [LUserdata u])
  = Ret 1 (return_state w l [LUserdata u] [LNumber (t_instances T)]).
Proof.
  intros (m & Hr & Hu) HT. destruct l as [s r tb ud]. simpl in *.
  unfold get_max_instances. cm_run. done.
Qed.

(** X4.  [remove(n)] does not undo [spawn(n)]: after [spawn(n)] and then
    [remove(n)], [size()] is back to what it was, but the [n] instances that
    [spawn] created are still allocated and still queued at the pool. *)
Theorem spawn_remove_size (w : world) (l : lua_State) (u : nat) (t : ptr)
    (T : clp_Task) (P : pool_s) (Q : lfqueue) (n : Z) :
  is_task_handle l u t →
  get_task w t = Some T →
  t_env T ≠ NULL →
  get_pool w (t_pool T) = Some P →
  get_queue w (p_ready P) = Some Q →
  q_capacity Q < 0 →
  0 < n ≤ INT_MAX →
  INT_MIN ≤ t_instances T →
  t_instances T + n ≤ INT_MAX →
  ∃ (w1 w2 : world),
    task_instantiate (call_state w l [LUserdata u; LNumber n])
    = Ret 1 (return_state w1 l [LUserdata u; LNumber n] [LUserdata u])
    ∧ get_max_instances (call_state w1 l [LUserdata u])
      = Ret 1 (return_state w1 l [LUserdata u] [LNumber (t_instances T + n)])
    ∧ task_destroyinstances (call_state w1 l [LUserdata u; LNumber n])
      = Ret 1 (return_state w2 l [LUserdata u; LNumber n] [LUserdata u])
    ∧ get_max_instances (call_state w2 l [LUserdata u])
      = Ret 1 (return_state w2 l [LUserdata u] [LNumber (t_instances T)])
    ∧ (∃ M', mem w2 = M' ++ replicate (Z.to_nat n) (CInstance (new_instance t))
             ∧ length M' = length (mem w))
    ∧ get_queue w2 (p_ready P)
      = Some {| q_items := q_items Q ++ seq (S (length (mem w))) (Z.to_nat n);
                q_capacity := q_capacity Q |}.
Proof.
  intros Hh HT He HP HQ Hcap Hn Hlo Hhi.
  destruct (get_task_ptr _ _ _ HT) as (t' & -> & HT').
  destruct (get_pool_ptr _ _ _ HP) as (p' & Hp & HP').
  destruct (get_queue_ptr _ _ _ HQ) as (q' & Hq & HQ').
  pose proof (lookup_lt_Some _ _ _ HT') as Hlt.
  pose proof (lookup_lt_Some _ _ _ HQ') as Hltq.
  assert (t' ≠ q') as Htq by (intros ->; congruence).
  eexists _, _. split.
  { apply (task_instantiate_pos w l u t' p' q' T P Q n); try done; lia. }
  split.
  { apply (get_max_instances_ok _ l u (S t') (spawned n T)); [done|].
    unfold get_task, deref. cbn [mem].
    rewrite lookup_app_l by (by rewrite !length_insert).
    by rewrite list_lookup_insert_ne, list_lookup_insert_eq. }
  split.
  { apply (task_destroyinstances_pos _ l u t' (spawned n T) n); [done| |done].
    cbn [mem]. rewrite lookup_app_l by (by rewrite !length_insert).
    by rewrite list_lookup_insert_ne, list_lookup_insert_eq. }
  cbn [mem threads clp_defaultpool].
  rewrite insert_app_l by (by rewrite !length_insert).
  rewrite list_insert_insert_ne, list_insert_insert_eq by done.
  split.
  { assert (t_instances (removed n (spawned n T)) = t_instances T) as <-.
    { unfold removed, spawned. cbn [t_instances set_t_instances set_t_intances_mutex].
      replace (t_instances T + n - n) with (t_instances T) by lia.
      apply to_int_id. unfold INT_MIN, INT_MAX in *. lia. }
    apply (get_max_instances_ok _ l u (S t')); [done|].
    unfold get_task, deref. cbn [mem].
    rewrite lookup_app_l by (by rewrite !length_insert).
    by rewrite list_lookup_insert_ne, list_lookup_insert_eq. }
  split.
  { eexists. split; [reflexivity|]. by rewrite !length_insert. }
  unfold get_queue, deref. rewrite Hq. cbn [mem].
  rewrite lookup_app_l by (by rewrite !length_insert).
  by rewrite list_lookup_insert_eq by (by rewrite length_insert).
Qed.

Lemma spawn_remove_size_witness :
  ∃ (w1 w2 : world),
    task_instantiate (call_state (W running) (L running) [LUserdata 1; LNumber 2])
    = Ret 1 (return_state w1 (L running) [LUserdata 1; LNumber 2] [LUserdata 1])
    ∧ task_destroyinstances (call_state w1 (L running) [LUserdata 1; LNumber 2])
      = Ret 1 (return_state w2 (L running) [LUserdata 1; LNumber 2] [LUserdata 1])
    ∧ get_max_instances (call_state w2 (L running) [LUserdata 1])
      = Ret 1 (return_state w2 (L running) [LUserdata 1] [LNumber 1]).
Proof.
  assert (is_task_handle (L running) 1 3) as Hh
    by (exists 3%nat; split; vm_compute; reflexivity).
  assert (get_task (W running) 3 = Some running_task) as HT
    by (vm_compute; reflexivity).
  assert (get_pool (W running) (t_pool running_task) = Some running_pool) as HP
    by (vm_compute; reflexivity).
  assert (get_queue (W running) (p_ready running_pool) = Some running_queue) as HQ
    by (vm_compute; reflexivity).
  assert (t_env running_task ≠ NULL) as He by (unfold NULL; simpl; lia).
  assert (q_capacity running_queue < 0) as Hcap by (simpl; lia).
  assert (0 < 2 ≤ INT_MAX) as Hn by (unfold INT_MAX; lia).
  assert (INT_MIN ≤ t_instances running_task) as Hlo by (unfold INT_MIN; simpl; lia).
  assert (t_instances running_task + 2 ≤ INT_MAX) as Hhi by (unfold INT_MAX; simpl; lia).
  destruct (spawn_remove_size (W running) (L running) 1 3 running_task running_pool
              running_queue 2 Hh HT He HP HQ Hcap Hn Hlo Hhi)
    as (w1 & w2 & H1 & _ & H2 & H3 & _).
  exists w1, w2. split; [exact H1|]. split; [exact H2|exact H3].
Defined.

(** ** [wrap] and [new] without a pool *)

Lemma lua_call_raise (callee : lua_value → option lua_CFunction) (f : lua_CFunction)
    (nargs nresults : Z) (st s' : cstate) (e : string) :
  stack (L st) !! Z.to_nat nargs ≫= callee = Some f →
  f (enter_frame (Z.to_nat nargs) st) = Raise e s' →
  lua_call callee nargs nresults st = Raise e s'.
Proof.
  intros Hf Hrun. unfold lua_call, lua_CFunction, CM in *. cbv zeta.
  by rewrite Hf, Hrun.
Qed.

(** X5.  [wrap] is not atomic. On a task that has no environment and no pool
    it stores the serialized environment in the task and only then fails, with
    the error of [spawn]: no instance is created, the task keeps the
    environment, and a second [wrap] is refused. *)
Theorem wrap_without_pool (w : world) (l : lua_State) (u : nat) (t : ptr)
    (T : clp_Task) (f : nat) (e : option nat) (n : option Z) :
  is_task_handle l u t →
  get_task w t = Some T →
  t_env T = NULL →
  t_pool T = NULL →
  let args := LUserdata u :: new_args f e n in
  ∃ (w' : world) (l' : lua_State) (T' : clp_Task),
    task_wrap (call_state w l args)
    = Raise "Process must be associated to a pool" {| W := w'; L := l' |}
    ∧ get_task w' t = Some T'
    ∧ t_env T' ≠ NULL
    ∧ get_bytes w' (t_env T')
      = Some (Marshal.encode_env f e +:+ String Ascii.zero EmptyString)
    ∧ t_instances T' = t_instances T
    ∧ length (mem w') = S (length (mem w))
    ∧ task_wrap (call_state w' l args)
      = Raise "Process already have a environment" (call_state w' l args).
Proof.
  intros Hh HT He Hp args. destruct (get_task_ptr _ _ _ HT) as (t' & -> & HT').
  destruct Hh as (m & Hm & Hu).
  destruct l as [s r tb ud], w as [M thr dp]. simpl in *.
  pose proof (lookup_lt_Some _ _ _ HT') as Hlt.
  assert (∃ w' l',
    task_wrap (call_state {| mem := M; threads := thr; clp_defaultpool := dp |}
                 {| stack := s; registry := r; tables := tb; udata := ud |} args)
    = Raise "Process must be associated to a pool" {| W := w'; L := l' |}
    ∧ w' = {| mem := <[t' := CTask (set_t_env_len
                                      (Z.of_nat (String.length (Marshal.encode_env f e)))
                                      (set_t_env (S (length M)) T))]> M
                     ++ [CBytes (Marshal.encode_env f e +:+ String Ascii.zero EmptyString)];
              threads := thr; clp_defaultpool := dp |}) as (w' & l' & Hrun & ->).
  { subst args.
    destruct e as [e|], n as [n|]; eexists _, _; (split; [|reflexivity]); wrap_unfold;
      (cm_go ltac:(first [ erewrite (mar_encode_ok _ _ _ _ _ _ _ (Some _))
                             by first [ apply app_lookup_0 | done ]
                         | erewrite (mar_encode_ok _ _ _ _ _ _ _ None)
                             by first [ apply app_lookup_0 | done ] ]);
       rewrite list_insert_insert_eq;
       lazymatch goal with
       | |- (lua_call _ _ _ ≫= _)
              {| W := ?w; L := {| stack := _; registry := ?r; tables := ?tb;
                                  udata := ?ud |} |} = _ =>
           eapply bind_Raise_eq; eapply lua_call_raise; [reflexivity|];
           eapply (task_instantiate_no_pool w
                     {| stack := []; registry := r; tables := tb; udata := ud |}
                     u (S t') _ [LNumber 1]);
           [ by exists m
           | unfold get_task, deref; cbn [mem];
             rewrite lookup_app_l by (by rewrite length_insert);
             by rewrite list_lookup_insert_eq
           | exact Hp
           | right; by exists 1 ]
       end). }
  eexists _, _, _. split; [exact Hrun|].
  unfold get_task, get_bytes, deref. cbn [mem].
  rewrite lookup_app_l by (by rewrite length_insert).
  rewrite list_lookup_insert_eq by done.
  split; [reflexivity|]. cbn [t_env set_t_env_len set_t_env t_instances].
  split; [done|].
  rewrite <- (length_insert M t' (CTask (set_t_env_len
                (Z.of_nat (String.length (Marshal.encode_env f e)))
                (set_t_env (S (length M)) T)))) at 1.
  rewrite app_lookup_0.
  split; [done|]. split; [done|].
  split; [by rewrite length_app, length_insert; simpl; lia|].
  apply (task_wrap_set _ thr dp s r tb ud u t'
           (set_t_env_len (Z.of_nat (String.length (Marshal.encode_env f e)))
              (set_t_env (S (length M)) T))).
  - by exists m.
  - rewrite lookup_app_l by (by rewrite length_insert).
    by rewrite list_lookup_insert_eq.
  - done.
Qed.

Lemma wrap_without_pool_witness :
  ∃ (w' : world) (l' : lua_State) (T' : clp_Task),
    task_wrap (call_state (W unpooled) (L unpooled) [LUserdata 1; LClosure 7])
    = Raise "Process must be associated to a pool" {| W := w'; L := l' |}
    ∧ get_task w' 3 = Some T'
    ∧ t_env T' ≠ NULL
    ∧ t_instances T' = 0
    ∧ task_wrap (call_state w' (L unpooled) [LUserdata 1; LClosure 7])
      = Raise "Process already have a environment"
              (call_state w' (L unpooled) [LUserdata 1; LClosure 7]).
Proof.
  assert (is_task_handle (L unpooled) 1 3) as Hh
    by (exists 2%nat; split; vm_compute; reflexivity).
  assert (get_task (W unpooled) 3 = Some unpooled_task) as HT by (vm_compute; reflexivity).
  destruct (wrap_without_pool (W unpooled) (L unpooled) 1 3 unpooled_task 7 None None
              Hh HT eq_refl eq_refl)
    as (w' & l' & T' & Hrun & HT' & He & _ & Hi & _ & Hagain).
  exists w', l', T'. split; [exact Hrun|]. split; [exact HT'|]. split; [exact He|].
  split; [exact Hi|exact Hagain].
Defined.

(** X6.  [wrap] checks its function: without a second argument, or with one
    that is not a function, it raises a type error on a task without an
    environment and changes nothing. *)
Theorem wrap_rejects_non_function (w : world) (l : lua_State) (u : nat) (t : ptr)
    (T : clp_Task) (rest : list lua_value) :
  is_task_handle l u t →
  get_task w t = Some T →
  t_env T = NULL →
  rest = [] ∨ (∃ v, rest = [v] ∧ ttype v ≠ LUA_TFUNCTION) →
  ∃ msg : string,
    task_wrap (call_state w l (LUserdata u :: rest))
    = Raise msg (call_state w l (LUserdata u :: rest)).
Proof.
  intros (m & Hm & Hu) HT He Hrest. destruct l as [s r tb ud]. simpl in *.
  eexists. unfold task_wrap.
  destruct Hrest as [-> | (v & -> & Hv)]; cm_run; done.
Qed.

Lemma wrap_rejects_non_function_witness :
  ∃ msg : string,
    task_wrap (call_state (W unwrapped) (L unwrapped) [LUserdata 1; LNumber 3])
    = Raise msg (call_state (W unwrapped) (L unwrapped) [LUserdata 1; LNumber 3]).
Proof.
  assert (is_task_handle (L unwrapped) 1 3) as Hh
    by (exists 2%nat; split; vm_compute; reflexivity).
  assert (get_task (W unwrapped) 3
          = Some {| t_env := NULL; t_env_len := 0; t_instances := 0;
                    t_intances_mutex := false; t_input := 4; t_pool := 1;
                    t_parent := NULL |}) as HT by (vm_compute; reflexivity).
  apply (wrap_rejects_non_function _ _ _ _ _ [LNumber 3] Hh HT eq_refl).
  right. exists (LNumber 3). split; [reflexivity|]. simpl. discriminate.
Defined.

(** X7.  Without a default pool, [new(f)] fails: with a function and a
    positive count (1 when none is given) it raises the error of [spawn],
    "Process must be associated to a pool". By then the task record, the copy
    of the environment and the input channel have been allocated; they stay
    allocated, and no instance is created. *)
Theorem new_without_default_pool (w : world) (l : lua_State) (f : nat)
    (e : option nat) (n : option Z) :
  channel_metatable_ok l →
  registry l !! KStr CLP_TASK_METATABLE = None ∨ task_metatable_ok l →
  clp_defaultpool w = NULL →
  0 < idle_of n →
  ∃ (w' : world) (l' : lua_State) (T : clp_Task),
    clp_newtask (call_state w l (new_args f e n))
    = Raise "Process must be associated to a pool" {| W := w'; L := l' |}
    ∧ mem w' = mem w ++ [ CTask T; CBytes (Marshal.encode_env f e);
                          CChannel {| ch_messages := []; ch_waiters := [] |} ]
    ∧ t_env T = S (S (length (mem w)))
    ∧ t_input T = S (S (S (length (mem w))))
    ∧ t_pool T = NULL
    ∧ t_instances T = 0.
Proof.
  intros Hch Htm Hdp Hn. destruct l as [s r tb ud], w as [M thr dp].
  simpl in Hdp. subst dp.
  destruct (clp_channelnew_spec r (tb ++ [env_table f e])
              (channel_metatable_ok_mono _ _ _ _ _ _ _ Hch))
    as (cm & cmt & cext & Hchan & Hcm & Hci & Hcd).
  destruct (get_taskmetatale_spec _ _
              (task_metatable_ok_mono [] [] r tb ([env_table f e] ++ cext) [] []
                 (KStr CLP_CHANNEL_METATABLE) (LTable cm) ltac:(done) Htm))
    as (tm & tmt & text & Hmeta & Htm2 & Heq).
  rewrite app_assoc in Hmeta, Htm2.
  unfold env_table in *. unfold idle_of in Hn.
  destruct e as [e|], n as [n|]; simpl in Hn;
    (eexists _, _, _; split;
     [ unfold clp_newtask, call_state, set_stack, new_args, frame;
       cbn [stack registry tables udata option_list fmap option_fmap option_map app
            reverse rev_append];
       newtask_steps Hchan Hmeta;
       lazymatch goal with
       | |- (lua_call _ _ _ ≫= _)
              {| W := ?w0; L := {| stack := _; registry := ?r0; tables := ?tb0;
                                   udata := ?ud0 |} |} = _ =>
           eapply bind_Raise_eq; eapply lua_call_raise; [reflexivity|];
           eapply (task_instantiate_no_pool w0
                     {| stack := []; registry := r0; tables := tb0; udata := ud0 |}
                     (length ud) (S (length M)) _ [LNumber _]);
           [ exists tm; split; [apply lookup_insert_eq | apply app_lookup_0]
           | unfold get_task, deref; cbn [mem]; by rewrite app_lookup_0
           | reflexivity
           | right; by eexists ]
       end
     | cbn [mem]; done ]).
Qed.

Lemma new_without_default_pool_witness :
  ∃ (w' : world) (l' : lua_State) (T : clp_Task),
    clp_newtask (call_state {| mem := []; threads := []; clp_defaultpool := NULL |}
                            luaL_newstate [LClosure 7])
    = Raise "Process must be associated to a pool" {| W := w'; L := l' |}
    ∧ mem w' = [ CTask T; CBytes "iiiiiii;";
                 CChannel {| ch_messages := []; ch_waiters := [] |} ]
    ∧ t_pool T = NULL
    ∧ t_instances T = 0.
Proof.
  assert (channel_metatable_ok luaL_newstate) as Hch by (left; vm_compute; reflexivity).
  assert (registry luaL_newstate !! KStr CLP_TASK_METATABLE = None
          ∨ task_metatable_ok luaL_newstate) as Htm by (left; vm_compute; reflexivity).
  assert (0 < idle_of None) as Hn by (vm_compute; reflexivity).
  destruct (new_without_default_pool {| mem := []; threads := []; clp_defaultpool := NULL |}
              luaL_newstate 7 None None Hch Htm eq_refl Hn)
    as (w' & l' & T & Hrun & Hm & _ & _ & Hp & Hi).
  exists w', l', T. split; [exact Hrun|]. split; [exact Hm|]. split; [exact Hp|exact Hi].
Defined.

(** ** The parent of a task *)

Lemma clp_newtask_child (M : list cell) (thr : list ptr) (dp : ptr)
    (s : list lua_value) (r : gmap lkey lua_value) (tb : list ltable) (ud : list ludata)
    (i' : nat) (x : instance_s) :
  channel_metatable_ok {| stack := []; registry := r; tables := tb; udata := [] |} →
  (r !! KStr CLP_TASK_METATABLE = None
   ∨ task_metatable_ok {| stack := []; registry := r; tables := tb; udata := [] |}) →
  r !! KStr CLP_INSTANCE_KEY = Some (LLightUserdata (S i')) →
  M !! i' = Some (CInstance x) →
  ∃ l',
    clp_newtask (call_state {| mem := M; threads := thr; clp_defaultpool := dp |}
                            {| stack := s; registry := r; tables := tb; udata := ud |} [])
    = Ret 1 {| W := {| mem := M ++ [ CTask {| t_env := NULL; t_env_len := 0;
                                              t_instances := 0; t_intances_mutex := false;
                                              t_input := S (S (length M)); t_pool := dp;
                                              t_parent := i_task x |};
                                     CChannel {| ch_messages := []; ch_waiters := [] |} ];
                       threads := thr; clp_defaultpool := dp |};
               L := l' |}
    ∧ stack l' = frame [LUserdata (length ud)]
    ∧ is_task_handle l' (length ud) (S (length M)).
Proof.
  intros Hch Htm Hik Hi.
  pose proof (lookup_lt_Some _ _ _ Hi) as Hlt.
  destruct (clp_channelnew_spec r tb Hch) as (cm & cmt & cext & Hchan & Hcm & Hci & Hcd).
  destruct (get_taskmetatale_spec _ _
              (task_metatable_ok_mono [] [] r tb cext [] []
                 (KStr CLP_CHANNEL_METATABLE) (LTable cm) ltac:(done) Htm))
    as (tm & tmt & text & Hmeta & Htm2 & Heq).
  eexists. split.
  { unfold clp_newtask, call_state, set_stack. cbn [stack registry tables udata].
    change (frame []) with (@nil lua_value).
    unfold get_instance, deref.
    cm_go ltac:(first [ rewrite Hchan | rewrite Hmeta
                      | erewrite channel_ptr_ok
                          by first [ apply lookup_insert_eq | apply app_lookup_1 ] ]).
    reflexivity. }
  split; [done|].
  exists tm. simpl. split; [apply lookup_insert_eq|apply app_lookup_0].
Qed.

(** X8.  [new] records where it is called from. In the interpreter of an
    instance (the registry holds the instance under [CLP_INSTANCE_KEY], as
    [clp_initinstance] leaves it) the new task's parent is the task of that
    instance; in an interpreter that is no instance's, the parent is null. *)
Theorem new_sets_parent (w : world) (l : lua_State) :
  channel_metatable_ok l →
  registry l !! KStr CLP_TASK_METATABLE = None ∨ task_metatable_ok l →
  (registry l !! KStr CLP_INSTANCE_KEY = None →
   ∃ w' l' u t T,
     clp_newtask (call_state w l []) = Ret 1 {| W := w'; L := l' |}
     ∧ is_task_handle l' u t
     ∧ deref w t = None
     ∧ get_task w' t = Some T
     ∧ t_parent T = NULL)
  ∧ (∀ (i : ptr) (x : instance_s),
       registry l !! KStr CLP_INSTANCE_KEY = Some (LLightUserdata i) →
       get_instance w i = Some x →
       ∃ w' l' u t T,
         clp_newtask (call_state w l []) = Ret 1 {| W := w'; L := l' |}
         ∧ is_task_handle l' u t
         ∧ deref w t = None
         ∧ get_task w' t = Some T
         ∧ t_parent T = i_task x).
Proof.
  intros Hch Htm. destruct l as [s r tb ud], w as [M thr dp]. split.
  - intros Hik. simpl in Hik.
    destruct (clp_newtask_empty M thr dp s r tb ud Hch Htm Hik)
      as (l' & Hrun & _ & Hh & _).
    eexists _, l', _, _, _. split; [exact Hrun|]. split; [exact Hh|].
    unfold get_task, deref. cbn [mem]. rewrite app_lookup_0.
    split; [by apply lookup_ge_None|]. split; reflexivity.
  - intros i x Hik Hi. simpl in Hik.
    unfold get_instance, deref in Hi. destruct i as [|i']; [done|]. cbn [mem] in Hi.
    destruct (M !! i') as [[]|] eqn:Hi'; try done. injection Hi as ->.
    destruct (clp_newtask_child M thr dp s r tb ud i' x Hch Htm Hik Hi')
      as (l' & Hrun & _ & Hh).
    eexists _, l', _, _, _. split; [exact Hrun|]. split; [exact Hh|].
    unfold get_task, deref. cbn [mem]. rewrite app_lookup_0.
    split; [by apply lookup_ge_None|]. split; reflexivity.
Qed.

Lemma new_sets_parent_witness :
  (∃ w' l' u t T,
     clp_newtask (call_state (W booted) (L booted) []) = Ret 1 {| W := w'; L := l' |}
     ∧ is_task_handle l' u t
     ∧ get_task w' t = Some T
     ∧ t_parent T = NULL)
  ∧ (∃ w' l' u t T,
       clp_newtask (call_state (W running) (initialised 6 3 7 None) [])
       = Ret 1 {| W := w'; L := l' |}
       ∧ is_task_handle l' u t
       ∧ get_task w' t = Some T
       ∧ t_parent T = 3%nat).
Proof.
  assert (channel_metatable_ok (L booted)) as Hch by (left; vm_compute; reflexivity).
  assert (registry (L booted) !! KStr CLP_TASK_METATABLE = None
          ∨ task_metatable_ok (L booted)) as Htm by (left; vm_compute; reflexivity).
  assert (registry (L booted) !! KStr CLP_INSTANCE_KEY = None) as Hik
    by (vm_compute; reflexivity).
  assert (channel_metatable_ok (initialised 6 3 7 None)) as Hch'
    by (left; vm_compute; reflexivity).
  assert (registry (initialised 6 3 7 None) !! KStr CLP_TASK_METATABLE = None
          ∨ task_metatable_ok (initialised 6 3 7 None)) as Htm'.
  { right. exists 5%nat. eexists. split; [vm_compute; reflexivity|].
    split; vm_compute; reflexivity. }
  assert (registry (initialised 6 3 7 None) !! KStr CLP_INSTANCE_KEY
          = Some (LLightUserdata 6%nat)) as Hik' by (vm_compute; reflexivity).
  assert (get_instance (W running) 6 = Some (new_instance 3)) as Hi
    by (vm_compute; reflexivity).
  destruct (new_sets_parent (W booted) (L booted) Hch Htm) as [H1 _].
  destruct (H1 Hik) as (w1 & l1 & u1 & t1 & T1 & Hrun1 & Hh1 & _ & HT1 & Hp1).
  destruct (new_sets_parent (W running) (initialised 6 3 7 None) Hch' Htm') as [_ H2].
  destruct (H2 6%nat (new_instance 3) Hik' Hi)
    as (w2 & l2 & u2 & t2 & T2 & Hrun2 & Hh2 & _ & HT2 & Hp2).
  split.
  - exists w1, l1, u1, t1, T1. split; [exact Hrun1|]. split; [exact Hh1|].
    split; [exact HT1|exact Hp1].
  - exists w2, l2, u2, t2, T2. split; [exact Hrun2|]. split; [exact Hh2|].
    split; [exact HT2|exact Hp2].
Defined.

Lemma task_getparent_none (w : world) (l : lua_State) (u : nat) (t : ptr) (T : clp_Task) :
  is_task_handle l u t →
  get_task w t = Some T →
  t_parent T = NULL →
  task_getparent (call_state w l [LUserdata u])
  = Ret 1 (return_state w l [LUserdata u] [LNil]).
Proof.
  intros (m & Hr & Hu) HT Hp. destruct l as [s r tb ud]. simpl in *.
  unfold task_getparent. cm_go fail. cm_eval fail. reflexivity.
Qed.

(** X9.  [parent()] returns nil for a task without a parent, and otherwise a
    Process handle of the parent task, taken from the cache of handles or made
    anew; the process itself is not changed. *)
Theorem parent_returns_handle (w : world) (l : lua_State) (u : nat) (t : ptr)
    (T : clp_Task) :
  is_task_handle l u t →
  get_task w t = Some T →
  (t_parent T = NULL →
   task_getparent (call_state w l [LUserdata u])
   = Ret 1 (return_state w l [LUserdata u] [LNil]))
  ∧ (t_parent T ≠ NULL →
     task_metatable_ok l →
     cache_ok l →
     ∃ (l' : lua_State) (h : nat),
       task_getparent (call_state w l [LUserdata u]) = Ret 1 {| W := w; L := l' |}
       ∧ stack l' = frame [LUserdata u; LUserdata h]
       ∧ is_task_handle l' h (t_parent T)
       ∧ is_task_handle l' u t).
Proof.
  intros Hh HT. split; [intros Hp; exact (task_getparent_none w l u t T Hh HT Hp)|].
  intros Hp Hok Hc. destruct l as [s r tb ud].
  destruct (clp_buildtask_spec w
              {| stack := [LUserdata u]; registry := r; tables := tb; udata := ud |}
              (t_parent T) Hok Hc)
    as (l' & h & Hrun & Hstk & Hh' & _ & _ & _ & Hext & _).
  exists l', h. split.
  - destruct Hh as (m & Hr & Hu). simpl in *.
    unfold task_getparent, call_state, set_stack. cbn [stack registry tables udata].
    change (frame [LUserdata u]) with [LUserdata u].
    cm_go fail. cm_eval fail. reflexivity.
  - split; [done|]. split; [done|]. by eapply extends_handle.
Qed.

Lemma parent_returns_handle_witness :
  task_getparent (call_state (W running) (L running) [LUserdata 1])
  = Ret 1 (return_state (W running) (L running) [LUserdata 1] [LNil])
  ∧ ∃ (l' : lua_State) (h : nat),
      task_getparent (call_state (W child) (L child) [LUserdata 1])
      = Ret 1 {| W := W child; L := l' |}
      ∧ stack l' = frame [LUserdata 1; LUserdata h]
      ∧ is_task_handle l' h 3.
Proof.
  assert (is_task_handle (L running) 1 3) as Hh
    by (exists 3%nat; split; vm_compute; reflexivity).
  assert (get_task (W running) 3 = Some running_task) as HT by (vm_compute; reflexivity).
  assert (is_task_handle (L child) 1 7) as Hh'
    by (exists 5%nat; split; vm_compute; reflexivity).
  assert (get_task (W child) 7
          = Some {| t_env := NULL; t_env_len := 0; t_instances := 0;
                    t_intances_mutex := false; t_input := 8; t_pool := 1;
                    t_parent := 3 |}) as HT' by (vm_compute; reflexivity).
  assert (task_metatable_ok (L child)) as Hok.
  { exists 5%nat. eexists. split; [vm_compute; reflexivity|].
    split; vm_compute; reflexivity. }
  assert (cache_ok (L child)) as Hc.
  { right. exists 6%nat,
      {| tb_fields := <[KPtr 3%nat := LUserdata 0]> ∅; tb_meta := Some 7%nat |}.
    split.
    - split; [vm_compute; reflexivity|]. split; [vm_compute; reflexivity|].
      exists 7%nat, weak_values. split; [reflexivity|].
      split; [vm_compute; reflexivity|]. split; vm_compute; reflexivity.
    - intros t v Hv. cbn [tb_fields] in Hv.
      destruct (decide (t = 3%nat)) as [->|Hne].
      + rewrite lookup_insert_eq in Hv. injection Hv as <-.
        exists 0%nat. split; [reflexivity|].
        exists 5%nat; split; vm_compute; reflexivity.
      + rewrite lookup_insert_ne in Hv by congruence. by rewrite lookup_empty in Hv. }
  assert (3%nat ≠ NULL) as Hp by (unfold NULL; lia).
  destruct (parent_returns_handle (W running) (L running) 1 3 running_task Hh HT)
    as [H1 _].
  destruct (parent_returns_handle (W child) (L child) 1 7 _ Hh' HT') as [_ H2].
  destruct (H2 Hp Hok Hc) as (l' & h & Hrun & Hs & Hh2 & _).
  split; [exact (H1 eq_refl)|].
  exists l', h. split; [exact Hrun|]. split; [exact Hs|exact Hh2].
Defined.

(** ** Handles of pools, and [add] *)

Lemma clp_buildpool_spec (w : world) (l : lua_State) (p : ptr) :
  pool_metatable_ok l →
  ∃ l' m,
    clp_buildpool p {| W := w; L := l |} = Ret () {| W := w; L := l' |}
    ∧ stack l' = LUserdata (length (udata l)) :: stack l
    ∧ registry l' !! KStr CLP_POOL_METATABLE = Some (LTable m)
    ∧ udata l' = udata l ++ [ {| ud_block := p; ud_meta := Some m |} ]
    ∧ (∀ k, k ≠ KStr CLP_POOL_METATABLE → registry l' !! k = registry l !! k)
    ∧ (∀ m0, registry l !! KStr CLP_POOL_METATABLE = Some (LTable m0) → m = m0)
    ∧ (∃ ext, tables l' = tables l ++ ext).
Proof.
  intros Hmt. destruct l as [s r tb ud].
  destruct Hmt as [Hmt | [m Hmt]]; simpl in Hmt.
  - eexists _, (length tb). split.
    + unfold clp_buildpool, get_metatable. cm_go fail. cm_eval fail. reflexivity.
    + simpl. split; [done|]. split; [by rewrite lookup_insert_eq|]. split; [done|].
      split; [by intros k Hk; rewrite lookup_insert_ne|].
      split; [by intros m0 Hm0; rewrite Hmt in Hm0|]. by eexists.
  - eexists _, m. split.
    + unfold clp_buildpool, get_metatable. cm_go fail. cm_eval fail. reflexivity.
    + simpl. split; [done|]. split; [done|]. split; [done|]. split; [done|].
      split; [intros m0 Hm0; congruence|]. exists []. by rewrite app_nil_r.
Qed.

Lemma is_pool_handle_buildpool (l l' : lua_State) (m : nat) (x : ludata) (u : nat) (q : ptr) :
  registry l' !! KStr CLP_POOL_METATABLE = Some (LTable m) →
  udata l' = udata l ++ [x] →
  (∀ m0, registry l !! KStr CLP_POOL_METATABLE = Some (LTable m0) → m = m0) →
  is_pool_handle l u q → is_pool_handle l' u q.
Proof.
  intros Hr Hu Hm (m0 & Hr0 & Hu0). rewrite <- (Hm _ Hr0) in Hu0.
  exists m. split; [done|]. rewrite Hu. by apply lookup_app_l_Some.
Qed.

Lemma pool_ptr_ok (w : world) (l : lua_State) (u : nat) (p : ptr) :
  is_pool_handle l u p →
  pool_ptr (call_state w l [LUserdata u])
  = Ret 1 (return_state w l [LUserdata u] [LLightUserdata p]).
Proof.
  intros (m & Hr & Hu). destruct l as [s r tb ud]. simpl in *.
  unfold pool_ptr. cm_go fail. cm_eval fail. reflexivity.
Qed.

Lemma pool_eq_ok (w : world) (l : lua_State) (h1 h2 : nat) (p1 p2 : ptr) :
  is_pool_handle l h1 p1 →
  is_pool_handle l h2 p2 →
  pool_eq (call_state w l [LUserdata h1; LUserdata h2])
  = Ret 1 (return_state w l [LUserdata h1; LUserdata h2]
             [LBoolean (bool_decide (p1 = p2))]).
Proof.
  intros (m & Hr & Hu1) (m' & Hr' & Hu2). destruct l as [s r tb ud]. simpl in *.
  assert (m' = m) as -> by congruence.
  unfold pool_eq. cm_go fail. cm_eval fail. reflexivity.
Qed.

(** X10.  [Pool.get] of a non-null address makes a new handle on every call
    (pool handles are not cached) that holds the address; the address is not
    checked to be that of a pool. [ptr] of the handle gives the address back,
    the handles that existed stay valid, and [__eq] of an earlier handle and
    the new one is true exactly when both hold the same address. *)
Theorem pool_get_round_trip (w : world) (l : lua_State) (p : ptr) :
  p ≠ NULL →
  pool_metatable_ok l →
  ∃ (l' : lua_State) (h : nat),
    pool_get (call_state w l [LLightUserdata p]) = Ret 1 {| W := w; L := l' |}
    ∧ stack l' = frame [LLightUserdata p; LUserdata h]
    ∧ h = length (udata l)
    ∧ is_pool_handle l' h p
    ∧ pool_ptr (call_state w l' [LUserdata h])
      = Ret 1 (return_state w l' [LUserdata h] [LLightUserdata p])
    ∧ ∀ (h0 : nat) (p0 : ptr),
        is_pool_handle l h0 p0 →
        is_pool_handle l' h0 p0
        ∧ h0 ≠ h
        ∧ pool_eq (call_state w l' [LUserdata h0; LUserdata h])
          = Ret 1 (return_state w l' [LUserdata h0; LUserdata h]
                     [LBoolean (bool_decide (p0 = p))]).
Proof.
  intros Hp Hmt. destruct l as [s r tb ud].
  destruct (clp_buildpool_spec w
              {| stack := [LLightUserdata p]; registry := r; tables := tb; udata := ud |}
              p Hmt)
    as (l' & m & Hrun & Hstk & Hr & Hu & _ & Hm & _).
  simpl in *.
  assert (is_pool_handle l' (length ud) p) as Hh.
  { exists m. split; [done|]. rewrite Hu. by rewrite app_lookup_0. }
  exists l', (length ud). split.
  { unfold pool_get, call_state, set_stack. cbn [stack registry tables udata].
    change (frame [LLightUserdata p]) with [LLightUserdata p].
    cm_go fail. cm_eval fail. reflexivity. }
  split; [done|]. split; [done|]. split; [done|].
  split; [by apply pool_ptr_ok|].
  intros h0 p0 Hh0.
  assert (is_pool_handle l' h0 p0) as Hh0'.
  { eapply (is_pool_handle_buildpool
              {| stack := s; registry := r; tables := tb; udata := ud |}); eauto. }
  split; [done|]. split.
  - destruct Hh0 as (m0 & _ & Hu0). simpl in Hu0.
    apply lookup_lt_Some in Hu0. lia.
  - by apply pool_eq_ok.
Qed.

Lemma pool_get_round_trip_witness :
  ∃ (l' : lua_State) (h : nat),
    pool_get (call_state (W booted) (L booted) [LLightUserdata 1%nat])
    = Ret 1 {| W := W booted; L := l' |}
    ∧ h = 1%nat
    ∧ is_pool_handle l' h 1
    ∧ pool_ptr (call_state (W booted) l' [LUserdata h])
      = Ret 1 (return_state (W booted) l' [LUserdata h] [LLightUserdata 1%nat])
    ∧ pool_eq (call_state (W booted) l' [LUserdata 0; LUserdata h])
      = Ret 1 (return_state (W booted) l' [LUserdata 0; LUserdata h] [LBoolean true]).
Proof.
  assert (1%nat ≠ NULL) as Hp by (unfold NULL; lia).
  assert (pool_metatable_ok (L booted)) as Hmt
    by (right; exists 0%nat; vm_compute; reflexivity).
  assert (is_pool_handle (L booted) 0 1) as Hh
    by (exists 0%nat; split; vm_compute; reflexivity).
  destruct (pool_get_round_trip (W booted) (L booted) 1 Hp Hmt)
    as (l' & h & Hrun & _ & Hnew & Hh' & Hptr & Heq).
  destruct (Heq 0%nat 1%nat Hh) as (_ & _ & Heq').
  exists l', h. split; [exact Hrun|]. split; [exact Hnew|]. split; [exact Hh'|].
  split; [exact Hptr|exact Heq'].
Defined.

(** X11.  [Pool.get] and [process.get] of nil, of a null address or of any
    value that is no userdata return two values: nil and a message. *)
Theorem get_of_null (w : world) (l : lua_State) (v : lua_value) :
  (∀ u, v ≠ LUserdata u) →
  (∀ p, v = LLightUserdata p → p = NULL) →
  pool_get (call_state w l [v])
  = Ret 2 (return_state w l [v] [LNil; LString "Pool is null"])
  ∧ clp_gettask (call_state w l [v])
    = Ret 2 (return_state w l [v] [LNil; LString "Process not found"]).
Proof.
  intros Hu Hp. destruct l as [s r tb ud].
  destruct v as [| | | |p| | | | | | |]; try (by destruct (Hu _ eq_refl));
    try (rewrite (Hp _ eq_refl)); split;
    unfold pool_get, clp_gettask; cm_go fail; cm_eval fail; reflexivity.
Qed.

Lemma get_of_null_witness :
  pool_get (call_state (W booted) (L booted) [LNil])
  = Ret 2 (return_state (W booted) (L booted) [LNil] [LNil; LString "Pool is null"])
  ∧ clp_gettask (call_state (W booted) (L booted) [LNil])
    = Ret 2 (return_state (W booted) (L booted) [LNil]
               [LNil; LString "Process not found"]).
Proof.
  assert (∀ u, LNil ≠ LUserdata u) as Hu by (intros u; discriminate).
  assert (∀ p, LNil = LLightUserdata p → p = NULL) as Hp by (intros p; discriminate).
  exact (get_of_null (W booted) (L booted) LNil Hu Hp).
Defined.

(** X12.  [add(n)] with [n >= 0] ([n] is 1 when absent) starts [n] threads for
    the pool, raises its size by [n] and releases the lock; no other cell
    changes. It pushes nothing, and what it returns to Lua as its number of
    results is [n] itself: the frame still holds just the arguments. [size]
    then returns the raised size. *)
Theorem add_starts_threads (w : world) (l : lua_State) (u : nat) (p : ptr)
    (P : pool_s) (n : option Z) :
  is_pool_handle l u p →
  get_pool w p = Some P →
  0 ≤ add_count n ≤ INT_MAX →
  INT_MIN ≤ p_size P + add_count n ≤ INT_MAX →
  let args := LUserdata u :: option_list (LNumber <$> n) in
  ∃ w' : world,
    pool_addthread (call_state w l args)
    = Ret (add_count n) {| W := w'; L := set_stack (frame args) l |}
    ∧ get_pool w' p = Some {| p_size := p_size P + add_count n; p_lock := 0;
                              p_ready := p_ready P |}
    ∧ threads w' = threads w ++ replicate (Z.to_nat (add_count n)) p
    ∧ (∀ q, q ≠ p → deref w' q = deref w q)
    ∧ pool_size (call_state w' l [LUserdata u])
      = Ret 1 (return_state w' l [LUserdata u] [LNumber (p_size P + add_count n)]).
Proof.
  intros Hh HP Hn Hsum' args. destruct (get_pool_ptr _ _ _ HP) as (p' & -> & HP').
  pose proof Hh as (m & Hr & Hu).
  destruct l as [s r tb ud], w as [M thr dp]. simpl in *.
  pose proof (lookup_lt_Some _ _ _ HP') as Hlt.
  exists {| mem := <[p' := CPool (set_p_lock 0 (set_p_size (p_size P + add_count n) P))]> M;
            threads := thr ++ replicate (Z.to_nat (add_count n)) (S p');
            clp_defaultpool := dp |}.
  split; [|split; [|split; [|split]]].
  - destruct n as [n|]; simpl in *.
    + apply (pool_addthread_ok M thr dp r tb ud u m p' P n); done.
    + assert (to_int 1 = 1) as H1 by reflexivity.
      unfold pool_addthread. cm_unfold. unfold get_pool, deref, store.
      repeat first [ cm_step | cm_heap | rewrite list_insert_insert_eq ].
      rewrite (to_int_id _ Hsum'). reflexivity.
  - unfold get_pool, deref. simpl. rewrite list_lookup_insert_eq by done.
    by destruct P.
  - reflexivity.
  - intros q Hq. unfold deref. destruct q as [|q']; [done|]. simpl.
    rewrite list_lookup_insert_ne by congruence. done.
  - apply (pool_size_ok _ _ u p'
             (set_p_lock 0 (set_p_size (p_size P + add_count n) P))).
    + done.
    + simpl. by rewrite list_lookup_insert_eq.
    + reflexivity.
Qed.

Lemma add_starts_threads_witness :
  ∃ w' : world,
    pool_addthread (call_state (W booted) (L booted) [LUserdata 0; LNumber 3])
    = Ret 3 {| W := w'; L := set_stack (frame [LUserdata 0; LNumber 3]) (L booted) |}
    ∧ get_pool w' 1 = Some {| p_size := 5; p_lock := 0; p_ready := 2 |}
    ∧ threads w' = [1; 1; 1; 1; 1]%nat.
Proof.
  assert (is_pool_handle (L booted) 0 1) as Hh
    by (exists 0%nat; split; vm_compute; reflexivity).
  assert (get_pool (W booted) 1 = Some {| p_size := 2; p_lock := 0; p_ready := 2 |})
    as HP by (vm_compute; reflexivity).
  assert (0 ≤ add_count (Some 3) ≤ INT_MAX) as Hn
    by (unfold add_count, INT_MAX; simpl; lia).
  assert (INT_MIN ≤ p_size {| p_size := 2; p_lock := 0; p_ready := 2 |}
                    + add_count (Some 3) ≤ INT_MAX) as Hsum
    by (unfold add_count, INT_MIN, INT_MAX; simpl; lia).
  destruct (add_starts_threads (W booted) (L booted) 0 1 _ (Some 3) Hh HP Hn Hsum)
    as (w' & Hrun & HP' & Hthr & _).
  exists w'. split; [exact Hrun|]. split; [exact HP'|exact Hthr].
Defined.

(** X13.  [add(n)] with [n < 0] raises "argument must be positive or zero"
    after taking the lock of the pool and without releasing it: in the state
    of the error the lock is held; the size, the threads and every other cell
    are as before.  (Taking the lock is [CHANNEL_LOCK], modelled as setting
    the [lock] field.) *)
Theorem add_negative_keeps_lock (w : world) (l : lua_State) (u : nat) (p : ptr)
    (P : pool_s) (n : Z) :
  is_pool_handle l u p →
  get_pool w p = Some P →
  INT_MIN ≤ n < 0 →
  ∃ w' : world,
    pool_addthread (call_state w l [LUserdata u; LNumber n])
    = Raise "argument must be positive or zero"
            {| W := w'; L := set_stack (frame [LUserdata u; LNumber n]) l |}
    ∧ get_pool w' p = Some {| p_size := p_size P; p_lock := 1; p_ready := p_ready P |}
    ∧ threads w' = threads w
    ∧ (∀ q, q ≠ p → deref w' q = deref w q).
Proof.
  intros Hh HP Hn. destruct (get_pool_ptr _ _ _ HP) as (p' & -> & HP').
  destruct Hh as (m & Hr & Hu).
  destruct l as [s r tb ud], w as [M thr dp]. simpl in *.
  pose proof (lookup_lt_Some _ _ _ HP') as Hlt.
  assert (to_int n = n) as Hs by (apply to_int_id; unfold INT_MIN, INT_MAX in *; lia).
  assert ((n <? 0) = true) as Hneg by lia.
  eexists. split; [|split; [|split]].
  - unfold pool_addthread. cm_unfold. unfold get_pool, deref, store.
    repeat first [ cm_step | cm_heap ]. reflexivity.
  - unfold get_pool, deref. simpl. rewrite list_lookup_insert_eq by done.
    by destruct P.
  - reflexivity.
  - intros q Hq. unfold deref. destruct q as [|q']; [done|]. simpl.
    rewrite list_lookup_insert_ne by congruence. done.
Qed.

Lemma add_negative_keeps_lock_witness :
  ∃ w' : world,
    pool_addthread (call_state (W booted) (L booted) [LUserdata 0; LNumber (-1)])
    = Raise "argument must be positive or zero"
            {| W := w';
               L := set_stack (frame [LUserdata 0; LNumber (-1)]) (L booted) |}
    ∧ get_pool w' 1 = Some {| p_size := 2; p_lock := 1; p_ready := 2 |}.
Proof.
  assert (is_pool_handle (L booted) 0 1) as Hh
    by (exists 0%nat; split; vm_compute; reflexivity).
  assert (get_pool (W booted) 1 = Some {| p_size := 2; p_lock := 0; p_ready := 2 |})
    as HP by (vm_compute; reflexivity).
  assert (INT_MIN ≤ -1 < 0) as Hn by (unfold INT_MIN; lia).
  destruct (add_negative_keeps_lock (W booted) (L booted) 0 1 _ (-1) Hh HP Hn)
    as (w' & Hrun & HP' & _).
  exists w'. split; [exact Hrun|exact HP'].
Defined.

(** ** The pool of a task *)

Lemma task_getpool_many (w : world) (l : lua_State) (args : list lua_value) :
  (1 < length args)%nat →
  task_getpool (call_state w l args) = Raise "To many arguments" (call_state w l args).
Proof.
  intros Hlen. destruct l as [s r tb ud].
  unfold task_getpool, call_state, set_stack, frame. cbn [stack registry tables udata].
  assert ((1 <? Z.of_nat (length (reverse args))) = true) as Hgt
    by (rewrite length_reverse; lia).
  eapply bind_Ret_eq; [reflexivity|]. cbn [L stack].
  rewrite Hgt. reflexivity.
Qed.

Lemma task_getpool_none (w : world) (l : lua_State) (u : nat) (t : ptr) (T : clp_Task) :
  is_task_handle l u t →
  get_task w t = Some T →
  t_pool T = NULL →
  task_getpool (call_state w l [LUserdata u])
  = Ret 1 (return_state w l [LUserdata u] [LNil]).
Proof.
  intros (m & Hr & Hu) HT Hp. destruct l as [s r tb ud]. simpl in *.
  unfold task_getpool. cm_go fail. cm_eval fail. reflexivity.
Qed.

Lemma task_getpool_some (w : world) (l : lua_State) (u : nat) (t : ptr) (T : clp_Task) :
  is_task_handle l u t →
  get_task w t = Some T →
  t_pool T ≠ NULL →
  pool_metatable_ok l →
  ∃ (l' : lua_State) (h : nat),
    task_getpool (call_state w l [LUserdata u]) = Ret 1 {| W := w; L := l' |}
    ∧ stack l' = frame [LUserdata u; LUserdata h]
    ∧ h = length (udata l)
    ∧ is_pool_handle l' h (t_pool T)
    ∧ is_task_handle l' u t
    ∧ ∀ h0 p0, is_pool_handle l h0 p0 → is_pool_handle l' h0 p0.
Proof.
  intros Hh HT Hp Hmt. destruct l as [s r tb ud].
  destruct (clp_buildpool_spec w
              {| stack := [LUserdata u]; registry := r; tables := tb; udata := ud |}
              (t_pool T) Hmt)
    as (l' & m & Hrun & Hstk & Hr & Hu & Hreg & Hm & _).
  simpl in *. exists l', (length ud). split.
  { destruct Hh as (m0 & Hr0 & Hu0). simpl in *.
    unfold task_getpool, call_state, set_stack. cbn [stack registry tables udata].
    change (frame [LUserdata u]) with [LUserdata u].
    cm_go fail. cm_eval fail. reflexivity. }
  split; [done|]. split; [done|].
  split. { exists m. split; [done|]. rewrite Hu. by rewrite app_lookup_0. }
  split.
  { destruct Hh as (m0 & Hr0 & Hu0). simpl in *. exists m0.
    split; [by rewrite Hreg|]. rewrite Hu. by apply lookup_app_l_Some. }
  intros h0 p0 Hh0.
  eapply (is_pool_handle_buildpool
            {| stack := s; registry := r; tables := tb; udata := ud |}); eauto.
Qed.

(** X14.  [pool()], the getter: called with more than one argument it raises
    "To many arguments", whatever the arguments are; for a task without a pool
    it returns nil; otherwise it returns a new handle of the task's pool. *)
Theorem getpool_cases (w : world) (l : lua_State) (u : nat) (t : ptr) (T : clp_Task) :
  is_task_handle l u t →
  get_task w t = Some T →
  pool_metatable_ok l →
  (∀ args, (1 < length args)%nat →
     task_getpool (call_state w l args)
     = Raise "To many arguments" (call_state w l args))
  ∧ (t_pool T = NULL →
     task_getpool (call_state w l [LUserdata u])
     = Ret 1 (return_state w l [LUserdata u] [LNil]))
  ∧ (t_pool T ≠ NULL →
     ∃ (l' : lua_State) (h : nat),
       task_getpool (call_state w l [LUserdata u]) = Ret 1 {| W := w; L := l' |}
       ∧ stack l' = frame [LUserdata u; LUserdata h]
       ∧ h = length (udata l)
       ∧ is_pool_handle l' h (t_pool T)).
Proof.
  intros Hh HT Hmt. split; [|split].
  - intros args Hlen. by apply task_getpool_many.
  - intros Hp. exact (task_getpool_none w l u t T Hh HT Hp).
  - intros Hp. destruct (task_getpool_some w l u t T Hh HT Hp Hmt)
      as (l' & h & H1 & H2 & H3 & H4 & _).
    by exists l', h.
Qed.

Lemma getpool_cases_witness :
  task_getpool (call_state (W running) (L running) [LUserdata 1; LUserdata 0])
  = Raise "To many arguments"
          (call_state (W running) (L running) [LUserdata 1; LUserdata 0])
  ∧ ∃ (l' : lua_State) (h : nat),
      task_getpool (call_state (W running) (L running) [LUserdata 1])
      = Ret 1 {| W := W running; L := l' |}
      ∧ h = 3%nat
      ∧ is_pool_handle l' h 1.
Proof.
  assert (is_task_handle (L running) 1 3) as Hh
    by (exists 3%nat; split; vm_compute; reflexivity).
  assert (get_task (W running) 3 = Some running_task) as HT by (vm_compute; reflexivity).
  assert (pool_metatable_ok (L running)) as Hmt
    by (right; exists 0%nat; vm_compute; reflexivity).
  assert (t_pool running_task ≠ NULL) as Hp by (unfold NULL; simpl; lia).
  destruct (getpool_cases (W running) (L running) 1 3 running_task Hh HT Hmt)
    as (H1 & _ & H3).
  destruct (H3 Hp) as (l' & h & Hrun & _ & Hnew & Hh').
  split.
  - apply (H1 [LUserdata 1; LUserdata 0]). simpl. lia.
  - exists l', h. split; [exact Hrun|].
    split; [rewrite Hnew; vm_compute; reflexivity|exact Hh'].
Defined.

Lemma task_setpool_ok (w : world) (l : lua_State) (u hp : nat) (t' : nat) (p : ptr)
    (T : clp_Task) :
  is_task_handle l u (S t') →
  is_pool_handle l hp p →
  mem w !! t' = Some (CTask T) →
  task_setpool (call_state w l [LUserdata u; LUserdata hp])
  = Ret 1 {| W := {| mem := <[t' := CTask (set_t_pool p T)]> (mem w);
                     threads := threads w; clp_defaultpool := clp_defaultpool w |};
             L := set_stack (frame [LUserdata u]) l |}.
Proof.
  intros (m & Hr & Hu) (m' & Hr' & Hu') HT.
  destruct l as [s r tb ud], w as [M thr dp]. simpl in *.
  pose proof (lookup_lt_Some _ _ _ HT) as Hlt.
  unfold task_setpool. cm_unfold. unfold get_task, deref, store.
  repeat first [ cm_step | cm_heap ]. reflexivity.
Qed.

(** X15.  [setpool(p)] stores the pool in the task and returns the process
    itself (it pops the pool and returns the one value left); nothing else
    changes. [pool()] afterwards returns a handle that is equal, by the [__eq]
    of pools, to the handle that was given. *)
Theorem setpool_getpool (w : world) (l : lua_State) (u hp : nat) (t p : ptr)
    (T : clp_Task) :
  is_task_handle l u t →
  is_pool_handle l hp p →
  get_task w t = Some T →
  p ≠ NULL →
  ∃ w' : world,
    task_setpool (call_state w l [LUserdata u; LUserdata hp])
    = Ret 1 {| W := w'; L := set_stack (frame [LUserdata u]) l |}
    ∧ get_task w' t = Some (set_t_pool p T)
    ∧ (∀ q, q ≠ t → deref w' q = deref w q)
    ∧ threads w' = threads w
    ∧ ∃ (l' : lua_State) (h : nat),
        task_getpool (call_state w' l [LUserdata u]) = Ret 1 {| W := w'; L := l' |}
        ∧ stack l' = frame [LUserdata u; LUserdata h]
        ∧ is_pool_handle l' h p
        ∧ pool_eq (call_state w' l' [LUserdata hp; LUserdata h])
          = Ret 1 (return_state w' l' [LUserdata hp; LUserdata h] [LBoolean true]).
Proof.
  intros Hh Hhp HT Hp. destruct (get_task_ptr _ _ _ HT) as (t' & -> & HT').
  pose proof (lookup_lt_Some _ _ _ HT') as Hlt.
  eexists. split; [by apply task_setpool_ok|].
  assert (get_task {| mem := <[t' := CTask (set_t_pool p T)]> (mem w);
                      threads := threads w; clp_defaultpool := clp_defaultpool w |}
                   (S t') = Some (set_t_pool p T)) as HT2.
  { unfold get_task, deref. simpl. by rewrite list_lookup_insert_eq. }
  split; [done|]. split.
  { intros q Hq. unfold deref. destruct q as [|q']; [done|]. simpl.
    rewrite list_lookup_insert_ne by congruence. done. }
  split; [done|].
  assert (pool_metatable_ok l) as Hmt.
  { destruct Hhp as (m & Hr & _). right. by exists m. }
  destruct (task_getpool_some _ l u (S t') _ Hh HT2 Hp Hmt)
    as (l' & h & Hrun & Hstk & _ & Hh' & _ & Hold).
  exists l', h. split; [done|]. split; [done|]. split; [done|].
  rewrite (pool_eq_ok _ l' hp h p p (Hold _ _ Hhp) Hh').
  by rewrite bool_decide_true.
Qed.

Lemma setpool_getpool_witness :
  ∃ w' : world,
    task_setpool (call_state (W unpooled) (L unpooled) [LUserdata 1; LUserdata 0])
    = Ret 1 {| W := w'; L := set_stack (frame [LUserdata 1]) (L unpooled) |}
    ∧ get_task w' 3 = Some (set_t_pool 1%nat unpooled_task)
    ∧ ∃ (l' : lua_State) (h : nat),
        task_getpool (call_state w' (L unpooled) [LUserdata 1])
        = Ret 1 {| W := w'; L := l' |}
        ∧ is_pool_handle l' h 1.
Proof.
  assert (is_task_handle (L unpooled) 1 3) as Hh
    by (exists 2%nat; split; vm_compute; reflexivity).
  assert (is_pool_handle (L unpooled) 0 1) as Hhp
    by (exists 0%nat; split; vm_compute; reflexivity).
  assert (get_task (W unpooled) 3 = Some unpooled_task) as HT by (vm_compute; reflexivity).
  assert (1%nat ≠ NULL) as Hp by (unfold NULL; lia).
  destruct (setpool_getpool (W unpooled) (L unpooled) 1 0 3 1 unpooled_task Hh Hhp HT Hp)
    as (w' & Hrun & HT' & _ & _ & l' & h & Hget & _ & Hh' & _).
  exists w'. split; [exact Hrun|]. split; [exact HT'|].
  exists l', h. split; [exact Hget|exact Hh'].
Defined.

(** X16.  A task that has an environment but no pool cannot [spawn]; after
    [setpool(p)] it can, and the new instances are queued at [p], in order,
    behind what the ready queue of [p] held. *)
Theorem setpool_then_spawn (w : world) (l : lua_State) (u hp : nat) (t p : ptr)
    (T : clp_Task) (n : Z) :
  is_task_handle l u t →
  is_pool_handle l hp p →
  get_task w t = Some T →
  t_env T ≠ NULL →
  pool_ready w p →
  0 < n ≤ INT_MAX →
  INT_MIN ≤ t_instances T + n ≤ INT_MAX →
  (t_pool T = NULL →
   task_instantiate (call_state w l [LUserdata u; LNumber n])
   = Raise "Process must be associated to a pool"
           (call_state w l [LUserdata u; LNumber n]))
  ∧ ∃ (w1 w2 : world) (P : pool_s) (Q : lfqueue),
      task_setpool (call_state w l [LUserdata u; LUserdata hp])
      = Ret 1 {| W := w1; L := set_stack (frame [LUserdata u]) l |}
      ∧ task_instantiate (call_state w1 l [LUserdata u; LNumber n])
        = Ret 1 (return_state w2 l [LUserdata u; LNumber n] [LUserdata u])
      ∧ get_pool w p = Some P
      ∧ get_queue w (p_ready P) = Some Q
      ∧ get_queue w2 (p_ready P)
        = Some {| q_items := q_items Q ++ seq (S (length (mem w))) (Z.to_nat n);
                  q_capacity := q_capacity Q |}
      ∧ get_task w2 t = Some (spawned n (set_t_pool p T))
      ∧ ∀ i, i ∈ seq (S (length (mem w))) (Z.to_nat n) →
             get_instance w2 i = Some (new_instance t).
Proof.
  intros Hh Hhp HT He (p' & q' & P & Q & -> & HP & Hq & HQ & Hcap) Hn Hsum.
  destruct (get_task_ptr _ _ _ HT) as (t' & -> & HT').
  pose proof (lookup_lt_Some _ _ _ HT') as Hlt.
  pose proof (lookup_lt_Some _ _ _ HP) as Hltp.
  pose proof (lookup_lt_Some _ _ _ HQ) as Hltq.
  assert (t' ≠ p') as Htp by (intros ->; congruence).
  assert (t' ≠ q') as Htq by (intros ->; congruence).
  split.
  { intros Hnp. apply (task_instantiate_no_pool w l u (S t') T [LNumber n]); eauto. }
  eexists _, _, P, Q. split; [by apply task_setpool_ok|].
  split.
  { assert (mem {| mem := <[t' := CTask (set_t_pool (S p') T)]> (mem w);
                   threads := threads w; clp_defaultpool := clp_defaultpool w |} !! t'
            = Some (CTask (set_t_pool (S p') T))) as H1
      by (simpl; by rewrite list_lookup_insert_eq).
    assert (mem {| mem := <[t' := CTask (set_t_pool (S p') T)]> (mem w);
                   threads := threads w; clp_defaultpool := clp_defaultpool w |} !! p'
            = Some (CPool P)) as H2
      by (simpl; by rewrite list_lookup_insert_ne).
    assert (mem {| mem := <[t' := CTask (set_t_pool (S p') T)]> (mem w);
                   threads := threads w; clp_defaultpool := clp_defaultpool w |} !! q'
            = Some (CQueue Q)) as H3
      by (simpl; by rewrite list_lookup_insert_ne).
    assert (t_env (set_t_pool (S p') T) ≠ NULL) as H4 by (by destruct T).
    assert (INT_MIN ≤ t_instances (set_t_pool (S p') T) + n ≤ INT_MAX) as H5
      by (by destruct T).
    exact (task_instantiate_pos _ l u t' p' q' (set_t_pool (S p') T) P Q n
             Hh H1 eq_refl H4 H2 Hq H3 Hcap Hn H5). }
  cbn [mem]. rewrite length_insert.
  split; [unfold get_pool, deref; by rewrite HP|].
  split; [rewrite Hq; unfold get_queue, deref; by rewrite HQ|].
  split.
  { rewrite Hq. unfold get_queue, deref. cbn [mem].
    rewrite lookup_app_l by (rewrite !length_insert; lia).
    rewrite list_lookup_insert_eq by (rewrite !length_insert; lia). done. }
  split.
  { unfold get_task, deref. cbn [mem].
    rewrite lookup_app_l by (rewrite !length_insert; lia).
    rewrite list_lookup_insert_ne by done.
    rewrite list_insert_insert_eq.
    rewrite list_lookup_insert_eq by lia. done. }
  intros i Hi. apply elem_of_seq in Hi.
  unfold get_instance, deref. destruct i as [|i']; [lia|]. cbn [mem].
  rewrite lookup_app_r by (rewrite !length_insert; lia).
  rewrite !length_insert.
  rewrite lookup_replicate_2 by lia. done.
Qed.

Lemma setpool_then_spawn_witness :
  task_instantiate (call_state (W stranded) (L stranded) [LUserdata 1; LNumber 2])
  = Raise "Process must be associated to a pool"
          (call_state (W stranded) (L stranded) [LUserdata 1; LNumber 2])
  ∧ ∃ (w1 w2 : world),
      task_setpool (call_state (W stranded) (L stranded) [LUserdata 1; LUserdata 0])
      = Ret 1 {| W := w1; L := set_stack (frame [LUserdata 1]) (L stranded) |}
      ∧ task_instantiate (call_state w1 (L stranded) [LUserdata 1; LNumber 2])
        = Ret 1 (return_state w2 (L stranded) [LUserdata 1; LNumber 2] [LUserdata 1])
      ∧ get_queue w2 2 = Some {| q_items := [6; 7]%nat; q_capacity := -1 |}.
Proof.
  assert (is_task_handle (L stranded) 1 3) as Hh
    by (exists 2%nat; split; vm_compute; reflexivity).
  assert (is_pool_handle (L stranded) 0 1) as Hhp
    by (exists 0%nat; split; vm_compute; reflexivity).
  assert (get_task (W stranded) 3
          = Some {| t_env := 5; t_env_len := 8; t_instances := 0;
                    t_intances_mutex := false; t_input := 4; t_pool := NULL;
                    t_parent := NULL |}) as HT by (vm_compute; reflexivity).
  assert (5%nat ≠ NULL) as He by (unfold NULL; lia).
  assert (pool_ready (W stranded) 1) as Hp.
  { exists 0%nat, 1%nat, {| p_size := 2; p_lock := 0; p_ready := 2 |},
      {| q_items := []; q_capacity := -1 |}.
    split; [reflexivity|]. split; [vm_compute; reflexivity|]. split; [reflexivity|].
    split; [vm_compute; reflexivity|]. simpl. lia. }
  assert (0 < 2 ≤ INT_MAX) as Hn by (unfold INT_MAX; lia).
  assert (INT_MIN ≤ 0 + 2 ≤ INT_MAX) as Hsum by (unfold INT_MIN, INT_MAX; lia).
  destruct (setpool_then_spawn (W stranded) (L stranded) 1 0 3 1 _ 2 Hh Hhp HT He Hp Hn Hsum)
    as (Hno & w1 & w2 & P & Q & Hset & Hspawn & HP & HQ & HQ' & _).
  split; [exact (Hno eq_refl)|].
  exists w1, w2. split; [exact Hset|]. split; [exact Hspawn|].
  assert (P = {| p_size := 2; p_lock := 0; p_ready := 2 |}) as ->
    by (vm_compute in HP; congruence).
  assert (Q = {| q_items := []; q_capacity := -1 |}) as ->
    by (vm_compute in HQ; congruence).
  exact HQ'.
Defined.

(** ** [isprocess] *)

Lemma task_istask_handle (w : world) (l : lua_State) (u : nat) (t : ptr) :
  is_task_handle l u t →
  task_istask (call_state w l [LUserdata u])
  = Ret 1 (return_state w l [LUserdata u] [LBoolean true]).
Proof.
  intros (m & Hr & Hu). destruct l as [s r tb ud]. simpl in *.
  unfold task_istask, lua_getmetatable, lua_equal_at.
  cm_go ltac:(rewrite get_taskmetatale_old with (m := m) by done).
  cm_eval fail. reflexivity.
Qed.

Lemma task_istask_bare (w : world) (l : lua_State) (m : nat) (mt : ltable)
    (v : lua_value) :
  registry l !! KStr CLP_TASK_METATABLE = Some (LTable m) →
  tables l !! m = Some mt →
  tb_meta mt = None →
  getmetatable l v = None →
  (∀ s, v ≠ LString s) →
  task_istask (call_state w l [v])
  = Ret 1 {| W := w; L := set_stack [LBoolean (bool_decide (v = LTable m))] l |}.
Proof.
  intros Hr Hm Hmm Hv Hs. destruct l as [s r tb ud]. simpl in *.
  assert (getmetatable {| stack := [LTable m; v]; registry := r; tables := tb;
                          udata := ud |} (LTable m) = None) as Hgm
    by (simpl; by rewrite Hm).
  destruct v as [|b|n|str|p|u|y|f|c|src| |h0 s0];
    try (by destruct (Hs _ eq_refl));
    try (rewrite bool_decide_false by done;
         unfold task_istask, lua_getmetatable, lua_equal_at;
         cm_go ltac:(rewrite get_taskmetatale_old with (m := m) by done);
         cm_eval fail; reflexivity).
  - rewrite bool_decide_false by done. simpl in Hv.
    destruct (ud !! u) as [[blk [mm|]]|] eqn:Hud; try done;
      unfold task_istask, lua_getmetatable, lua_equal_at;
      cm_go ltac:(rewrite get_taskmetatale_old with (m := m) by done);
      cm_eval fail; reflexivity.
  - simpl in Hv. destruct (decide (y = m)) as [->|Hne].
    + rewrite bool_decide_true by done.
    unfold task_istask, lua_getmetatable, lua_equal_at.
    cm_go ltac:(rewrite get_taskmetatale_old with (m := m) by done).
      cm_eval fail. reflexivity.
    + rewrite bool_decide_false by congruence.
      destruct (tb !! y) as [[fs [mm|]]|] eqn:Hy; try done;
        unfold task_istask, lua_getmetatable, lua_equal_at, get_compTM;
        cm_go ltac:(rewrite get_taskmetatale_old with (m := m) by done);
        cm_eval fail; reflexivity.
Qed.

Lemma task_istask_other (w : world) (l : lua_State) (m m' : nat) (mt : ltable)
    (v : lua_value) :
  registry l !! KStr CLP_TASK_METATABLE = Some (LTable m) →
  tables l !! m = Some mt →
  tb_meta mt = None →
  getmetatable l v = Some m' →
  m' ≠ m →
  task_istask (call_state w l [v])
  = Ret 1 (return_state w l [v] [LBoolean false]).
Proof.
  intros Hr Hm Hmm Hv Hne. destruct l as [s r tb ud]. simpl in *.
  destruct v as [|b|n|str|p|u|y|f|c|src| |h0 s0]; try done; simpl in Hv.
  - destruct (ud !! u) as [[blk [mm|]]|] eqn:Hud; try done.
    simpl in Hv. injection Hv as ->.
    unfold task_istask, lua_getmetatable, lua_equal_at, get_compTM.
    cm_go ltac:(rewrite get_taskmetatale_old with (m := m) by done).
    cm_eval fail. reflexivity.
  - destruct (tb !! y) as [[fs [mm|]]|] eqn:Hy; try done.
    simpl in Hv. injection Hv as ->.
    unfold task_istask, lua_getmetatable, lua_equal_at, get_compTM.
    cm_go ltac:(rewrite get_taskmetatale_old with (m := m) by done).
    cm_eval fail. reflexivity.
Qed.

(** X17.  [isprocess(v)] compares the metatable of Process handles with what
    [lua_getmetatable] pushed, without looking at whether it pushed anything:
    for a value that has no metatable the comparison is with [v] itself, and
    [v] is popped. So the answer is true for every Process handle, false for a
    value that has another metatable, and for a value without a metatable it
    is true exactly when [v] is the metatable of Process handles. *)
Theorem isprocess_cases (w : world) (l : lua_State) (m : nat) (mt : ltable) :
  registry l !! KStr CLP_TASK_METATABLE = Some (LTable m) →
  tables l !! m = Some mt →
  tb_meta mt = None →
  (∀ u t, is_task_handle l u t →
     task_istask (call_state w l [LUserdata u])
     = Ret 1 (return_state w l [LUserdata u] [LBoolean true]))
  ∧ (∀ v m', getmetatable l v = Some m' → m' ≠ m →
       task_istask (call_state w l [v])
       = Ret 1 (return_state w l [v] [LBoolean false]))
  ∧ (∀ v, getmetatable l v = None → (∀ s, v ≠ LString s) →
       task_istask (call_state w l [v])
       = Ret 1 {| W := w; L := set_stack [LBoolean (bool_decide (v = LTable m))] l |})
  ∧ task_istask (call_state w l [LTable m])
    = Ret 1 {| W := w; L := set_stack [LBoolean true] l |}.
Proof.
  intros Hr Hm Hmm. split; [|split; [|split]].
  - intros u t Hh. by eapply task_istask_handle.
  - intros v m' Hv Hne. by eapply task_istask_other.
  - intros v Hv Hs. by eapply task_istask_bare.
  - rewrite (task_istask_bare w l m mt (LTable m)); try done.
    + by rewrite bool_decide_true.
    + simpl. by rewrite Hm.
Qed.

Lemma isprocess_cases_witness :
  task_istask (call_state (W running) (L running) [LUserdata 1])
  = Ret 1 (return_state (W running) (L running) [LUserdata 1] [LBoolean true])
  ∧ task_istask (call_state (W running) (L running) [LUserdata 0])
    = Ret 1 (return_state (W running) (L running) [LUserdata 0] [LBoolean false])
  ∧ task_istask (call_state (W running) (L running) [LTable 3])
    = Ret 1 {| W := W running; L := set_stack [LBoolean true] (L running) |}.
Proof.
  assert (registry (L running) !! KStr CLP_TASK_METATABLE = Some (LTable 3)) as Hr
    by (vm_compute; reflexivity).
  assert (tables (L running) !! 3%nat
          = Some {| tb_fields := task_metatable_fields 3; tb_meta := None |}) as Hm
    by (vm_compute; reflexivity).
  assert (is_task_handle (L running) 1 3) as Hh
    by (exists 3%nat; split; vm_compute; reflexivity).
  assert (getmetatable (L running) (LUserdata 0) = Some 0%nat) as Hv
    by (vm_compute; reflexivity).
  assert (0%nat ≠ 3%nat) as Hne by lia.
  destruct (isprocess_cases (W running) (L running) 3 _ Hr Hm eq_refl)
    as (H1 & H2 & _ & H4).
  split; [exact (H1 1%nat 3%nat Hh)|]. split; [exact (H2 (LUserdata 0) 0%nat Hv Hne)|].
  exact H4.
Defined.

(** ** [env] *)

Lemma task_getenv_handler (w : world) (l : lua_State) (v : lua_value)
    (args : list lua_value) :
  registry l !! KStr CLP_HANDLER_KEY = Some v →
  v ≠ LNil →
  task_getenv (call_state w l args) = Ret 1 (return_state w l args [v]).
Proof.
  intros Hr Hv. destruct l as [s r tb ud]. simpl in *.
  unfold task_getenv, call_state, return_state, set_stack, frame.
  cbn [stack registry tables udata]. rewrite reverse_app. simpl.
  cm_go fail. destruct v; try done; reflexivity.
Qed.

Lemma task_getenv_none (w : world) (l : lua_State) (u : nat) (t : ptr) (T : clp_Task) :
  default LNil (registry l !! KStr CLP_HANDLER_KEY) = LNil →
  is_task_handle l u t →
  get_task w t = Some T →
  t_env T = NULL →
  task_getenv (call_state w l [LUserdata u])
  = Ret 1 (return_state w l [LUserdata u] [LNil]).
Proof.
  intros Hk (m & Hr & Hu) HT He. destruct l as [s r tb ud]. simpl in *.
  unfold task_getenv. cm_go fail. cm_eval fail. reflexivity.
Qed.

Lemma task_getenv_some (w : world) (l : lua_State) (u : nat) (t : ptr) (T : clp_Task)
    (b : string) (f : nat) (e : option nat) :
  default LNil (registry l !! KStr CLP_HANDLER_KEY) = LNil →
  is_task_handle l u t →
  get_task w t = Some T →
  t_env T ≠ NULL →
  get_bytes w (t_env T) = Some b →
  Marshal.decode_env (String.substring 0 (Z.to_nat (t_env_len T)) b) = Some (f, e) →
  task_getenv (call_state w l [LUserdata u])
  = Ret 1 (return_state w (set_tables (tables l ++ [env_table f e]) l)
             [LUserdata u] [LTable (length (tables l))]).
Proof.
  intros Hk (m & Hr & Hu) HT He Hb Hdec. destruct l as [s r tb ud]. simpl in *.
  unfold task_getenv.
  cm_go ltac:(first [ erewrite mar_decode_ok by exact Hdec ]).
  reflexivity.
Qed.

Lemma decode_id_encode (n : nat) (rest : string) :
  Marshal.decode_id (Marshal.encode_id n +:+ rest) = Some (n, rest).
Proof.
  induction n as [|n IH]; simpl; [done|]. by rewrite IH.
Qed.

Lemma append_empty_r (s : string) : s +:+ "" = s.
Proof.
  induction s as [|c s IH]; [reflexivity|].
  change (String c (s +:+ "") = String c s). by rewrite IH.
Qed.

Lemma decode_env_encode (f : nat) (e : option nat) :
  Marshal.decode_env (Marshal.encode_env f e) = Some (f, e).
Proof.
  unfold Marshal.decode_env, Marshal.encode_env. rewrite decode_id_encode.
  destruct e as [b|]; [|done].
  assert (Marshal.decode_id (Marshal.encode_id b) = Some (b, "")) as Hb.
  { pose proof (decode_id_encode b "") as H. by rewrite append_empty_r in H. }
  destruct b as [|b]; [done|].
  change (Marshal.encode_id (S b)) with (String "i"%char (Marshal.encode_id b)) in *.
  by rewrite Hb.
Qed.

Lemma substring_append (s t : string) :
  String.substring 0 (String.length s) (s +:+ t) = s.
Proof.
  induction s as [|c s IH]; [by destruct t|].
  change (String c (String.substring 0 (String.length s) (s +:+ t)) = String c s).
  by rewrite IH.
Qed.

(** X18.  [env()] in an interpreter whose registry holds a value under
    [CLP_HANDLER_KEY] returns that value, whatever the arguments are: the
    receiver is not looked at. Otherwise it returns nil for a task without an
    environment, and for a task with one a new table, the decoding of the
    first [env_len] bytes of the environment. *)
Theorem env_cases (w : world) (l : lua_State) (u : nat) (t : ptr) (T : clp_Task) :
  is_task_handle l u t →
  get_task w t = Some T →
  (∀ v args, registry l !! KStr CLP_HANDLER_KEY = Some v → v ≠ LNil →
     task_getenv (call_state w l args) = Ret 1 (return_state w l args [v]))
  ∧ (registry l !! KStr CLP_HANDLER_KEY = None → t_env T = NULL →
     task_getenv (call_state w l [LUserdata u])
     = Ret 1 (return_state w l [LUserdata u] [LNil]))
  ∧ (∀ b f e,
       registry l !! KStr CLP_HANDLER_KEY = None → t_env T ≠ NULL →
       get_bytes w (t_env T) = Some b →
       Marshal.decode_env (String.substring 0 (Z.to_nat (t_env_len T)) b) = Some (f, e) →
       task_getenv (call_state w l [LUserdata u])
       = Ret 1 (return_state w (set_tables (tables l ++ [env_table f e]) l)
                  [LUserdata u] [LTable (length (tables l))])).
Proof.
  intros Hh HT. split; [|split].
  - intros v args Hr Hv. by apply task_getenv_handler.
  - intros Hr He. apply (task_getenv_none w l u t T); try done. by rewrite Hr.
  - intros b f e Hr He Hb Hd. apply (task_getenv_some w l u t T b); try done.
    by rewrite Hr.
Qed.

Lemma env_cases_witness :
  task_getenv (call_state (W unwrapped) (L unwrapped) [LUserdata 1])
  = Ret 1 (return_state (W unwrapped) (L unwrapped) [LUserdata 1] [LNil])
  ∧ task_getenv (call_state (W running) (L running) [LUserdata 1])
    = Ret 1 (return_state (W running)
               (set_tables (tables (L running) ++ [env_table 7 None]) (L running))
               [LUserdata 1] [LTable (length (tables (L running)))]).
Proof.
  assert (is_task_handle (L unwrapped) 1 3) as Hh0
    by (exists 2%nat; split; vm_compute; reflexivity).
  assert (get_task (W unwrapped) 3
          = Some {| t_env := NULL; t_env_len := 0; t_instances := 0;
                    t_intances_mutex := false; t_input := 4; t_pool := 1;
                    t_parent := NULL |}) as HT0 by (vm_compute; reflexivity).
  assert (registry (L unwrapped) !! KStr CLP_HANDLER_KEY = None) as Hk0
    by (vm_compute; reflexivity).
  assert (is_task_handle (L running) 1 3) as Hh
    by (exists 3%nat; split; vm_compute; reflexivity).
  assert (get_task (W running) 3 = Some running_task) as HT by (vm_compute; reflexivity).
  assert (registry (L running) !! KStr CLP_HANDLER_KEY = None) as Hk
    by (vm_compute; reflexivity).
  assert (t_env running_task ≠ NULL) as He by (unfold NULL; simpl; lia).
  assert (get_bytes (W running) (t_env running_task) = Some "iiiiiii;") as Hb
    by (vm_compute; reflexivity).
  assert (Marshal.decode_env
            (String.substring 0 (Z.to_nat (t_env_len running_task)) "iiiiiii;")
          = Some (7%nat, None)) as Hd by (vm_compute; reflexivity).
  destruct (env_cases (W unwrapped) (L unwrapped) 1 3 _ Hh0 HT0) as (_ & H2 & _).
  destruct (env_cases (W running) (L running) 1 3 running_task Hh HT) as (_ & _ & H3).
  split; [exact (H2 Hk0 eq_refl)|].
  exact (H3 "iiiiiii;" 7%nat None Hk He Hb Hd).
Defined.

(** X19.  After [wrap(f, e)] has given a task its environment, [env()] returns
    a new table whose field [f] is the function and whose field [e] is the
    error function: the bytes that [wrap] stored, read back over the length it
    recorded, decode to what was encoded. *)
Theorem wrap_then_env (w : world) (l : lua_State) (u : nat) (t : ptr)
    (T : clp_Task) (f : nat) (e : option nat) (n : option Z) :
  is_task_handle l u t →
  get_task w t = Some T →
  t_env T = NULL →
  pool_ready w (t_pool T) →
  INT_MIN ≤ t_instances T + 1 ≤ INT_MAX →
  registry l !! KStr CLP_HANDLER_KEY = None →
  let args := LUserdata u :: new_args f e n in
  ∃ (w' : world) (l' l'' : lua_State) (x : nat),
    task_wrap (call_state w l args) = Ret 1 (return_state w' l' args [LUserdata u])
    ∧ task_getenv (call_state w' l' [LUserdata u]) = Ret 1 {| W := w'; L := l'' |}
    ∧ stack l'' = frame [LUserdata u; LTable x]
    ∧ tables l' !! x = None
    ∧ tables l'' !! x = Some (env_table f e).
Proof.
  intros Hh HT He (p' & q' & P & Q & Hp & HP & Hq & HQ & Hcap) Hrange Hk args.
  destruct (get_task_ptr _ _ _ HT) as (t' & -> & HT').
  destruct l as [s r tb ud], w as [M thr dp]. simpl in *.
  pose proof (lookup_lt_Some _ _ _ HT') as Hlt.
  pose proof (lookup_lt_Some _ _ _ HQ) as Hltq.
  assert (t' ≠ q') as Htq by (intros ->; congruence).
  eexists _, _, _, _. split.
  { exact (task_wrap_unset M thr dp s r tb ud u t' p' q' T P Q f e n
             Hh HT' He Hp HP Hq HQ Hcap Hrange). }
  split.
  { eapply (task_getenv_some _ _ u (S t') _
              (Marshal.encode_env f e +:+ String Ascii.zero EmptyString) f e).
    - simpl. by rewrite Hk.
    - destruct Hh as (m & Hm & Hu). by exists m.
    - unfold get_task, deref. cbn [mem].
      rewrite lookup_app_l by (rewrite !length_insert; lia).
      rewrite list_lookup_insert_ne by done.
      rewrite list_lookup_insert_eq by done. reflexivity.
    - done.
    - unfold get_bytes, deref. cbn [mem t_env spawned set_t_intances_mutex
        set_t_instances set_t_env_len set_t_env].
      rewrite lookup_app_r by (rewrite !length_insert; lia).
      rewrite !length_insert, Nat.sub_diag. reflexivity.
    - cbn [t_env_len spawned set_t_intances_mutex set_t_instances set_t_env_len
             set_t_env].
      rewrite Nat2Z.id, substring_append. apply decode_env_encode. }
  simpl. split; [reflexivity|].
  split; [apply lookup_ge_None; rewrite length_app; simpl; lia|].
  apply (app_lookup_0 (tb ++ [env_table f e]) (env_table f e) []).
Qed.

Lemma wrap_then_env_witness :
  ∃ (w' : world) (l' l'' : lua_State) (x : nat),
    task_wrap (call_state (W unwrapped) (L unwrapped) [LUserdata 1; LClosure 7; LClosure 8])
    = Ret 1 (return_state w' l' [LUserdata 1; LClosure 7; LClosure 8] [LUserdata 1])
    ∧ task_getenv (call_state w' l' [LUserdata 1]) = Ret 1 {| W := w'; L := l'' |}
    ∧ stack l'' = frame [LUserdata 1; LTable x]
    ∧ tables l'' !! x = Some (env_table 7 (Some 8%nat)).
Proof.
  assert (is_task_handle (L unwrapped) 1 3) as Hh
    by (exists 2%nat; split; vm_compute; reflexivity).
  assert (get_task (W unwrapped) 3
          = Some {| t_env := NULL; t_env_len := 0; t_instances := 0;
                    t_intances_mutex := false; t_input := 4; t_pool := 1;
                    t_parent := NULL |}) as HT by (vm_compute; reflexivity).
  assert (pool_ready (W unwrapped) 1) as Hp.
  { exists 0%nat, 1%nat, {| p_size := 2; p_lock := 0; p_ready := 2 |},
      {| q_items := []; q_capacity := -1 |}.
    split; [reflexivity|]. split; [vm_compute; reflexivity|]. split; [reflexivity|].
    split; [vm_compute; reflexivity|]. simpl. lia. }
  assert (INT_MIN ≤ 0 + 1 ≤ INT_MAX) as Hr by (unfold INT_MIN, INT_MAX; lia).
  assert (registry (L unwrapped) !! KStr CLP_HANDLER_KEY = None) as Hk
    by (vm_compute; reflexivity).
  destruct (wrap_then_env (W unwrapped) (L unwrapped) 1 3 _ 7 (Some 8%nat) None
              Hh HT eq_refl Hp Hr Hk)
    as (w' & l' & l'' & x & Hwrap & Henv & Hs & _ & Hx).
  exists w', l', l'', x. split; [exact Hwrap|]. split; [exact Henv|].
  split; [exact Hs|exact Hx].
Defined.

(** ** The cache of handles *)

Lemma clp_gettask_build (w : world) (l l' : lua_State) (t : ptr) :
  t ≠ NULL →
  clp_buildtask t {| W := w; L := set_stack [LLightUserdata t] l |}
  = Ret () {| W := w; L := l' |} →
  clp_gettask (call_state w l [LLightUserdata t]) = Ret 1 {| W := w; L := l' |}.
Proof.
  intros Ht Hrun. destruct l as [s r tb ud].
  unfold clp_gettask, call_state, set_stack in *. cbn [stack registry tables udata] in *.
  change (frame [LLightUserdata t]) with [LLightUserdata t].
  cm_go fail. cm_eval fail. reflexivity.
Qed.

(** After a miss, the cache of handles is a new table that holds the new
    handle and nothing else. *)
Lemma clp_buildtask_only (w : world) (l l' : lua_State) (t : ptr) :
  task_metatable_ok l →
  cache_ok l →
  (∀ u0, ¬ cached l t u0) →
  clp_buildtask t {| W := w; L := l |} = Ret () {| W := w; L := l' |} →
  ∀ t' u', cached l' t' u' → t' = t.
Proof.
  intros (m & mt & Hm & Hmt & Heq) Hc Hn Hrun t' u' (c' & ct' & (Hr' & Ht' & _) & Hf').
  destruct l as [s r tb ud]. simpl in *.
  destruct Hc as [Hc | (c & ct & Hc & Hv)]; simpl in *.
  - rewrite (clp_buildtask_cold _ _ _ _ _ _ m Hm Hc) in Hrun.
    injection Hrun as <-. simpl in *.
    rewrite lookup_insert_eq in Hr'. injection Hr' as <-.
    rewrite app_lookup_2 in Ht'. injection Ht' as <-. simpl in Hf'.
    destruct (decide (t' = t)) as [|Hne]; [done|].
    rewrite lookup_insert_ne in Hf' by congruence. by rewrite lookup_empty in Hf'.
  - assert (tb_fields ct !! KPtr t = None) as Hnone.
    { destruct (tb_fields ct !! KPtr t) as [v|] eqn:E; [|done].
      destruct (Hv _ _ E) as (u0 & -> & _).
      destruct (Hn u0). by exists c, ct. }
    rewrite (clp_buildtask_miss _ _ _ _ _ _ m c ct Hm Hc Hnone) in Hrun.
    injection Hrun as <-. simpl in *.
    rewrite lookup_insert_eq in Hr'. injection Hr' as <-.
    rewrite app_lookup_0 in Ht'. injection Ht' as <-. simpl in Hf'.
    destruct (decide (t' = t)) as [|Hne]; [done|].
    rewrite lookup_insert_ne in Hf' by congruence. by rewrite lookup_empty in Hf'.
Qed.

Lemma cached_same (l l' : lua_State) (t : ptr) (u : nat) :
  registry l' = registry l → tables l' = tables l →
  cached l' t u → cached l t u.
Proof.
  intros Hr Ht (c & ct & (H1 & H2 & wm & wt & H3 & H4 & H5) & Hf).
  exists c, ct. rewrite Hr in H1. rewrite Ht in H2, H4.
  split; [|done]. split; [done|]. split; [done|]. by exists wm, wt.
Qed.

Lemma cached_dec (l : lua_State) (t : ptr) :
  cache_ok l → (∃ u, cached l t u) ∨ (∀ u, ¬ cached l t u).
Proof.
  intros [Hc | (c & ct & Hc & Hv)].
  - right. intros u (c & ct & (Hr & _) & _). by destruct (Hc c).
  - destruct (tb_fields ct !! KPtr t) as [v|] eqn:E.
    + left. destruct (Hv _ _ E) as (u & -> & _). exists u. by exists c, ct.
    + right. intros u (c' & ct' & (Hr' & Ht' & _) & Hf').
      destruct Hc as (Hr & Ht & _).
      assert (c' = c) as -> by congruence.
      assert (ct' = ct) as -> by congruence. congruence.
Qed.

(** X20.  The cache of handles holds one handle at a time.  [get] of an
    address twice in a row returns the same userdata, and the second call
    leaves the interpreter as it was; but once [get] has made a handle for
    another task, [get] of the first address makes a new userdata, other
    than the one it returned before, which is still a handle of the task
    (the collection of garbage is not modelled: the first handle stays
    alive, as when the caller keeps it). *)
Theorem cache_holds_one_handle (w : world) (l : lua_State) (t1 t2 : ptr) :
  t1 ≠ NULL → t2 ≠ NULL → t1 ≠ t2 →
  task_metatable_ok l →
  cache_ok l →
  (∀ u0, ¬ cached l t2 u0) →
  ∃ (l1 l2 l3 : lua_State) (h1 h2 h3 : nat),
    clp_gettask (call_state w l [LLightUserdata t1]) = Ret 1 {| W := w; L := l1 |}
    ∧ stack l1 = frame [LLightUserdata t1; LUserdata h1]
    ∧ clp_gettask (call_state w l1 [LLightUserdata t1])
      = Ret 1 (return_state w l1 [LLightUserdata t1] [LUserdata h1])
    ∧ clp_gettask (call_state w l1 [LLightUserdata t2]) = Ret 1 {| W := w; L := l2 |}
    ∧ stack l2 = frame [LLightUserdata t2; LUserdata h2]
    ∧ clp_gettask (call_state w l2 [LLightUserdata t1]) = Ret 1 {| W := w; L := l3 |}
    ∧ stack l3 = frame [LLightUserdata t1; LUserdata h3]
    ∧ h3 ≠ h1
    ∧ is_task_handle l3 h1 t1
    ∧ is_task_handle l3 h3 t1
    ∧ is_task_handle l3 h2 t2.
Proof.
  intros Ht1 Ht2 Hne Hok Hc Hn2.
  (* first get *)
  destruct (clp_buildtask_spec w (set_stack [LLightUserdata t1] l) t1 Hok Hc)
    as (l1 & h1 & Hrun1 & Hstk1 & Hh1 & Hcd1 & Hhit1 & Hnew1 & Hext1 & Hc1).
  assert (task_metatable_ok l1) as Hok1 by (by eapply extends_metatable).
  (* the same get again *)
  destruct (clp_buildtask_spec w (set_stack [LLightUserdata t1] l1) t1 Hok1 Hc1)
    as (l1' & h1' & Hrun1' & Hstk1' & _ & _ & Hhit1' & _ & _ & _).
  destruct (Hhit1' h1 Hcd1) as (<- & Hr1' & Htb1' & Hud1').
  (* t2 is not cached after the first get *)
  assert (∀ u0, ¬ cached l1 t2 u0) as Hn2'.
  { intros u0 Hcd. destruct (cached_dec l t1 Hc) as [(u1 & Hcd1')|Hnone].
    - destruct (Hhit1 u1 Hcd1') as (_ & Hr & Htb & _).
      apply (Hn2 u0). by apply (cached_same l l1).
    - apply Hne. symmetry.
      by apply (clp_buildtask_only w (set_stack [LLightUserdata t1] l) l1 t1 Hok Hc Hnone
                  Hrun1 t2 u0). }
  (* get of the other task *)
  destruct (clp_buildtask_spec w (set_stack [LLightUserdata t2] l1) t2 Hok1 Hc1)
    as (l2 & h2 & Hrun2 & Hstk2 & Hh2 & Hcd2 & _ & Hnew2 & Hext2 & Hc2).
  assert (task_metatable_ok l2) as Hok2 by (by eapply extends_metatable).
  assert (∀ u0, ¬ cached l2 t1 u0) as Hn1.
  { intros u0 Hcd. apply Hne.
    by apply (clp_buildtask_only w (set_stack [LLightUserdata t2] l1) l2 t2 Hok1 Hc1 Hn2'
                Hrun2 t1 u0). }
  (* get of the first task again *)
  destruct (clp_buildtask_spec w (set_stack [LLightUserdata t1] l2) t1 Hok2 Hc2)
    as (l3 & h3 & Hrun3 & Hstk3 & Hh3 & _ & _ & Hnew3 & Hext3 & _).
  exists l1, l2, l3, h1, h2, h3.
  split; [by apply clp_gettask_build|]. split; [done|].
  split.
  { rewrite (clp_gettask_build w l1 l1' t1 Ht1 Hrun1').
    destruct l1 as [s1 r1 tb1 ud1], l1' as [s1' r1' tb1' ud1']. simpl in *.
    unfold return_state, set_stack. simpl. by subst. }
  split; [by apply clp_gettask_build|]. split; [done|].
  split; [by apply clp_gettask_build|]. split; [done|].
  split.
  { rewrite (Hnew3 Hn1). simpl.
    destruct Hh1 as (m1 & _ & Hd1).
    destruct Hext2 as (_ & _ & ext & Hud). simpl in Hud.
    apply lookup_lt_Some in Hd1. rewrite Hud, length_app. lia. }
  split; [|split; [done|]].
  - eapply extends_handle; [exact Hext3|]. eapply extends_handle; [exact Hext2|done].
  - eapply extends_handle; [exact Hext3|done].
Qed.

Lemma cache_holds_one_handle_witness :
  ∃ (l1 l2 l3 : lua_State) (h1 h2 h3 : nat),
    clp_gettask (call_state (W unwrapped) (L unwrapped) [LLightUserdata 3%nat])
    = Ret 1 {| W := W unwrapped; L := l1 |}
    ∧ clp_gettask (call_state (W unwrapped) l1 [LLightUserdata 3%nat])
      = Ret 1 (return_state (W unwrapped) l1 [LLightUserdata 3%nat] [LUserdata h1])
    ∧ clp_gettask (call_state (W unwrapped) l1 [LLightUserdata 4%nat])
      = Ret 1 {| W := W unwrapped; L := l2 |}
    ∧ clp_gettask (call_state (W unwrapped) l2 [LLightUserdata 3%nat])
      = Ret 1 {| W := W unwrapped; L := l3 |}
    ∧ stack l3 = frame [LLightUserdata 3%nat; LUserdata h3]
    ∧ h3 ≠ h1.
Proof.
  assert (3%nat ≠ NULL) as H3 by (unfold NULL; lia).
  assert (4%nat ≠ NULL) as H4 by (unfold NULL; lia).
  assert (3%nat ≠ 4%nat) as Hne by lia.
  assert (task_metatable_ok (L unwrapped)) as Hok.
  { exists 2%nat. eexists. split; [vm_compute; reflexivity|].
    split; vm_compute; reflexivity. }
  assert (cache_ok (L unwrapped)) as Hc.
  { left. intros c. vm_compute. discriminate. }
  assert (∀ u0, ¬ cached (L unwrapped) 4 u0) as Hn.
  { intros u0 (c & ct & (Hr & _) & _). vm_compute in Hr. discriminate. }
  destruct (cache_holds_one_handle (W unwrapped) (L unwrapped) 3 4 H3 H4 Hne Hok Hc Hn)
    as (l1 & l2 & l3 & h1 & h2 & h3 & G1 & _ & G2 & G3 & _ & G4 & G5 & G6 & _).
  exists l1, l2, l3, h1, h2, h3.
  split; [exact G1|]. split; [exact G2|]. split; [exact G3|]. split; [exact G4|].
  split; [exact G5|exact G6].
Defined.

(** ** After [destroy] *)

(** X21.  [destroy] leaves the cache of handles and the address of the task as
    they are. If the destroyed handle is the cached one, [get] of the task's
    address returns that handle, which holds null. If no handle of the task is
    cached, [get] makes a new handle of the task, and [spawn] on it is
    accepted: the task's [env] still holds the address of the freed buffer, so
    the instances are created for a task whose environment is freed. *)
Theorem destroy_then_get (w : world) (l : lua_State) (u : nat) (t : ptr)
    (T : clp_Task) (b : string) (n : Z) :
  is_task_handle l u t →
  get_task w t = Some T →
  get_bytes w (t_env T) = Some b →
  task_metatable_ok l →
  cache_ok l →
  pool_ready w (t_pool T) →
  0 < n ≤ INT_MAX →
  INT_MIN ≤ t_instances T + n ≤ INT_MAX →
  ∃ (w' : world) (l' : lua_State),
    clp_destroytask (call_state w l [LUserdata u])
    = Ret 0 (return_state w' l' [LUserdata u] [])
    ∧ is_task_handle l' u NULL
    ∧ deref w' (t_env T) = Some CFreed
    ∧ (cached l t u →
       clp_gettask (call_state w' l' [LLightUserdata t])
       = Ret 1 (return_state w' l' [LLightUserdata t] [LUserdata u]))
    ∧ ((∀ u0, ¬ cached l t u0) →
       ∃ (l2 : lua_State) (h : nat) (w2 : world),
         clp_gettask (call_state w' l' [LLightUserdata t]) = Ret 1 {| W := w'; L := l2 |}
         ∧ stack l2 = frame [LLightUserdata t; LUserdata h]
         ∧ is_task_handle l2 h t
         ∧ task_instantiate (call_state w' l2 [LUserdata h; LNumber n])
           = Ret 1 (return_state w2 l2 [LUserdata h; LNumber n] [LUserdata h])
         ∧ get_task w2 t = Some (spawned n (set_t_input NULL T))
         ∧ deref w2 (t_env T) = Some CFreed
         ∧ ∀ i, i ∈ seq (S (length (mem w))) (Z.to_nat n) →
                get_instance w2 i = Some (new_instance t)).
Proof.
  intros Hh HT Hb Hok Hc (p' & q' & P & Q & Hp & HP & Hq & HQ & Hcap) Hn Hsum.
  pose proof Hh as (m & Hr & Hu).
  destruct (get_task_ptr _ _ _ HT) as (t' & -> & HT').
  assert (∃ e', t_env T = S e' ∧ mem w !! e' = Some (CBytes b)) as (e' & He & Hb').
  { unfold get_bytes, deref in Hb. destruct (t_env T) as [|e']; [done|].
    destruct (mem w !! e') as [[]|] eqn:E; try done. injection Hb as ->. eauto. }
  pose proof (lookup_lt_Some _ _ _ HT') as Hlt.
  pose proof (lookup_lt_Some _ _ _ Hb') as Hlte.
  pose proof (lookup_lt_Some _ _ _ Hu) as Hltu.
  pose proof (lookup_lt_Some _ _ _ HP) as Hltp.
  pose proof (lookup_lt_Some _ _ _ HQ) as Hltq.
  assert (t' ≠ e') by (intros ->; congruence).
  assert (t' ≠ p') by (intros ->; congruence).
  assert (t' ≠ q') by (intros ->; congruence).
  assert (e' ≠ p') by (intros ->; congruence).
  assert (e' ≠ q') by (intros ->; congruence).
  set (w' := {| mem := <[t' := CTask (set_t_input NULL T)]> (<[e' := CFreed]> (mem w));
                threads := threads w; clp_defaultpool := clp_defaultpool w |}).
  set (l' := set_udata (<[u := {| ud_block := NULL; ud_meta := Some m |}]> (udata l)) l).
  assert (is_task_handle l' u NULL) as Hdead.
  { exists m. split; [done|]. simpl. by rewrite list_lookup_insert_eq. }
  assert (deref w' (t_env T) = Some CFreed) as Hfreed.
  { rewrite He. unfold deref. simpl.
    rewrite list_lookup_insert_ne by done. by rewrite list_lookup_insert_eq. }
  exists w', l'. split; [by eapply clp_destroytask_live|].
  split; [done|]. split; [done|]. split.
  - intros (c & ct & Hcache & Hf).
    apply clp_gettask_build; [done|].
    destruct l as [s r tb ud]. subst l'.
    unfold return_state, set_stack, set_udata. cbn [stack registry tables udata].
    change (frame ([LLightUserdata (S t')] ++ [LUserdata u]))
      with [LUserdata u; LLightUserdata (S t')].
    by apply (clp_buildtask_hit w' _ r tb _ (S t') c u ct).
  - intros Hnone.
    assert (task_metatable_ok l') as Hok' by done.
    assert (cache_ok l') as Hc'.
    { destruct Hc as [Hc | (c & ct & Hcache & Hv)]; [by left|right].
      exists c, ct. split; [done|]. intros t2 v Hf.
      destruct (Hv _ _ Hf) as (u2 & -> & m2 & Hr2 & Hu2).
      exists u2. split; [done|]. exists m2. split; [done|]. simpl.
      destruct (decide (u2 = u)) as [->|Hne].
      - assert (t2 = S t') as -> by congruence.
        destruct (Hnone u). by exists c, ct.
      - by rewrite list_lookup_insert_ne. }
    destruct (clp_buildtask_spec w' (set_stack [LLightUserdata (S t')] l') (S t') Hok' Hc')
      as (l2 & h & Hrun & Hstk & Hh2 & _).
    assert (mem w' !! t' = Some (CTask (set_t_input NULL T))) as HT2
      by (simpl; by rewrite list_lookup_insert_eq by (by rewrite length_insert)).
    assert (mem w' !! p' = Some (CPool P)) as HP2
      by (simpl; by rewrite !list_lookup_insert_ne).
    assert (mem w' !! q' = Some (CQueue Q)) as HQ2
      by (simpl; by rewrite !list_lookup_insert_ne).
    assert (t_env (set_t_input NULL T) ≠ NULL) as He2
      by (destruct T; simpl in *; by rewrite He).
    assert (t_pool (set_t_input NULL T) = S p') as Hp2 by (by destruct T).
    assert (INT_MIN ≤ t_instances (set_t_input NULL T) + n ≤ INT_MAX) as Hsum2
      by (by destruct T).
    eexists l2, h, _. split; [by apply clp_gettask_build|].
    split; [done|]. split; [done|].
    split.
    { exact (task_instantiate_pos w' l2 h t' p' q' _ P Q n
               Hh2 HT2 Hp2 He2 HP2 Hq HQ2 Hcap Hn Hsum2). }
    assert (length (mem w') = length (mem w)) as Hlen
      by (simpl; by rewrite !length_insert).
    rewrite Hlen.
    split.
    { unfold get_task, deref. cbn [mem].
      rewrite lookup_app_l by (rewrite !length_insert; lia).
      rewrite list_lookup_insert_ne by done.
      by rewrite list_lookup_insert_eq by lia. }
    split.
    { rewrite He. unfold deref. cbn [mem].
      rewrite lookup_app_l by (rewrite !length_insert; lia).
      rewrite !list_lookup_insert_ne by done.
      rewrite He in Hfreed. exact Hfreed. }
    intros i Hi. apply elem_of_seq in Hi.
    unfold get_instance, deref. destruct i as [|i']; [lia|]. cbn [mem].
    rewrite lookup_app_r by (rewrite !length_insert; lia).
    rewrite !length_insert.
    rewrite lookup_replicate_2 by lia. done.
Qed.

Lemma destroy_then_get_witness :
  ∃ (w' : world) (l' l2 : lua_State) (h : nat) (w2 : world),
    clp_destroytask (call_state (W running) (L running) [LUserdata 1])
    = Ret 0 (return_state w' l' [LUserdata 1] [])
    ∧ deref w' 4 = Some CFreed
    ∧ clp_gettask (call_state w' l' [LLightUserdata 3%nat]) = Ret 1 {| W := w'; L := l2 |}
    ∧ is_task_handle l2 h 3
    ∧ task_instantiate (call_state w' l2 [LUserdata h; LNumber 1])
      = Ret 1 (return_state w2 l2 [LUserdata h; LNumber 1] [LUserdata h])
    ∧ deref w2 4 = Some CFreed
    ∧ get_instance w2 7 = Some (new_instance 3).
Proof.
  assert (is_task_handle (L running) 1 3) as Hh
    by (exists 3%nat; split; vm_compute; reflexivity).
  assert (get_task (W running) 3 = Some running_task) as HT by (vm_compute; reflexivity).
  assert (get_bytes (W running) (t_env running_task) = Some "iiiiiii;") as Hb
    by (vm_compute; reflexivity).
  assert (task_metatable_ok (L running)) as Hok.
  { exists 3%nat. eexists. split; [vm_compute; reflexivity|].
    split; vm_compute; reflexivity. }
  assert (cache_ok (L running)) as Hc.
  { left. intros c. vm_compute. discriminate. }
  assert (pool_ready (W running) (t_pool running_task)) as Hp.
  { exists 0%nat, 1%nat, running_pool, running_queue.
    split; [reflexivity|]. split; [vm_compute; reflexivity|]. split; [reflexivity|].
    split; [vm_compute; reflexivity|]. simpl. lia. }
  assert (0 < 1 ≤ INT_MAX) as Hn by (unfold INT_MAX; lia).
  assert (INT_MIN ≤ t_instances running_task + 1 ≤ INT_MAX) as Hsum
    by (unfold INT_MIN, INT_MAX; simpl; lia).
  assert (∀ u0, ¬ cached (L running) 3 u0) as Hnone.
  { intros u0 (c & ct & (Hr & _) & _). vm_compute in Hr. discriminate. }
  destruct (destroy_then_get (W running) (L running) 1 3 running_task "iiiiiii;" 1
              Hh HT Hb Hok Hc Hp Hn Hsum)
    as (w' & l' & Hd & _ & Hf & _ & Hget).
  destruct (Hget Hnone) as (l2 & h & w2 & G1 & _ & G3 & G4 & _ & G6 & G7).
  exists w', l', l2, h, w2.
  split; [exact Hd|]. split; [exact Hf|]. split; [exact G1|]. split; [exact G3|].
  split; [exact G4|]. split; [exact G6|].
  assert (7%nat ∈ seq (S (length (mem (W running)))) (Z.to_nat 1)) as Hin
    by (vm_compute; apply list_elem_of_here).
  exact (G7 7%nat Hin).
Defined.

(** X22.  A destroyed handle, which holds null, still passes the check of the
    receiver: [clp_totask] tests the address of the userdata block, which is
    never null, and returns the null task. So [__id] returns the null address,
    two destroyed handles compare equal whatever tasks they were handles of,
    and [remove()] returns the handle; the methods that read the task ([size],
    [spawn], [parent], [pool], [wrap], and [remove] with a count) do it
    through the null pointer, which the model renders as [Fault]. *)
Theorem destroyed_handle_is_accepted (w : world) (l : lua_State) (u : nat) :
  is_task_handle l u NULL →
  clp_totask 1 (call_state w l [LUserdata u]) = Ret NULL (call_state w l [LUserdata u])
  ∧ task_ptr (call_state w l [LUserdata u])
    = Ret 1 (return_state w l [LUserdata u] [LLightUserdata NULL])
  ∧ (∀ u2, is_task_handle l u2 NULL →
       task_eq (call_state w l [LUserdata u; LUserdata u2])
       = Ret 1 (return_state w l [LUserdata u; LUserdata u2] [LBoolean true]))
  ∧ task_destroyinstances (call_state w l [LUserdata u])
    = Ret 1 (return_state w l [LUserdata u] [LUserdata u])
  ∧ get_max_instances (call_state w l [LUserdata u]) = Fault
  ∧ (∀ args, task_instantiate (call_state w l (LUserdata u :: args)) = Fault)
  ∧ task_getparent (call_state w l [LUserdata u]) = Fault
  ∧ task_getpool (call_state w l [LUserdata u]) = Fault
  ∧ (∀ f, task_wrap (call_state w l [LUserdata u; LClosure f]) = Fault)
  ∧ (∀ n, 0 < n ≤ INT_MAX →
       task_destroyinstances (call_state w l [LUserdata u; LNumber n]) = Fault).
Proof.
  intros Hh. pose proof Hh as (m & Hr & Hu).
  split; [|split; [|split; [|split; [|split; [|split; [|split; [|split; [|split]]]]]]]].
  - destruct l as [s r tb ud]. simpl in *. cm_eval fail. reflexivity.
  - by apply task_ptr_ok.
  - intros u2 (m2 & Hr2 & Hu2). destruct l as [s r tb ud]. simpl in *.
    assert (m2 = m) as -> by congruence.
    pose proof (task_eq_ok w r tb ud u u2 NULL NULL m Hr Hu Hu2) as H.
    rewrite bool_decide_true in H by done. exact H.
  - apply (task_destroyinstances_zero w l u NULL []); [done|by left].
  - destruct l as [s r tb ud]. simpl in *. unfold get_max_instances.
    cm_eval fail. reflexivity.
  - intros args. unfold task_instantiate, clp_totask, luaL_checkudata, call_state.
    cbv beta iota delta [mbind CM_bind getL]. cbn [L]. rewrite index2adr_first.
    unfold getmetatable, set_stack. cbn [udata registry]. rewrite Hu, Hr. simpl.
    rewrite decide_True by done. cm_eval fail. reflexivity.
  - destruct l as [s r tb ud]. simpl in *. unfold task_getparent.
    cm_eval fail. reflexivity.
  - destruct l as [s r tb ud]. simpl in *. unfold task_getpool.
    cm_eval fail. reflexivity.
  - intros f. destruct l as [s r tb ud]. simpl in *. unfold task_wrap.
    cm_eval fail. reflexivity.
  - intros n Hn. destruct l as [s r tb ud]. simpl in *.
    assert (to_int n = n) as Hn' by (apply to_int_id; unfold INT_MIN, INT_MAX in *; lia).
    assert ((n <? 0) = false) by lia.
    assert ((n =? 0) = false) by lia.
    unfold task_destroyinstances. cm_eval fail. reflexivity.
Qed.

Lemma destroyed_handle_is_accepted_witness :
  clp_totask 1 (call_state (W destroyed) (L destroyed) [LUserdata 1])
  = Ret NULL (call_state (W destroyed) (L destroyed) [LUserdata 1])
  ∧ get_max_instances (call_state (W destroyed) (L destroyed) [LUserdata 1]) = Fault
  ∧ task_instantiate (call_state (W destroyed) (L destroyed) [LUserdata 1; LNumber 1])
    = Fault.
Proof.
  assert (is_task_handle (L destroyed) 1 NULL) as Hh
    by (exists 3%nat; split; vm_compute; reflexivity).
  destruct (destroyed_handle_is_accepted (W destroyed) (L destroyed) 1 Hh)
    as (H1 & _ & _ & _ & H5 & H6 & _).
  split; [exact H1|]. split; [exact H5|exact (H6 [LNumber 1])].
Defined.

(** ** The receiver of a pool method, and [Pool.new] without a size *)

Lemma luaL_checkudata_pool_reject (w : world) (l : lua_State) (v : lua_value)
    (args : list lua_value) :
  ¬ is_pool_value l v →
  luaL_checkudata 1 CLP_POOL_METATABLE (call_state w l (v :: args))
  = Raise ("bad argument (" +:+ CLP_POOL_METATABLE +:+ " expected)")
          (call_state w l (v :: args)).
Proof.
  intros Hv. unfold luaL_checkudata, call_state.
  cbv beta iota delta [mbind CM_bind getL]. cbn [L].
  rewrite index2adr_first.
  destruct v; try reflexivity.
  unfold getmetatable, set_stack. cbn [udata registry].
  destruct (udata l !! u) as [[t [m|]]|] eqn:Hu; try reflexivity. simpl.
  destruct (registry l !! KStr CLP_POOL_METATABLE) as [[]|] eqn:Hr; try reflexivity.
  destruct (decide (m = r)) as [->|]; [|reflexivity].
  destruct Hv. exists u, t. split; [done|]. by exists r.
Qed.

Lemma clp_topool_reject {B} (w : world) (l : lua_State) (v : lua_value)
    (args : list lua_value) (k : ptr → CM B) :
  ¬ is_pool_value l v →
  (clp_topool 1 ≫= k) (call_state w l (v :: args))
  = Raise ("bad argument (" +:+ CLP_POOL_METATABLE +:+ " expected)")
          (call_state w l (v :: args)).
Proof.
  intros Hv. unfold clp_topool. rewrite bind_assoc_eq.
  apply bind_Raise_eq. by apply luaL_checkudata_pool_reject.
Qed.

(** X23.  The methods of a pool check their receiver: on a first argument that
    is not a Pool handle of the interpreter (a number, nil, a Process handle,
    ...) each raises the type error of [luaL_checkudata] and changes nothing,
    whatever the other arguments: no thread is started, no tombstone is
    queued. *)
Theorem pool_methods_reject_other_values (w : world) (l : lua_State) (v : lua_value)
    (args : list lua_value) :
  ¬ is_pool_value l v →
  let entry := call_state w l (v :: args) in
  ∃ msg : string,
    pool_addthread entry = Raise msg entry
    ∧ pool_size entry = Raise msg entry
    ∧ pool_killthread entry = Raise msg entry
    ∧ pool_eq entry = Raise msg entry
    ∧ pool_ptr entry = Raise msg entry.
Proof.
  intros Hv entry. eexists. repeat split.
  - by apply clp_topool_reject.
  - by apply clp_topool_reject.
  - by apply clp_topool_reject.
  - by apply clp_topool_reject.
  - apply bind_Raise_eq. by apply luaL_checkudata_pool_reject.
Qed.

Lemma pool_methods_reject_other_values_witness :
  ∃ msg : string,
    pool_addthread (call_state (W running) (L running) [LUserdata 1; LNumber 1])
    = Raise msg (call_state (W running) (L running) [LUserdata 1; LNumber 1])
    ∧ pool_killthread (call_state (W running) (L running) [LUserdata 1; LNumber 1])
      = Raise msg (call_state (W running) (L running) [LUserdata 1; LNumber 1]).
Proof.
  assert (¬ is_pool_value (L running) (LUserdata 1)) as Hv.
  { intros (u & t & [= <-] & m & Hm & Hu). vm_compute in Hm, Hu. congruence. }
  destruct (pool_methods_reject_other_values (W running) (L running) (LUserdata 1)
              [LNumber 1] Hv) as (msg & H1 & _ & H3 & _).
  exists msg. split; [exact H1|exact H3].
Defined.

(** X24.  [Pool.new] reads its size with [lua_tointeger], which gives 0 for an
    absent or nil argument: [Pool.new()] makes a pool of size 0 and starts no
    thread. *)
Theorem pool_new_without_size (w : world) (l : lua_State) (args : list lua_value) :
  pool_metatable_ok l →
  args = [] ∨ args = [LNil] →
  ∃ (l' : lua_State),
    pool_new (call_state w l args)
    = Ret 1 {| W := {| mem := mem w ++ [CPool {| p_size := 0; p_lock := 0;
                                                 p_ready := S (S (length (mem w))) |};
                                        CQueue {| q_items := []; q_capacity := -1 |}];
                       threads := threads w;
                       clp_defaultpool := clp_defaultpool w |};
               L := l' |}
    ∧ stack l' = frame (args ++ [LUserdata (length (udata l))])
    ∧ is_pool_handle l' (length (udata l)) (S (length (mem w))).
Proof.
  intros Hmt Hargs. destruct l as [s r tb ud], w as [M thr dp].
  assert (to_int 0 = 0) as Hz by reflexivity.
  unfold is_pool_handle.
  destruct Hargs as [-> | ->]; destruct Hmt as [Hmt | [m Hmt]]; simpl in Hmt;
    (eexists; split; [|split];
     [ unfold pool_new, clp_buildpool, get_metatable; unfold call_state; simpl;
       cm_go cm_addthread; cm_eval fail; rewrite ?app_nil_r; reflexivity
     | reflexivity
     | simpl; eexists; split;
       [ first [ by rewrite lookup_insert_eq | done ] | by rewrite app_lookup_0 ] ]).
Qed.

Lemma pool_new_without_size_witness :
  ∃ (l' : lua_State),
    pool_new (call_state {| mem := []; threads := []; clp_defaultpool := NULL |}
                         luaL_newstate [])
    = Ret 1 {| W := {| mem := [CPool {| p_size := 0; p_lock := 0; p_ready := 2 |};
                               CQueue {| q_items := []; q_capacity := -1 |}];
                       threads := [];
                       clp_defaultpool := NULL |};
               L := l' |}
    ∧ is_pool_handle l' 0 1.
Proof.
  assert (pool_metatable_ok luaL_newstate) as Hmt by (left; vm_compute; reflexivity).
  destruct (pool_new_without_size {| mem := []; threads := []; clp_defaultpool := NULL |}
              luaL_newstate [] Hmt (or_introl eq_refl))
    as (l' & Hrun & _ & Hh).
  exists l'. split; [exact Hrun|exact Hh].
Defined.
